(** * etz: the news aggregation servers

  A shallow embedding of [src/server.js] (per-source extraction, fan-out
  aggregation with a failure report) and of [src/backend/server.js]
  (the same pipeline behind a single-slot cache, and the [/api/news]
  handler), followed by the properties of the extraction, aggregation and
  caching engine; then the pure parts of the client, [src/public/main.js]
  (escaping, paging, retrying, category colours).

  Conventions.  A JavaScript number that may be [NaN] is an [option Z]
  ([None] is [NaN]).  A function that may throw, or an [async] function whose
  promise may reject, returns a [Completion].  Log output is not modelled.
  The libraries that read documents, dates and URLs (cheerio, the dayjs text
  parser, [URL], [String.prototype.trim]) are the fields of the [Host]
  class, and the theorems hold for every host; what the network answers and
  what the clock reads are the fields of a [World]. *)

From Stdlib Require Import ZArith List String Ascii Bool Lia Sorted Permutation DecimalString.
Import ListNotations.

#[local] Set Warnings "-register-all".

Local Open Scope string_scope.
Local Open Scope list_scope.
Local Open Scope Z_scope.

Infix "+++" := String.append (right associativity, at level 60).

(** ** JavaScript runtime *)
Module Js.

(** [error.response] of an axios rejection. *)
Record ErrorResponse := { status : Z; statusText : string }.

(** An [Error] as the servers read it: [error.message] and [error.response]. *)
Record Error := { message : string; response : option ErrorResponse }.

(** [new Error(m)] and the engine's [TypeError]s carry no [response]. *)
Definition mkError (m : string) : Error := {| message := m; response := None |}.

(** The outcome of evaluating a block, or the settled state of a promise. *)
Inductive Completion (A : Type) : Type :=
| Return (a : A)
| Throw (e : Error).
Arguments Return {A} a.
Arguments Throw {A} e.

Definition bind {A B} (c : Completion A) (k : A -> Completion B) : Completion B :=
  match c with
  | Return a => k a
  | Throw e => Throw e
  end.

(** [try { c } catch (error) { handler }] *)
Definition tryCatch {A} (c : Completion A) (handler : Error -> Completion A) : Completion A :=
  match c with
  | Return a => Return a
  | Throw e => handler e
  end.

(** A number that may be [NaN]. *)
Definition Number := option Z.

Definition sub (a b : Number) : Number :=
  match a, b with
  | Some x, Some y => Some (x - y)
  | _, _ => None
  end.

(** Template-literal rendering of an integer. *)
Definition toString (z : Z) : string := NilZero.string_of_int (Z.to_int z).

(** Truthiness of a string: only the empty string is falsy. *)
Definition truthy (s : string) : bool := negb (s =? "")%string.

(** [String.prototype.padStart(n, "0")] *)
Fixpoint zeros (n : nat) : string :=
  match n with
  | O => ""
  | S k => "0" +++ zeros k
  end.

Definition padStart (s : string) (n : nat) : string :=
  zeros (n - String.length s) +++ s.

(** [Array.prototype.sort(comparefn)].  The sort is stable, and a comparator
    result of [NaN] counts as [+0]; for a consistent comparator the result
    is the one stable ordering, which insertion from the right computes. *)
Definition sortCompare {A} (comparefn : A -> A -> Number) (a b : A) : Z :=
  match comparefn a b with
  | Some v => v
  | None => 0
  end.

Fixpoint insert {A} (comparefn : A -> A -> Number) (x : A) (l : list A) : list A :=
  match l with
  | [] => [x]
  | y :: l' =>
      if sortCompare comparefn x y <=? 0 then x :: l
      else y :: insert comparefn x l'
  end.

Definition sort {A} (comparefn : A -> A -> Number) (l : list A) : list A :=
  fold_right (insert comparefn) [] l.

(** [Promise.all]: the values in array order, or the rejection.  The only
    mappers that reject in either server are those of [null] registry
    entries, which settle before any request does, in array order. *)
Fixpoint Promise_all {A} (ps : list (Completion A)) : Completion (list A) :=
  match ps with
  | [] => Return []
  | p :: ps' =>
      match p with
      | Throw e => Throw e
      | Return a =>
          match Promise_all ps' with
          | Return l => Return (a :: l)
          | Throw e => Throw e
          end
      end
  end.

(** [Array.prototype.map] with the index the callback receives. *)
Fixpoint mapi_from {A B} (i : nat) (f : nat -> A -> B) (l : list A) : list B :=
  match l with
  | [] => []
  | x :: l' => f i x :: mapi_from (S i) f l'
  end.

Definition mapi {A B} (f : nat -> A -> B) (l : list A) : list B := mapi_from 0 f l.

(** *** [parseInt(string)] with no radix *)

(** A string is the sequence of the bytes of its UTF-8 encoding.  The
    white space [parseInt] skips is [StrWhiteSpaceChar]: the blanks of one
    byte (TAB, LF, VT, FF, CR, SP), of two (U+00A0) and of three (U+1680,
    U+2000 to U+200A, U+2028, U+2029, U+202F, U+205F, U+3000, U+FEFF). *)
Definition byte (c : ascii) : Z := Z.of_nat (nat_of_ascii c).

Definition isSpace1 (a : ascii) : bool :=
  ((9 <=? byte a) && (byte a <=? 13)) || (byte a =? 32).

Definition isSpace2 (a b : ascii) : bool := (byte a =? 194) && (byte b =? 160).

Definition isSpace3 (a b c : ascii) : bool :=
  ((byte a =? 225) && (byte b =? 154) && (byte c =? 128))
  || ((byte a =? 226) && (byte b =? 128)
      && (((128 <=? byte c) && (byte c <=? 138))
          || (byte c =? 168) || (byte c =? 169) || (byte c =? 175)))
  || ((byte a =? 226) && (byte b =? 129) && (byte c =? 159))
  || ((byte a =? 227) && (byte b =? 128) && (byte c =? 128))
  || ((byte a =? 239) && (byte b =? 187) && (byte c =? 191)).

Fixpoint skipSpaces (s : string) : string :=
  match s with
  | String a s1 =>
      if isSpace1 a then skipSpaces s1
      else
        match s1 with
        | String b s2 =>
            if isSpace2 a b then skipSpaces s2
            else
              match s2 with
              | String c s3 => if isSpace3 a b c then skipSpaces s3 else s
              | EmptyString => s
              end
        | EmptyString => s
        end
  | EmptyString => s
  end.

Definition digitValue (c : ascii) : option Z :=
  let n := Z.of_nat (nat_of_ascii c) in
  if (48 <=? n) && (n <=? 57) then Some (n - 48)
  else if (97 <=? n) && (n <=? 102) then Some (n - 87)
  else if (65 <=? n) && (n <=? 70) then Some (n - 55)
  else None.

(** The longest prefix of digits in radix [R], read from the left;
    [None] when it is empty. *)
Fixpoint digitsFrom (R : Z) (acc : option Z) (s : string) : option Z :=
  match s with
  | String c s' =>
      match digitValue c with
      | Some d =>
          if d <? R
          then digitsFrom R (Some (match acc with Some a => a * R + d | None => d end)) s'
          else acc
      | None => acc
      end
  | EmptyString => acc
  end.

(** The value is the integer the digits write; the code's number is the
    double nearest to it, which differs only beyond 2^53 and compares with
    the bounds used here in the same way. *)
Definition parseInt (input : option string) : Number :=
  match input with
  | None => None
  | Some str =>
      let S0 := skipSpaces str in
      let '(sign, S1) :=
        match S0 with
        | String "-" r => (-1, r)
        | String "+" r => (1, r)
        | _ => (1, S0)
        end in
      let '(R, S2) :=
        match S1 with
        | String "0" (String "x" r) => (16, r)
        | String "0" (String "X" r) => (16, r)
        | _ => (10, S1)
        end in
      option_map (Z.mul sign) (digitsFrom R None S2)
  end.

(** [x || y] on numbers: [NaN] and [0] are falsy. *)
Definition orElse (x : Number) (y : Number) : Number :=
  match x with
  | Some 0 | None => y
  | Some _ => x
  end.

Definition isNaN (x : Number) : bool :=
  match x with
  | None => true
  | Some _ => false
  end.

(** [x < c] and [x > c] against a constant: both are false on [NaN]. *)
Definition lt (x : Number) (c : Z) : bool :=
  match x with
  | Some v => v <? c
  | None => false
  end.

Definition gt (x : Number) (c : Z) : bool :=
  match x with
  | Some v => c <? v
  | None => false
  end.

(** [Array.prototype.map] with a callback that may throw: the first throw
    ends the traversal. *)
Fixpoint mapM {A B} (f : A -> Completion B) (l : list A) : Completion (list B) :=
  match l with
  | [] => Return []
  | x :: l' =>
      match f x with
      | Throw e => Throw e
      | Return y =>
          match mapM f l' with
          | Return ys => Return (y :: ys)
          | Throw e => Throw e
          end
      end
  end.

(** An object whose values are strings, its properties in insertion order. *)
Definition Dict := list (string * string).

(** [o[k]], [None] for [undefined] *)
Definition dictGet (k : string) (o : Dict) : option string :=
  option_map snd (List.find (fun p => (fst p =? k)%string) o).

(** [o[k] = v]: an existing property keeps its place, a new one goes last. *)
Fixpoint dictSet (o : Dict) (k v : string) : Dict :=
  match o with
  | [] => [(k, v)]
  | p :: o' => if (fst p =? k)%string then (k, v) :: o' else p :: dictSet o' k v
  end.

(** [{ ...a, ...b }] *)
Definition spread (a b : Dict) : Dict :=
  fold_left (fun o p => dictSet o (fst p) (snd p)) b a.

(** [Array.prototype.slice(start, end)] *)
Definition slice {A} (start stop : Z) (l : list A) : list A :=
  let len := Z.of_nat (List.length l) in
  let k := if start <? 0 then Z.max (len + start) 0 else Z.min start len in
  let final := if stop <? 0 then Z.max (len + stop) 0 else Z.min stop len in
  firstn (Z.to_nat (final - k)) (skipn (Z.to_nat k) l).

(** [s.replace(/c/g, replacement)] for a pattern of one character *)
Fixpoint replaceAll (c : ascii) (replacement : string) (s : string) : string :=
  match s with
  | EmptyString => EmptyString
  | String x r =>
      if (x =? c)%char then replacement +++ replaceAll c replacement r
      else String x (replaceAll c replacement r)
  end.

End Js.

Notation "x <- c ;; k" := (Js.bind c (fun x => k))
(at level 61, c at next level, right associativity).

(** ** dayjs *)
Module Dayjs.

Definition msPerDay : Z := 86400000.
Definition msPerMinute : Z := 60000.

(** Day number (days since 1970-01-01) of a proleptic Gregorian date. *)
Definition days_from_civil (y m d : Z) : Z :=
  let y' := if m <=? 2 then y - 1 else y in
  let era := y' / 400 in
  let yoe := y' - era * 400 in
  let mp := (m + 9) mod 12 in
  let doy := (153 * mp + 2) / 5 + d - 1 in
  let doe := yoe * 365 + yoe / 4 - yoe / 100 + doy in
  era * 146097 + doe - 719468.

Definition civil_from_days (z : Z) : Z * Z * Z :=
  let z' := z + 719468 in
  let era := z' / 146097 in
  let doe := z' - era * 146097 in
  let yoe := (doe - doe / 1460 + doe / 36524 - doe / 146096) / 365 in
  let doy := doe - (365 * yoe + yoe / 4 - yoe / 100) in
  let mp := (5 * doy + 2) / 153 in
  let d := doy - (153 * mp + 2) / 5 + 1 in
  let m := if mp <? 10 then mp + 3 else mp - 9 in
  let y := yoe + era * 400 + (if m <=? 2 then 1 else 0) in
  (y, m, d).

(** A dayjs object is the time value of the [Date] it wraps, in
    milliseconds since the epoch; [None] is [Invalid Date].  The host's
    local time is UTC plus a fixed [off] minutes: a zone that changes its
    offset during the year is not modelled. *)
Definition t := option Z.

Definition isValid (d : t) : bool :=
  match d with
  | Some _ => true
  | None => false
  end.

Definition valueOf (d : t) : Js.Number := d.

Definition localDay (off ms : Z) : Z := (ms + off * msPerMinute) / msPerDay.

Definition localMidnight (off day : Z) : Z := day * msPerDay - off * msPerMinute.

(** [d.subtract(n, 'day')] *)
Definition subtract (n : Z) (d : t) : t := option_map (fun ms => ms - n * msPerDay) d.

(** [d.startOf('day')] *)
Definition startOf (off : Z) (d : t) : t :=
  option_map (fun ms => localMidnight off (localDay off ms)) d.

(** [a.isAfter(b)]: [b.valueOf() < a.valueOf()], false when either is [NaN]. *)
Definition isAfter (a b : t) : bool :=
  match valueOf a, valueOf b with
  | Some x, Some y => y <? x
  | _, _ => false
  end.

Definition pad (width : nat) (z : Z) : string := Js.padStart (Js.toString z) width.

(** [d.format('YYYY-MM-DD')] *)
Definition format_date (off : Z) (d : t) : string :=
  match d with
  | None => "Invalid Date"
  | Some ms =>
      let '(y, m, dd) := civil_from_days (localDay off ms) in
      pad 4 y +++ "-" +++ pad 2 m +++ "-" +++ pad 2 dd
  end.

Definition format_time (msOfDay : Z) : string :=
  pad 2 (msOfDay / 3600000) +++ ":" +++ pad 2 (msOfDay / 60000 mod 60)
    +++ ":" +++ pad 2 (msOfDay / 1000 mod 60).

(** [d.format('YYYY-MM-DD HH:mm:ss')] *)
Definition format_datetime (off : Z) (d : t) : string :=
  match d with
  | None => "Invalid Date"
  | Some ms =>
      format_date off d +++ " " +++ format_time ((ms + off * msPerMinute) mod msPerDay)
  end.

(** [new Date(ms).toISOString()] *)
Definition toISOString (ms : Z) : string :=
  format_date 0 (Some ms) +++ "T" +++ format_time (ms mod msPerDay)
    +++ "." +++ pad 3 (ms mod 1000) +++ "Z".

Definition digit (c : ascii) : option Z :=
  let n := Z.of_nat (nat_of_ascii c) in
  if (48 <=? n) && (n <=? 57) then Some (n - 48) else None.

Definition isSeparator (c : ascii) : bool :=
  (c =? "-")%char || (c =? "/")%char.

(** The year, month and day of a string of the shape [dddd-dd-dd]
    (separators [-] or [/]), the shape [format_date] writes. *)
Definition ymd (s : string) : option (Z * Z * Z) :=
  match s with
  | String y1 (String y2 (String y3 (String y4 (String s1
      (String m1 (String m2 (String s2 (String d1 (String d2 EmptyString))))))))) =>
      match digit y1, digit y2, digit y3, digit y4,
            digit m1, digit m2, digit d1, digit d2 with
      | Some a, Some b, Some c, Some d, Some e, Some f, Some g, Some h =>
          if isSeparator s1 && isSeparator s2
          then Some (a * 1000 + b * 100 + c * 10 + d, e * 10 + f, g * 10 + h)
          else None
      | _, _, _, _, _, _, _, _ => None
      end
  | _ => None
  end.

(** The local calendar year of an instant. *)
Definition yearOf (off ms : Z) : Z := fst (fst (civil_from_days (localDay off ms))).

Definition isDigit (c : ascii) : bool :=
  match digit c with
  | Some _ => true
  | None => false
  end.

Definition twoDigits (s : string) : bool :=
  match s with
  | String a (String b EmptyString) => isDigit a && isDigit b
  | _ => false
  end.

Definition fourDigits (s : string) : bool :=
  match s with
  | String a (String b (String c (String d EmptyString))) =>
      isDigit a && isDigit b && isDigit c && isDigit d
  | _ => false
  end.

(** [dayjs(s)] on an item's [date]: the fields are handed to
    [new Date(y, m - 1, d)], which reads a year below 100 as 19xx, carries
    an out-of-range month into the year and a day into the month, and
    gives local midnight.  Every [date] the extractor stores was written by
    [format_date].  A string of another shape goes to [new Date(s)]: the one
    [format_date] writes for a year below 0, such as [00-1-06-01], is
    [Invalid Date] there, and so is every string of another shape here. *)
Definition dayjs (off : Z) (s : string) : t :=
  match ymd s with
  | Some (y, m, d) =>
      let y' := if y <? 100 then 1900 + y else y in
      let m0 := m - 1 in
      Some (localMidnight off
              (days_from_civil (y' + m0 / 12) (m0 mod 12 + 1) 1 + (d - 1)))
  | None => None
  end.

(** [text] is written in [format]: a digit stands for each letter [Y], [M]
    or [D] of the format and the format's own characters stand elsewhere.
    A text that matches a format strictly is written in it. *)
Fixpoint written (format text : string) : bool :=
  match format, text with
  | EmptyString, EmptyString => true
  | String f format', String c text' =>
      (if (f =? "Y")%char || (f =? "M")%char || (f =? "D")%char
       then isDigit c else (f =? c)%char)
      && written format' text'
  | _, _ => false
  end.

End Dayjs.

(** ** JSON, as [res.json] writes it *)
Module JSON.

Inductive t : Type :=
| JNull
| JBool (b : bool)
| JNumber (z : Z)
| JString (s : string)
| JArray (l : list t)
| JObject (fields : list (string * t)).

(** [JSON.stringify] of an object literal: a property whose value is
    [undefined] ([None]) is left out. *)
Definition object (props : list (string * option t)) : t :=
  JObject (flat_map (fun p => match snd p with
                              | Some v => [(fst p, v)]
                              | None => []
                              end) props).

(** The value of property [k], [None] when the object has no such key. *)
Definition get (k : string) (j : t) : option t :=
  match j with
  | JObject fields =>
      option_map snd (List.find (fun p => (fst p =? k)%string) fields)
  | _ => None
  end.

(** Truthiness of a value read from a parsed document; [None] is
    [undefined].  Numbers are the integers: a fraction is not represented. *)
Definition truthy (v : option t) : bool :=
  match v with
  | None => false
  | Some JNull => false
  | Some (JBool b) => b
  | Some (JNumber z) => negb (z =? 0)
  | Some (JString s) => negb (s =? "")%string
  | Some (JArray _) => true
  | Some (JObject _) => true
  end.

(** [Array.isArray(v)] *)
Definition isArray (v : option t) : bool :=
  match v with
  | Some (JArray _) => true
  | _ => false
  end.

End JSON.

(** ** The libraries and the machine the servers run on *)
Class Host : Type := {
  (** [response.data], the payload of an HTTP response *)
  Html : Type;
  (** an element of a loaded document *)
  Element : Type;
  (** [cheerio.load(data)(selector)]: the matches in document order; a
      malformed selector throws *)
  cheerio_select : Html -> string -> Js.Completion (list Element);
  (** [$(element).find(selector)] *)
  cheerio_find : Element -> string -> Js.Completion (list Element);
  (** [selection.text()] *)
  cheerio_text : list Element -> string;
  (** [selection.attr(name)], [None] for [undefined] *)
  cheerio_attr : list Element -> string -> option string;
  (** [dayjs(text, formats, strict)], as dayjs answers with the plugins the
      servers load, which are none *)
  dayjs_parse : string -> list string -> bool -> Dayjs.t;
  (** [new URL(href, base).href]; an unparsable URL throws *)
  URL_href : option string -> string -> Js.Completion string;
  (** [String.prototype.trim] *)
  String_trim : string -> string;
  (** local time is UTC plus this many minutes *)
  utcOffset : Z
}.

(** ** axios *)
Module Axios.
Section WithHost.
Context {H : Host}.

(** What the network does with one request, after redirects: no response at
    all (timeout, refused connection, too many redirects), or a response. *)
Inductive Outcome : Type :=
| NetworkError (message : string)
| HttpResponse (status : Z) (statusText : string) (data : Html).

Record Response := { status : Z; statusText : string; data : Html }.

(** [axios.get(url, { validateStatus })]: a response whose status
    [validateStatus] refuses rejects with an error carrying [response]. *)
Definition get (validateStatus : Z -> bool) (o : Outcome) : Js.Completion Response :=
  match o with
  | NetworkError m => Js.Throw (Js.mkError m)
  | HttpResponse st txt d =>
      if validateStatus st
      then Js.Return {| status := st; statusText := txt; data := d |}
      else Js.Throw {| Js.message := "Request failed with status code " +++ Js.toString st;
                       Js.response := Some {| Js.status := st; Js.statusText := txt |} |}
  end.

(** The default [validateStatus]. *)
Definition defaultValidateStatus (status : Z) : bool :=
  (200 <=? status) && (status <? 300).

End WithHost.
End Axios.

(** ** Records shared by the two servers *)
Module SourceConfig.

(** One entry of [config.sources]. *)
Record t := {
  url : string;
  title : string;
  dateSelector : string;
  itemSelector : string;
  titleSelector : string;
  hrefSelector : string
}.

End SourceConfig.

Module NewsItem.

Record t := {
  source : string;
  title : string;
  url : string;
  date : string
}.

Definition toJSON (item : t) : JSON.t :=
  JSON.object [("source", Some (JSON.JString (source item)));
               ("title", Some (JSON.JString (title item)));
               ("url", Some (JSON.JString (url item)));
               ("date", Some (JSON.JString (date item)))].

End NewsItem.

Module SourceError.

Record t := {
  source : string;
  error : string;
  timestamp : string
}.

Definition toJSON (e : t) : JSON.t :=
  JSON.object [("source", Some (JSON.JString (source e)));
               ("error", Some (JSON.JString (error e)));
               ("timestamp", Some (JSON.JString (timestamp e)))].

End SourceError.

(** An express response: [res.status(code).json(body)]. *)
Record Reply := { statusCode : Z; body : JSON.t }.

(** The strict formats handed to dayjs for an item's date text. *)
Definition dateFormats : list string :=
  ["YYYY/MM/DD"; "YYYY-MM-DD"; "YYYY.MM.DD"; "YYYY年MM月DD日"].

(** An entry of [config.sources] is whatever the JSON file holds: [None] is a
    [null] entry, the one value whose destructuring throws. *)
Definition SourceEntry := option SourceConfig.t.

(** ** What the two servers share word for word *)
Module Shared.
Section WithHost.
Context {H : Host}.

(** The [try] block of the callback given to [.each]: [Return None] is one
    of its early [return]s, [Return (Some item)] the item it pushes. *)
Definition eachBody (c : SourceConfig.t) (element : Element)
  : Js.Completion (option NewsItem.t) :=
  dateElement <- cheerio_find element (SourceConfig.dateSelector c) ;;
  if (List.length dateElement =? 0)%nat then Js.Return None else
  let dateText := String_trim (cheerio_text dateElement) in
  let date := dayjs_parse dateText dateFormats true in
  if negb (Dayjs.isValid date) then Js.Return None else
  titleElement <- cheerio_find element (SourceConfig.titleSelector c) ;;
  hrefElement <- cheerio_find element (SourceConfig.hrefSelector c) ;;
  if (List.length titleElement =? 0)%nat || (List.length hrefElement =? 0)%nat
  then Js.Return None else
  href <- URL_href (cheerio_attr hrefElement "href") (SourceConfig.url c) ;;
  let text :=
    match cheerio_attr titleElement "title" with
    | Some s => if Js.truthy s then s else String_trim (cheerio_text titleElement)
    | None => String_trim (cheerio_text titleElement)
    end in
  Js.Return (Some {| NewsItem.source := SourceConfig.title c;
                     NewsItem.title := text;
                     NewsItem.url := href;
                     NewsItem.date := Dayjs.format_date utcOffset date |}).

(** One turn of [.each]: the callback catches whatever its body throws. *)
Definition each (c : SourceConfig.t) (result : list NewsItem.t) (element : Element)
  : list NewsItem.t :=
  match eachBody c element with
  | Js.Return (Some item) => result ++ [item]
  | Js.Return None => result
  | Js.Throw err => result
  end.

(** [dayjs(item.date).valueOf()] *)
Definition dateValue (item : NewsItem.t) : Js.Number :=
  Dayjs.valueOf (Dayjs.dayjs utcOffset (NewsItem.date item)).

(** [(a, b) => dayjs(b.date).valueOf() - dayjs(a.date).valueOf()] *)
Definition byDateDesc (a b : NewsItem.t) : Js.Number :=
  Js.sub (dateValue b) (dateValue a).

(** [dayjs().subtract(days, 'day').startOf('day')], [now] being the instant
    [dayjs()] reads. *)
Definition cutoffDate (now days : Z) : Dayjs.t :=
  Dayjs.startOf utcOffset (Dayjs.subtract days (Some now)).

(** [item => dayjs(item.date).isAfter(cutoffDate)] *)
Definition inWindow (now days : Z) (item : NewsItem.t) : bool :=
  Dayjs.isAfter (Dayjs.dayjs utcOffset (NewsItem.date item)) (cutoffDate now days).

(** *** Vocabulary of the statements about items *)

(** [a] is dated no earlier than [b], both dates being readable. *)
Definition notEarlier (a b : NewsItem.t) : Prop :=
  match dateValue a, dateValue b with
  | Some x, Some y => y <= x
  | _, _ => False
  end.

(** The item's date is the day that starts at instant [v]. *)
Definition datedAt (v : Z) (item : NewsItem.t) : bool :=
  match dateValue item with
  | Some x => x =? v
  | None => false
  end.

(** [dayjs(item.date)] is a valid date. *)
Definition readable (item : NewsItem.t) : Prop := dateValue item <> None.

(** Every date the host's parser accepts has a year of four digits, as a
    date written in one of the [dateFormats] has. *)
Definition fourDigitYears : Prop :=
  forall text formats strict ms,
    dayjs_parse text formats strict = Some ms ->
    0 <= Dayjs.yearOf utcOffset ms <= 9999.

(** The ways an element can be malformed. *)
Definition dateMissing (c : SourceConfig.t) (element : Element) : Prop :=
  cheerio_find element (SourceConfig.dateSelector c) = Js.Return [].

Definition dateUnreadable (c : SourceConfig.t) (element : Element) : Prop :=
  exists dateElement,
    cheerio_find element (SourceConfig.dateSelector c) = Js.Return dateElement /\
    Dayjs.isValid (dayjs_parse (String_trim (cheerio_text dateElement)) dateFormats true)
      = false.

Definition titleOrLinkMissing (c : SourceConfig.t) (element : Element) : Prop :=
  cheerio_find element (SourceConfig.titleSelector c) = Js.Return [] \/
  cheerio_find element (SourceConfig.hrefSelector c) = Js.Return [].

Definition raises (c : SourceConfig.t) (element : Element) : Prop :=
  exists err, eachBody c element = Js.Throw err.

Definition malformed (c : SourceConfig.t) (element : Element) : Prop :=
  dateMissing c element \/ dateUnreadable c element \/
  titleOrLinkMissing c element \/ raises c element.

Definition serverError (error : Js.Error) : Reply :=
  {| statusCode := 500;
     body := JSON.object [("error", Some (JSON.JString "服务器错误"));
                          ("message", Some (JSON.JString (Js.message error)))] |}.

(** What a source contributes to a run, in either server: the items parsed
    from a response with status 200, nothing otherwise. *)
Definition parsedItems (c : SourceConfig.t) (o : Axios.Outcome) : list NewsItem.t :=
  match o with
  | Axios.NetworkError _ => []
  | Axios.HttpResponse status _ page =>
      if status =? 200 then
        match cheerio_select page (SourceConfig.itemSelector c) with
        | Js.Return elements => fold_left (each c) elements []
        | Js.Throw _ => []
        end
      else []
  end.

(** *** Configuration files and the category list *)

(** [value.key] on a parsed document: reading a property of [null] throws,
    and a value that is not an object has none of the keys read here. *)
Definition prop (key : string) (value : JSON.t) : Js.Completion (option JSON.t) :=
  match value with
  | JSON.JNull =>
      Js.Throw (Js.mkError ("Cannot read properties of null (reading '" +++ key +++ "')"))
  | _ => Js.Return (JSON.get key value)
  end.

(** [new Error('配置文件缺少必需字段')] *)
Definition missingFields : Js.Error := Js.mkError "配置文件缺少必需字段".

(** [source => source.title], and what [res.json] makes of [undefined] in an
    array. *)
Definition titleOf (source : JSON.t) : Js.Completion JSON.t :=
  title <- prop "title" source ;;
  Js.Return (match title with
             | Some v => v
             | None => JSON.JNull
             end).

(** The handler of [GET /api/news/categories], given the configuration
    [loadConfig] has just returned. *)
Definition categoriesReply (config : JSON.t) : Reply :=
  match
    (sources <- prop "sources" config ;;
     match sources with
     | Some (JSON.JArray l) => Js.mapM titleOf l
     | Some JSON.JNull => Js.Throw (Js.mkError "Cannot read properties of null (reading 'map')")
     | None => Js.Throw (Js.mkError "Cannot read properties of undefined (reading 'map')")
     | Some _ => Js.Throw (Js.mkError "config.sources.map is not a function")
     end)
  with
  | Js.Return categories => {| statusCode := 200; body := JSON.JArray categories |}
  | Js.Throw error => serverError error
  end.

End WithHost.
End Shared.

(** ** src/server.js *)
Module Server.
Section WithHost.
Context {H : Host}.

Record Config := { days : Z; sources : list SourceEntry }.

(** [validateStatus: status => status < 400] *)
Definition validateStatus (status : Z) : bool := status <? 400.

(** [error.response ? `HTTP status: ${...status} - ${...statusText || ''}`
    : error.message] *)
Definition errorMessage (error : Js.Error) : string :=
  match Js.response error with
  | Some r => "HTTP status: " +++ Js.toString (Js.status r) +++ " - " +++ Js.statusText r
  | None => Js.message error
  end.

(** [fetchContent(sourceConfig)], given what the network answers to its one
    request.  The request options (merged headers, timeout, redirects, TLS)
    act on the far side of that answer. *)
Definition fetchContent (sourceConfig : SourceEntry) (o : Axios.Outcome)
  : Js.Completion (list NewsItem.t) :=
  match sourceConfig with
  | None =>
      Js.Throw (Js.mkError "Cannot destructure property 'url' of 'sourceConfig' as it is null.")
  | Some c =>
      Js.tryCatch
        (response <- Axios.get validateStatus o ;;
         if Axios.status response =? 200 then
           elements <- cheerio_select (Axios.data response) (SourceConfig.itemSelector c) ;;
           Js.Return (fold_left (Shared.each c) elements [])
         else
           Js.Throw (Js.mkError ("HTTP status: " +++ Js.toString (Axios.status response))))
        (fun error =>
           Js.Throw (Js.mkError ("抓取失败 (" +++ errorMessage error +++ ")")))
  end.

(** What one run of [fetchAllData] meets: the answer to the request of the
    source at each index, the instant at which that source's mapper settles,
    and the instant the run's own [dayjs()] reads. *)
Record World := {
  http : nat -> Axios.Outcome;
  settledAt : nat -> Z;
  now : Z
}.

(** The mapper given to [CONFIG.sources.map], threading the shared [errors]
    array.  In its [catch], [source.title] throws when [source] is [null]. *)
Definition mapper (w : World) (i : nat) (source : SourceEntry) (errors : list SourceError.t)
  : Js.Completion (list NewsItem.t) * list SourceError.t :=
  match fetchContent source (http w i) with
  | Js.Return items => (Js.Return items, errors)
  | Js.Throw error =>
      match source with
      | None =>
          (Js.Throw (Js.mkError "Cannot read properties of null (reading 'title')"), errors)
      | Some c =>
          (Js.Return [],
           errors ++ [{| SourceError.source := SourceConfig.title c;
                         SourceError.error := Js.message error;
                         SourceError.timestamp := Dayjs.toISOString (settledAt w i) |}])
      end
  end.

(** The promises [map] returns, in array order.  What a mapper settles to
    does not depend on the [errors] array it is handed. *)
Definition promises (w : World) (srcs : list SourceEntry)
  : list (Js.Completion (list NewsItem.t)) :=
  Js.mapi (fun i source => fst (mapper w i source [])) srcs.

(** The mappers settle by increasing [settledAt], those that tie in array
    order. *)
Definition settleOrder (w : World) (srcs : list SourceEntry) : list (nat * SourceEntry) :=
  Js.sort (fun a b => Js.sub (Some (settledAt w (fst a))) (Some (settledAt w (fst b))))
          (Js.mapi pair srcs).

(** The [errors] array once every mapper has settled. *)
Definition settledErrors (w : World) (srcs : list SourceEntry) : list SourceError.t :=
  fold_left (fun errors task => snd (mapper w (fst task) (snd task) errors))
            (settleOrder w srcs) [].

Record AggregateResult := {
  updateTime : string;
  total : nat;
  allItems : list NewsItem.t;
  errors : option (list SourceError.t);
  partialSuccess : bool
}.

(** The default parameter [days = CONFIG.days]; [None] is an omitted argument. *)
Definition daysOrDefault (CONFIG : Config) (daysArg : option Z) : Z :=
  match daysArg with
  | Some d => d
  | None => days CONFIG
  end.

(** The [try] block of [fetchAllData]. *)
Definition aggregate (CONFIG : Config) (w : World) (days : Z)
  : Js.Completion AggregateResult :=
  results <- Js.Promise_all (promises w (sources CONFIG)) ;;
  let errors := settledErrors w (sources CONFIG) in
  let allItems := Js.sort Shared.byDateDesc (List.concat results) in
  let filteredItems := filter (Shared.inWindow (now w) days) allItems in
  Js.Return {| updateTime := Dayjs.format_datetime utcOffset (Some (now w));
               total := List.length filteredItems;
               allItems := filteredItems;
               errors := if (0 <? List.length errors)%nat then Some errors else None;
               partialSuccess := (0 <? List.length errors)%nat
                                 && (0 <? List.length filteredItems)%nat |}.

(** [fetchAllData(days = CONFIG.days)]: its [catch] logs and rethrows. *)
Definition fetchAllData (CONFIG : Config) (w : World) (daysArg : option Z)
  : Js.Completion AggregateResult :=
  Js.tryCatch (aggregate CONFIG w (daysOrDefault CONFIG daysArg))
              (fun error => Js.Throw error).

(** The object [res.json(data)] puts on the wire. *)
Definition toJSON (data : AggregateResult) : JSON.t :=
  JSON.object
    [("updateTime", Some (JSON.JString (updateTime data)));
     ("total", Some (JSON.JNumber (Z.of_nat (total data))));
     ("allItems", Some (JSON.JArray (map NewsItem.toJSON (allItems data))));
     ("errors", option_map (fun es => JSON.JArray (map SourceError.toJSON es)) (errors data));
     ("partialSuccess", Some (JSON.JBool (partialSuccess data)))].

(** [GET /api/news/refresh] *)
Definition getRefresh (CONFIG : Config) (w : World) : Reply :=
  match fetchAllData CONFIG w None with
  | Js.Return data => {| statusCode := 200; body := toJSON data |}
  | Js.Throw error => Shared.serverError error
  end.

(** *** Vocabulary of the statements about a run *)

Definition isSpec (source : SourceEntry) : bool :=
  match source with
  | Some _ => true
  | None => false
  end.

(** A registry of source specs: no entry is [null]. *)
Definition validRegistry (srcs : list SourceEntry) : Prop := forallb isSpec srcs = true.

(** The items the source at index [i] extracts, none when its fetch fails. *)
Definition contribution (w : World) (i : nat) (source : SourceEntry) : list NewsItem.t :=
  match fetchContent source (http w i) with
  | Js.Return items => items
  | Js.Throw _ => []
  end.

(** The concatenation of the extracted items, in source order. *)
Definition extracted (w : World) (srcs : list SourceEntry) : list NewsItem.t :=
  List.concat (Js.mapi (contribution w) srcs).

(** The entry that reports the failure of the source at index [i]. *)
Definition sourceError (w : World) (i : nat) (c : SourceConfig.t) (error : Js.Error)
  : SourceError.t :=
  {| SourceError.source := SourceConfig.title c;
     SourceError.error := Js.message error;
     SourceError.timestamp := Dayjs.toISOString (settledAt w i) |}.

Definition failureOf (w : World) (task : nat * SourceEntry) : list SourceError.t :=
  match snd task with
  | Some c =>
      match fetchContent (Some c) (http w (fst task)) with
      | Js.Return _ => []
      | Js.Throw error => [sourceError w (fst task) c error]
      end
  | None => []
  end.

(** The failing sources' entries, in source order. *)
Definition failures (w : World) (srcs : list SourceEntry) : list SourceError.t :=
  flat_map (failureOf w) (Js.mapi pair srcs).

(** The source at index [i] fails to fetch. *)
Definition fails (w : World) (srcs : list SourceEntry) (i : nat) : Prop :=
  exists c error,
    nth_error srcs i = Some (Some c) /\
    fetchContent (Some c) (http w i) = Js.Throw error.

(** The world in which the source at index [k] was never asked. *)
Definition without (k : nat) (w : World) : World :=
  {| http := fun i => if (i <? k)%nat then http w i else http w (S i);
     settledAt := fun i => if (i <? k)%nat then settledAt w i else settledAt w (S i);
     now := now w |}.

(** *** Configuration, request headers and the category list *)

(** The configuration [loadConfig] falls back to. *)
Definition defaultConfig : JSON.t :=
  JSON.JObject [("days", JSON.JNumber 3); ("sources", JSON.JArray [])].

(** The checks of [loadConfig] on the parsed file. *)
Definition validate (config : JSON.t) : Js.Completion JSON.t :=
  days <- Shared.prop "days" config ;;
  if negb (JSON.truthy days) then Js.Throw Shared.missingFields else
  sources <- Shared.prop "sources" config ;;
  if negb (JSON.isArray sources) then Js.Throw Shared.missingFields else
  Js.Return config.

(** [loadConfig()], given what reading and parsing the file gives: the
    value parsed, or the error [readFile] or [JSON.parse] throws. *)
Definition loadConfig (file : Js.Completion JSON.t) : JSON.t :=
  match (config <- file ;; validate config) with
  | Js.Return config => config
  | Js.Throw error => defaultConfig
  end.

(** [GET /api/news/categories] *)
Definition getCategories (file : Js.Completion JSON.t) : Reply :=
  Shared.categoriesReply (loadConfig file).

Definition DEFAULT_HEADERS : Js.Dict :=
  [("User-Agent",
    "Mozilla/5.0 (Windows NT 10.0; Win64; x64) AppleWebKit/537.36 (KHTML, like Gecko) Chrome/58.0.3029.110 Safari/537.3")].

(** [{ ...DEFAULT_HEADERS, ...(HEADERS || {}) }]; [None] is a source without
    [HEADERS]. *)
Definition requestHeaders (HEADERS : option Js.Dict) : Js.Dict :=
  Js.spread DEFAULT_HEADERS (match HEADERS with
                             | Some h => h
                             | None => []
                             end).

End WithHost.
End Server.

(** ** src/backend/server.js *)
Module Backend.
Section WithHost.
Context {H : Host}.

Record Config := {
  days : Z;
  intervalMinutes : Z;
  outputPath : string;
  sources : list SourceEntry
}.

(** [fetchContent(sourceConfig)]: no [validateStatus] is given, so axios
    applies its default; every failure inside the [try] yields [[]]. *)
Definition fetchContent (sourceConfig : SourceEntry) (o : Axios.Outcome)
  : Js.Completion (list NewsItem.t) :=
  match sourceConfig with
  | None =>
      Js.Throw (Js.mkError "Cannot destructure property 'url' of 'sourceConfig' as it is null.")
  | Some c =>
      Js.tryCatch
        (response <- Axios.get Axios.defaultValidateStatus o ;;
         if Axios.status response =? 200 then
           elements <- cheerio_select (Axios.data response) (SourceConfig.itemSelector c) ;;
           Js.Return (fold_left (Shared.each c) elements [])
         else
           Js.Return [])
        (fun error => Js.Return [])
  end.

(** [{ updateTime, total, allItems }] *)
Record NewsData := {
  updateTime : string;
  total : nat;
  allItems : list NewsItem.t
}.

(** [NEWS_CACHE]; its [categories] property is never read or written. *)
Record Cache := {
  data : option NewsData;
  lastUpdate : option Z
}.

(** [{ data: null, lastUpdate: null, categories: {} }] *)
Definition NEWS_CACHE : Cache := {| data := None; lastUpdate := None |}.

(** What one call meets: the answer to the request of the source at each
    index, the instant [Date.now()] reads on entry, and the instant
    [dayjs()] reads once the fetches have settled. *)
Record World := {
  http : nat -> Axios.Outcome;
  Date_now : Z;
  now : Z
}.

(** The default parameter [days = CONFIG.days]; [None] is an omitted argument. *)
Definition daysOrDefault (CONFIG : Config) (daysArg : option Z) : Z :=
  match daysArg with
  | Some d => d
  | None => days CONFIG
  end.

(** The [try] block of [fetchAllData], up to the cache update. *)
Definition refresh (CONFIG : Config) (w : World) (days : Z) : Js.Completion NewsData :=
  results <- Js.Promise_all
               (Js.mapi (fun i source => fetchContent source (http w i)) (sources CONFIG)) ;;
  let allItems := Js.sort Shared.byDateDesc (List.concat results) in
  let filteredItems := filter (Shared.inWindow (now w) days) allItems in
  Js.Return {| updateTime := Dayjs.format_datetime utcOffset (Some (now w));
               total := List.length filteredItems;
               allItems := filteredItems |}.

(** [now - (NEWS_CACHE.lastUpdate || 0)] *)
Definition cacheAge (w : World) (cache : Cache) : Z :=
  Date_now w - match lastUpdate cache with
               | Some t => t
               | None => 0
               end.

(** [CONFIG.intervalMinutes * 60 * 1000] *)
Definition cacheTimeout (CONFIG : Config) : Z := intervalMinutes CONFIG * 60 * 1000.

(** [fetchAllData(forceRefresh = false, days = CONFIG.days)] on the cache
    [cache], returning the cache it leaves. *)
Definition fetchAllData (CONFIG : Config) (w : World) (forceRefresh : bool)
  (daysArg : option Z) (cache : Cache) : Js.Completion NewsData * Cache :=
  let days := daysOrDefault CONFIG daysArg in
  let now := Date_now w in
  match negb forceRefresh, data cache, cacheAge w cache <? cacheTimeout CONFIG with
  | true, Some cached, true => (Js.Return cached, cache)
  | _, _, _ =>
      match refresh CONFIG w days with
      | Js.Return fresh =>
          (Js.Return fresh, {| data := Some fresh; lastUpdate := Some now |})
      | Js.Throw error =>
          match data cache with
          | Some cached => (Js.Return cached, cache)
          | None => (Js.Throw error, cache)
          end
      end
  end.

Definition toJSON (d : NewsData) : JSON.t :=
  JSON.object
    [("updateTime", Some (JSON.JString (updateTime d)));
     ("total", Some (JSON.JNumber (Z.of_nat (total d))));
     ("allItems", Some (JSON.JArray (map NewsItem.toJSON (allItems d))))].

(** [req.query] of [GET /api/news]; [None] is an absent parameter. *)
Record Query := { category : option string; daysParam : option string }.

Definition badRequest : Reply :=
  {| statusCode := 400;
     body := JSON.object [("error", Some (JSON.JString "参数错误"));
                          ("message", Some (JSON.JString "天数必须是1到90之间的数字"))] |}.

(** [parseInt(days) || CONFIG.days] *)
Definition daysNumOf (CONFIG : Config) (query : Query) : Z :=
  match Js.orElse (Js.parseInt (daysParam query)) (Some (days CONFIG)) with
  | Some n => n
  | None => days CONFIG
  end.

(** [days && (isNaN(daysNum) || daysNum < 1 || daysNum > 90)] *)
Definition rejectsDays (CONFIG : Config) (query : Query) : bool :=
  let daysNum := Some (daysNumOf CONFIG query) in
  match daysParam query with
  | Some days =>
      Js.truthy days && (Js.isNaN daysNum || Js.lt daysNum 1 || Js.gt daysNum 90)
  | None => false
  end.

(** [category && category !== 'all'] *)
Definition filtersCategory (query : Query) : option string :=
  match category query with
  | Some c => if Js.truthy c && negb (c =? "all")%string then Some c else None
  | None => None
  end.

(** The handler of [GET /api/news]: the reply and the cache it leaves.
    Without a category filter [data] is the very object the cache holds, so
    [data.total = ...] writes through; with one it is a copy.  [saveData]
    only writes a file and swallows its own errors. *)
Definition getNews (CONFIG : Config) (w : World) (query : Query) (cache : Cache)
  : Reply * Cache :=
  let daysNum := daysNumOf CONFIG query in
  if rejectsDays CONFIG query then (badRequest, cache)
  else
    match fetchAllData CONFIG w false (Some daysNum) cache with
    | (Js.Return data0, cache1) =>
        match filtersCategory query with
        | Some c =>
            let items := filter (fun item => (NewsItem.source item =? c)%string)
                                (allItems data0) in
            let data1 := {| updateTime := updateTime data0;
                            total := List.length items;
                            allItems := items |} in
            ({| statusCode := 200; body := toJSON data1 |}, cache1)
        | None =>
            let data1 := {| updateTime := updateTime data0;
                            total := List.length (allItems data0);
                            allItems := allItems data0 |} in
            ({| statusCode := 200; body := toJSON data1 |},
             {| data := Some data1; lastUpdate := lastUpdate cache1 |})
        end
    | (Js.Throw error, cache1) => (Shared.serverError error, cache1)
    end.

(** [GET /api/news/refresh] *)
Definition getRefresh (CONFIG : Config) (w : World) (cache : Cache) : Reply * Cache :=
  match fetchAllData CONFIG w true None cache with
  | (Js.Return data0, cache1) => ({| statusCode := 200; body := toJSON data0 |}, cache1)
  | (Js.Throw error, cache1) => (Shared.serverError error, cache1)
  end.

(** *** Vocabulary of the statements about a refresh *)

(** The items the source at index [i] extracts, none when its fetch fails. *)
Definition contribution (w : World) (i : nat) (source : SourceEntry) : list NewsItem.t :=
  match fetchContent source (http w i) with
  | Js.Return items => items
  | Js.Throw _ => []
  end.

(** The concatenation of the extracted items, in source order. *)
Definition extracted (w : World) (srcs : list SourceEntry) : list NewsItem.t :=
  List.concat (Js.mapi (contribution w) srcs).

(** The cached result, if any, counts its own items. *)
Definition consistent (cache : Cache) : Prop :=
  forall d, data cache = Some d -> total d = List.length (allItems d).

(** *** Configuration and the category list *)

(** The configuration [loadConfig] falls back to. *)
Definition defaultConfig : JSON.t :=
  JSON.JObject [("days", JSON.JNumber 3);
                ("intervalMinutes", JSON.JNumber 30);
                ("outputPath", JSON.JString "news.json");
                ("sources", JSON.JArray [])].

(** The checks of [loadConfig] on the parsed file. *)
Definition validate (config : JSON.t) : Js.Completion JSON.t :=
  days <- Shared.prop "days" config ;;
  if negb (JSON.truthy days) then Js.Throw Shared.missingFields else
  intervalMinutes <- Shared.prop "intervalMinutes" config ;;
  if negb (JSON.truthy intervalMinutes) then Js.Throw Shared.missingFields else
  outputPath <- Shared.prop "outputPath" config ;;
  if negb (JSON.truthy outputPath) then Js.Throw Shared.missingFields else
  sources <- Shared.prop "sources" config ;;
  if negb (JSON.isArray sources) then Js.Throw Shared.missingFields else
  Js.Return config.

(** [loadConfig()], given what reading and parsing the file gives. *)
Definition loadConfig (file : Js.Completion JSON.t) : JSON.t :=
  match (config <- file ;; validate config) with
  | Js.Return config => config
  | Js.Throw error => defaultConfig
  end.

(** [GET /api/news/categories] *)
Definition getCategories (file : Js.Completion JSON.t) : Reply :=
  Shared.categoriesReply (loadConfig file).

End WithHost.
End Backend.

(** ** src/public/main.js *)
Module Client.

(** [escapeHtml(unsafe)] *)
Definition escapeHtml (unsafe : string) : string :=
  Js.replaceAll "'" "&#039;"
    (Js.replaceAll "034" "&quot;"
       (Js.replaceAll ">" "&gt;"
          (Js.replaceAll "<" "&lt;"
             (Js.replaceAll "&" "&amp;" unsafe)))).

(** The paging state of [NewsApp]: its three fields and the [disabled]
    attribute of the two buttons, which only [updatePagination] writes. *)
Record Pager := {
  currentPage : Z;
  totalPages : Z;
  allNews : list NewsItem.t;
  prevDisabled : bool;
  nextDisabled : bool
}.

Definition itemsPerPage : Z := 10.

(** The state the constructor sets; the buttons are as the page's markup
    has them. *)
Definition initialPager (prevPageBtn nextPageBtn : bool) : Pager :=
  {| currentPage := 1; totalPages := 1; allNews := [];
     prevDisabled := prevPageBtn; nextDisabled := nextPageBtn |}.

(** [pageItems] of [renderCurrentPage], for the page numbered [page]. *)
Definition pageOf (page : Z) (news : list NewsItem.t) : list NewsItem.t :=
  let start := (page - 1) * itemsPerPage in
  let stop := start + itemsPerPage in
  Js.slice start stop news.

(** What [renderCurrentPage] hands to [renderNews]. *)
Definition pageItems (p : Pager) : list NewsItem.t := pageOf (currentPage p) (allNews p).

(** [updatePagination()] *)
Definition updatePagination (p : Pager) : Pager :=
  {| currentPage := currentPage p;
     totalPages := totalPages p;
     allNews := allNews p;
     prevDisabled := currentPage p =? 1;
     nextDisabled := currentPage p =? totalPages p |}.

(** [renderCurrentPage()]: it renders [pageItems] and updates the buttons. *)
Definition renderCurrentPage (p : Pager) : Pager := updatePagination p.

(** [changePage(delta)] *)
Definition changePage (delta : Z) (p : Pager) : Pager :=
  renderCurrentPage
    {| currentPage := currentPage p + delta;
       totalPages := totalPages p;
       allNews := allNews p;
       prevDisabled := prevDisabled p;
       nextDisabled := nextDisabled p |}.

(** [Math.ceil(n / itemsPerPage)] for a length [n] *)
Definition pagesFor (n : nat) : Z := (Z.of_nat n + itemsPerPage - 1) / itemsPerPage.

(** [filterAndDisplayNews] past its early return, [filteredNews] being the
    list its two filters leave: the empty state with the pager reset, or
    the new list and its first or current page. *)
Definition showFiltered (filteredNews : list NewsItem.t) (p : Pager) : Pager :=
  if (List.length filteredNews =? 0)%nat
  then updatePagination
         {| currentPage := 1; totalPages := 1; allNews := allNews p;
            prevDisabled := prevDisabled p; nextDisabled := nextDisabled p |}
  else
    let pages := pagesFor (List.length filteredNews) in
    renderCurrentPage
      {| currentPage := if pages <? currentPage p then 1 else currentPage p;
         totalPages := pages;
         allNews := filteredNews;
         prevDisabled := prevDisabled p;
         nextDisabled := nextDisabled p |}.

(** [filterAndDisplayNews()]: [filtered] is [None] when [allNewsData] or
    its [allItems] is missing, the run that shows the empty state and
    returns at once, and otherwise the list the two filters leave. *)
Definition filterAndDisplayNews (filtered : option (list NewsItem.t)) (p : Pager) : Pager :=
  match filtered with
  | None => p
  | Some filteredNews => showFiltered filteredNews p
  end.

(** What happens to the pager: a click on a button, which the browser
    delivers only when the button is not disabled, or a run of
    [filterAndDisplayNews] after a change of filter or data. *)
Inductive Event : Type :=
| ClickPrev
| ClickNext
| Display (filtered : option (list NewsItem.t)).

Definition step (p : Pager) (e : Event) : Pager :=
  match e with
  | ClickPrev => if prevDisabled p then p else changePage (-1) p
  | ClickNext => if nextDisabled p then p else changePage 1 p
  | Display filtered => filterAndDisplayNews filtered p
  end.

(** The pager after a sequence of events, from the state the constructor
    sets. *)
Definition run (prevPageBtn nextPageBtn : bool) (events : list Event) : Pager :=
  fold_left step events (initialPager prevPageBtn nextPageBtn).

(** What the pager keeps from the start when the markup has the previous
    button disabled: the page number is at least 1, and above 1 whenever
    that button is enabled. *)
Definition grounded (p : Pager) : Prop :=
  1 <= currentPage p /\ (prevDisabled p = false -> 1 < currentPage p).

(** What the pager keeps from its first display of a list on: the page
    number lies within the pages, the buttons are as [updatePagination]
    sets them, and the number of pages is that of the list unless the empty
    state reset it. *)
Definition paged (p : Pager) : Prop :=
  1 <= currentPage p <= totalPages p /\
  prevDisabled p = (currentPage p =? 1) /\
  nextDisabled p = (currentPage p =? totalPages p) /\
  (totalPages p = 1 \/ totalPages p = pagesFor (List.length (allNews p))).

(** The text of each character in the output of [escapeHtml]. *)
Definition entity (c : ascii) : string :=
  if (c =? "&")%char then "&amp;"
  else if (c =? "<")%char then "&lt;"
  else if (c =? ">")%char then "&gt;"
  else if (c =? "034")%char then "&quot;"
  else if (c =? "'")%char then "&#039;"
  else String c EmptyString.

(** [isDataExpired()], [lastUpdate] being the stored item ([None] for
    [null]) and [now] the value of [Date.now()]. *)
Definition isDataExpired (now : Z) (lastUpdate : option string) : bool :=
  match lastUpdate with
  | Some text =>
      if negb (Js.truthy text) then true
      else Js.gt (Js.sub (Some now) (Js.parseInt (Some text))) (30 * 60 * 1000)
  | None => true
  end.

(** *** [fetchWithTimeout] *)

Record Response := { status : Z; body : string }.

(** [response.ok] *)
Definition ok (r : Response) : bool := (200 <=? status r) && (status r <=? 299).

(** What one call of [fetch] meets: a rejection (the network fails, or the
    timer aborts the request) or a response. *)
Inductive Attempt : Type :=
| Failed (error : Js.Error)
| Responded (r : Response).

(** The [try] block of one turn of the loop. *)
Definition attempt (a : Attempt) : Js.Completion Response :=
  match a with
  | Failed error => Js.Throw error
  | Responded r =>
      if negb (ok r)
      then Js.Throw (Js.mkError ("HTTP error! status: " +++ Js.toString (status r)))
      else Js.Return r
  end.

(** How a call ends: with a response, or by [throw lastError], which is
    [undefined] ([None]) when the loop never ran. *)
Inductive Ending : Type :=
| Got (r : Response)
| Threw (lastError : option Js.Error).

(** [Math.min(1000 * Math.pow(2, i), 5000)] *)
Definition waitTime (i : nat) : Z := Z.min (1000 * 2 ^ Z.of_nat i) 5000.

(** The loop from turn [i] on, [left] turns remaining; [net i] is what the
    request of turn [i] meets, and the list returned holds the waits made. *)
Fixpoint turns (net : nat -> Attempt) (retries i left : nat)
  (lastError : option Js.Error) (waits : list Z) : Ending * list Z :=
  match left with
  | O => (Threw lastError, waits)
  | S left' =>
      match attempt (net i) with
      | Js.Return response => (Got response, waits)
      | Js.Throw error =>
          turns net retries (S i) left' (Some error)
                (if (S i <? retries)%nat then waits ++ [waitTime i] else waits)
      end
  end.

(** [fetchWithTimeout(url, options, retries)] *)
Definition fetchWithTimeout (net : nat -> Attempt) (retries : nat) : Ending * list Z :=
  turns net retries 0 retries None [].

(** *** [getCategoryColor] *)

Definition colorPalette : list string :=
  ["#1E88E5"; "#43A047"; "#FB8C00"; "#E53935";
   "#5E35B1"; "#00ACC1"; "#7CB342"; "#F4511E";
   "#3949AB"; "#00897B"; "#C0CA33"; "#8E24AA"].

(** [getCategoryColor(category)] on the map [categoryColors], returning the
    colour and the map it leaves; [random] is the index
    [Math.floor(Math.random() * colorPalette.length)] would give. *)
Definition getCategoryColor (random : nat) (category : string) (categoryColors : Js.Dict)
  : string * Js.Dict :=
  match Js.dictGet category categoryColors with
  | Some color => (color, categoryColors)
  | None =>
      let unusedColors :=
        filter (fun color => negb (existsb (String.eqb color) (map snd categoryColors)))
               colorPalette in
      let color :=
        match unusedColors with
        | c :: _ => c
        | [] => nth (random mod List.length colorPalette) colorPalette ""
        end in
      (color, categoryColors ++ [(category, color)])
  end.

(** The map after a sequence of calls, each with the index its
    [Math.random()] would give and its category. *)
Definition colorsAfter (calls : list (nat * string)) (categoryColors : Js.Dict) : Js.Dict :=
  fold_left (fun d call => snd (getCategoryColor (fst call) (snd call) d))
            calls categoryColors.

(** While at most twelve categories are known their colours are the first
    of the palette, in the order the categories came. *)
Definition inPaletteOrder (d : Js.Dict) : Prop :=
  NoDup (map fst d) /\
  ((List.length d <= 12)%nat -> map snd d = firstn (List.length d) colorPalette).

End Client.

(** ** A small host, and inputs to run the servers on *)
Module Demo.

(** A document tree; a payload is the tree [cheerio.load] would build. *)
Inductive Node : Type :=
| Elem (tag : string) (attrs : list (string * string)) (kids : list Node)
| Text (s : string).

Definition hasTag (t : string) (n : Node) : bool :=
  match n with
  | Elem tag _ _ => (tag =? t)%string
  | Text _ => false
  end.

Fixpoint descendants (n : Node) : list Node :=
  match n with
  | Elem _ _ kids => flat_map (fun k => k :: descendants k) kids
  | Text _ => []
  end.

Fixpoint textOf (n : Node) : string :=
  match n with
  | Text s => s
  | Elem _ _ kids => String.concat "" (map textOf kids)
  end.

(** Selectors are tag names; ["["] is the malformed selector. *)
Definition matches (n : Node) (selector : string) : Js.Completion (list Node) :=
  if (selector =? "[")%string
  then Js.Throw (Js.mkError "Attribute selector didn't terminate")
  else Js.Return (filter (hasTag selector) (descendants n)).

Definition attrOf (sel : list Node) (name : string) : option string :=
  match sel with
  | Elem _ attrs _ :: _ =>
      option_map snd (List.find (fun p => (fst p =? name)%string) attrs)
  | _ => None
  end.

Definition offset : Z := 480.

(** One or two digits at the head of a string, and what follows them. *)
Definition digits12 (s : string) : option (Z * string) :=
  match s with
  | String a r =>
      match Dayjs.digit a with
      | Some x =>
          match r with
          | String b r' =>
              match Dayjs.digit b with
              | Some y => Some (10 * x + y, r')
              | None => Some (x, r)
              end
          | EmptyString => Some (x, r)
          end
      | None => None
      end
  | EmptyString => None
  end.

(** The fields of a text of the shape [dddd-d-d], the month and the day of
    one or two digits each, the separators [-] or [/]. *)
Definition looseYmd (text : string) : option (Z * Z * Z) :=
  match text with
  | String y1 (String y2 (String y3 (String y4 (String s1 rest)))) =>
      match Dayjs.digit y1, Dayjs.digit y2, Dayjs.digit y3, Dayjs.digit y4,
            digits12 rest with
      | Some a, Some b, Some c, Some d, Some (m, String s2 rest') =>
          match digits12 rest' with
          | Some (dd, EmptyString) =>
              if Dayjs.isSeparator s1 && Dayjs.isSeparator s2
              then Some (a * 1000 + b * 100 + c * 10 + d, m, dd)
              else None
          | _ => None
          end
      | _, _, _, _, _ => None
      end
  | _ => None
  end.

(** The fields of a text of the ISO shape with an expanded year,
    [+dddddd-dd-dd] or [-dddddd-dd-dd], when they name a day of the
    calendar; [-000000] is no year. *)
Definition expandedYmd (text : string) : option (Z * Z * Z) :=
  match text with
  | String sg (String y1 (String y2 (String y3 (String y4 (String y5 (String y6
      (String s1 (String m1 (String m2 (String s2 (String d1 (String d2
         EmptyString)))))))))))) =>
      match Dayjs.digit y1, Dayjs.digit y2, Dayjs.digit y3, Dayjs.digit y4,
            Dayjs.digit y5, Dayjs.digit y6 with
      | Some a, Some b, Some c, Some d, Some e, Some f =>
          match Dayjs.digit m1, Dayjs.digit m2, Dayjs.digit d1, Dayjs.digit d2 with
          | Some g, Some h, Some i, Some j =>
              let n := a * 100000 + b * 10000 + c * 1000 + d * 100 + e * 10 + f in
              let y := if (sg =? "-")%char then - n else n in
              let m := g * 10 + h in
              let dd := i * 10 + j in
              if ((sg =? "+")%char || ((sg =? "-")%char && negb (n =? 0)))
                 && (s1 =? "-")%char && (s2 =? "-")%char
                 && (let '(y', m', d') :=
                       Dayjs.civil_from_days (Dayjs.days_from_civil y m dd) in
                     (y' =? y) && (m' =? m) && (d' =? dd))
              then Some (y, m, dd)
              else None
          | _, _, _, _ => None
          end
      | _, _, _, _, _, _ => None
      end
  | _ => None
  end.

(** [dayjs(text, formats, strict)] as dayjs answers without its
    [customParseFormat] plugin, which neither server loads: the formats and
    the flag are not read.  A text of the shape [dddd-d-d] matches the
    pattern of the library and is read by its fields, as [dayjs] reads the
    same date written with two digits; a text of the ISO shape with an
    expanded year goes to [new Date(text)], which reads it as the start of
    that day in UTC.  This host finds every other text invalid. *)
Definition coreDate (text : string) (formats : list string) (strict : bool) : Dayjs.t :=
  match looseYmd text with
  | Some (y, m, d) =>
      Dayjs.dayjs offset (Dayjs.pad 4 y +++ "-" +++ Dayjs.pad 2 m +++ "-" +++ Dayjs.pad 2 d)
  | None =>
      match expandedYmd text with
      | Some (y, m, d) => Some (Dayjs.days_from_civil y m d * Dayjs.msPerDay)
      | None => None
      end
  end.

Definition resolve (href : option string) (base : string) : Js.Completion string :=
  match href with
  | Some h =>
      if (h =? "//")%string then Js.Throw (Js.mkError "Invalid URL")
      else if String.prefix "http" h then Js.Return h
      else Js.Return (base +++ h)
  | None => Js.Return (base +++ "undefined")
  end.

Fixpoint trimEnd (s : string) : string :=
  match s with
  | EmptyString => EmptyString
  | String c s' =>
      match trimEnd s' with
      | EmptyString => if Js.isSpace1 c then EmptyString else String c EmptyString
      | r => String c r
      end
  end.

Definition trim (s : string) : string := trimEnd (Js.skipSpaces s).

Definition host : Host :=
  {| Html := Node;
     Element := Node;
     cheerio_select := matches;
     cheerio_find := matches;
     cheerio_text := fun sel => String.concat "" (map textOf sel);
     cheerio_attr := attrOf;
     dayjs_parse := coreDate;
     URL_href := resolve;
     String_trim := trim;
     utcOffset := offset |}.

(** [<li><span>date</span><a href=... title=...>text</a></li>] *)
Definition entry (date href title text : string) : Node :=
  Elem "li" [] [Elem "span" [] [Text date];
                Elem "a" [("href", href); ("title", title)] [Text text]].

Definition noDate : Node :=
  Elem "li" [] [Elem "a" [("href", "/n/2")] [Text "undated"]].

Definition badDate : Node := entry "yesterday" "/n/3" "" "bad date".

Definition noLink : Node :=
  Elem "li" [] [Elem "span" [] [Text "2024-05-02"]].

Definition badLink : Node := entry "2024-05-02" "//" "" "bad link".

Definition pageA : Node :=
  Elem "ul" [] [entry " 2024-05-01 " "/n/1" "First" "first";
                noDate; badDate; noLink; badLink;
                entry "2024-05-03" "https://other.example/n/6" "" " sixth "].

Definition pageC : Node :=
  Elem "ul" [] [entry "2024-05-03" "/c/1" "" "c one";
                entry "2024-04-01" "/c/2" "" "c old";
                entry "2024-05-04" "/c/3" "" "c three"].

Definition spec (name : string) : SourceConfig.t :=
  {| SourceConfig.url := "https://" +++ name +++ ".example";
     SourceConfig.title := name;
     SourceConfig.dateSelector := "span";
     SourceConfig.itemSelector := "li";
     SourceConfig.titleSelector := "a";
     SourceConfig.hrefSelector := "a" |}.

(** 2024-05-05 04:00 UTC, noon in the host's zone. *)
Definition noon : Z := 1714881600000.

(** Three sources; the second one times out first. *)
Definition registry : list SourceEntry := [Some (spec "A"); Some (spec "B"); Some (spec "C")].

Definition config : Server.Config :=
  {| Server.days := 3; Server.sources := registry |}.

Definition world : Server.World (H := host) :=
  {| Server.http := fun i =>
       match i with
       | O => Axios.HttpResponse (H := host) 200 "OK" pageA
       | S O => Axios.NetworkError (H := host) "timeout of 10000ms exceeded"
       | _ => Axios.HttpResponse (H := host) 200 "OK" pageC
       end;
     Server.settledAt := fun i => noon - 1000 * Z.of_nat i;
     Server.now := noon |}.

(** The same three sources when all of them answer. *)
Definition calmWorld : Server.World (H := host) :=
  {| Server.http := fun i =>
       match i with
       | O => Axios.HttpResponse (H := host) 200 "OK" pageA
       | _ => Axios.HttpResponse (H := host) 200 "OK" pageC
       end;
     Server.settledAt := fun i => noon;
     Server.now := noon |}.

(** The same three sources when every request times out. *)
Definition stormWorld : Server.World (H := host) :=
  {| Server.http := fun i => Axios.NetworkError (H := host) "timeout of 10000ms exceeded";
     Server.settledAt := fun i => noon - 1000 * Z.of_nat i;
     Server.now := noon |}.

Definition emptyConfig : Server.Config :=
  {| Server.days := 3; Server.sources := [] |}.

Definition nullConfig : Server.Config :=
  {| Server.days := 3; Server.sources := [Some (spec "A"); None] |}.

Definition backendConfig (srcs : list SourceEntry) : Backend.Config :=
  {| Backend.days := 3;
     Backend.intervalMinutes := 30;
     Backend.outputPath := "news.json";
     Backend.sources := srcs |}.

Definition backendWorld (t : Z) : Backend.World (H := host) :=
  {| Backend.http := fun i =>
       match i with
       | O => Axios.HttpResponse (H := host) 200 "OK" pageA
       | _ => Axios.HttpResponse (H := host) 200 "OK" pageC
       end;
     Backend.Date_now := t;
     Backend.now := t |}.

(** The backend's world at instant [t] when no request gets an answer. *)
Definition backendOutage (t : Z) : Backend.World (H := host) :=
  {| Backend.http := fun i => Axios.NetworkError (H := host) "timeout of 10000ms exceeded";
     Backend.Date_now := t;
     Backend.now := t |}.

(** A page whose one date is written in none of the four formats. *)
Definition pageLoose : Node :=
  Elem "ul" [] [entry "2024-5-3" "/n/7" "" "seventh"].

(** A page with a date of the year before year 0 between two dates of May
    2024. *)
Definition pageOld : Node :=
  Elem "ul" [] [entry "2024-05-01" "/o/1" "" "o one";
                entry "-000001-06-01" "/o/2" "" "o two";
                entry "2024-05-03" "/o/3" "" "o three"].

(** One source, which answers with [pageOld]. *)
Definition oldConfig : Server.Config :=
  {| Server.days := 7; Server.sources := [Some (spec "A")] |}.

Definition oldWorld : Server.World (H := host) :=
  {| Server.http := fun i => Axios.HttpResponse (H := host) 200 "OK" pageOld;
     Server.settledAt := fun i => noon;
     Server.now := noon |}.

Definition noData : Backend.NewsData :=
  {| Backend.updateTime := ""; Backend.total := 0; Backend.allItems := [] |}.

(** What a refresh at [noon] with a window of 7 days stores. *)
Definition sevenDayData : Backend.NewsData :=
  Eval vm_compute in
    match fst (Backend.fetchAllData (backendConfig registry) (backendWorld noon)
                                    true (Some 7) Backend.NEWS_CACHE) with
    | Js.Return d => d
    | Js.Throw _ => noData
    end.

Definition warmCache : Backend.Cache :=
  {| Backend.data := Some sevenDayData; Backend.lastUpdate := Some noon |}.

End Demo.

(** * Properties *)

(** ** Arrays: [map] with index, [Promise.all], [sort] *)
Section Arrays.
Context {A B : Type}.

Lemma mapi_from_app (f : nat -> A -> B) (l1 l2 : list A) (i : nat) :
  Js.mapi_from i f (l1 ++ l2)
  = Js.mapi_from i f l1 ++ Js.mapi_from (i + List.length l1) f l2.
Proof.
  revert i; induction l1 as [|x l1 IH]; intros i; simpl.
  - now rewrite Nat.add_0_r.
  - rewrite IH. now rewrite <- Nat.add_succ_comm.
Qed.

Lemma mapi_from_ext (f g : nat -> A -> B) (l : list A) (i : nat) :
  (forall j x, (i <= j)%nat -> f j x = g j x) ->
  Js.mapi_from i f l = Js.mapi_from i g l.
Proof.
  revert i; induction l as [|x l IH]; intros i E; simpl; [reflexivity|].
  rewrite (E i x (Nat.le_refl i)). f_equal.
  apply IH. intros j y Hj. apply E. lia.
Qed.

Lemma mapi_from_shift (f : nat -> A -> B) (l : list A) (i : nat) :
  Js.mapi_from (S i) f l = Js.mapi_from i (fun j => f (S j)) l.
Proof.
  revert i; induction l as [|x l IH]; intros i; simpl; [reflexivity|].
  now rewrite IH.
Qed.

Lemma mapi_from_length (f : nat -> A -> B) (l : list A) (i : nat) :
  List.length (Js.mapi_from i f l) = List.length l.
Proof.
  revert i; induction l as [|x l IH]; intros i; simpl; [reflexivity|].
  now rewrite IH.
Qed.

Lemma mapi_from_nth_error (f : nat -> A -> B) (l : list A) (i k : nat) (x : A) :
  nth_error l k = Some x ->
  nth_error (Js.mapi_from i f l) k = Some (f (i + k)%nat x).
Proof.
  revert i k; induction l as [|y l IH]; intros i [|k] E; simpl in *; try discriminate.
  - injection E as ->. now rewrite Nat.add_0_r.
  - rewrite (IH (S i) k E). now rewrite Nat.add_succ_comm.
Qed.

Lemma insert_Permutation (cmp : A -> A -> Js.Number) (x : A) (l : list A) :
  Permutation (Js.insert cmp x l) (x :: l).
Proof.
  induction l as [|y l IH]; simpl; [reflexivity|].
  destruct (Js.sortCompare cmp x y <=? 0); [reflexivity|].
  rewrite IH. apply perm_swap.
Qed.

Lemma sort_Permutation (cmp : A -> A -> Js.Number) (l : list A) :
  Permutation (Js.sort cmp l) l.
Proof.
  induction l as [|x l IH]; simpl; [reflexivity|].
  fold (Js.sort cmp l). rewrite insert_Permutation. now constructor.
Qed.

End Arrays.

Lemma Promise_all_fulfilled {A} (ps : list (Js.Completion A)) (vs : list A) :
  ps = map Js.Return vs -> Js.Promise_all ps = Js.Return vs.
Proof.
  intros ->. induction vs as [|v vs IH]; simpl; [reflexivity|].
  now rewrite IH.
Qed.

Lemma filter_filter_comm {A} (p q : A -> bool) (l : list A) :
  filter p (filter q l) = filter q (filter p l).
Proof.
  induction l as [|x l IH]; simpl; [reflexivity|].
  destruct (q x) eqn:Q, (p x) eqn:P; simpl; rewrite ?Q, ?P, IH; reflexivity.
Qed.

Lemma StronglySorted_filter {A} (R : A -> A -> Prop) (p : A -> bool) (l : list A) :
  StronglySorted R l -> StronglySorted R (filter p l).
Proof.
  induction 1 as [|x l S IH F]; simpl; [constructor|].
  destruct (p x); [|assumption].
  constructor; [assumption|].
  rewrite Forall_forall in *. intros y Hy. apply F.
  apply filter_In in Hy. tauto.
Qed.

(** ** Dates *)
Section Dates.
Context {H : Host}.

Lemma localDay_subtract (off now days : Z) :
  Dayjs.localDay off (now - days * Dayjs.msPerDay) = Dayjs.localDay off now - days.
Proof.
  unfold Dayjs.localDay, Dayjs.msPerDay.
  replace (now - days * 86400000 + off * Dayjs.msPerMinute)
    with (now + off * Dayjs.msPerMinute + (- days) * 86400000) by ring.
  rewrite Z.div_add by lia. ring.
Qed.

(** The cutoff is the start of today moved back by [days] whole days. *)
Lemma cutoffDate_spec (now days : Z) :
  Shared.cutoffDate now days
  = Some (Dayjs.localMidnight utcOffset (Dayjs.localDay utcOffset now)
          - days * Dayjs.msPerDay).
Proof.
  unfold Shared.cutoffDate, Dayjs.startOf, Dayjs.subtract; simpl.
  rewrite localDay_subtract. unfold Dayjs.localMidnight. f_equal. ring.
Qed.

Lemma inWindow_spec (now days : Z) (item : NewsItem.t) :
  Shared.inWindow now days item = true <->
  exists v, Shared.dateValue item = Some v /\
            Dayjs.localMidnight utcOffset (Dayjs.localDay utcOffset now)
              - days * Dayjs.msPerDay < v.
Proof.
  unfold Shared.inWindow, Dayjs.isAfter. rewrite cutoffDate_spec.
  unfold Shared.dateValue, Dayjs.valueOf.
  destruct (Dayjs.dayjs utcOffset (NewsItem.date item)) as [x|]; simpl.
  - rewrite Z.ltb_lt. split.
    + intros L. now exists x.
    + intros (v & E & L). now injection E as ->.
  - split; [discriminate|]. now intros (v & E & _).
Qed.

Lemma civil_from_days_bounds (z : Z) :
  1 <= snd (fst (Dayjs.civil_from_days z)) <= 12 /\
  1 <= snd (Dayjs.civil_from_days z) <= 31.
Proof.
  unfold Dayjs.civil_from_days. cbv zeta. cbn [fst snd].
  set (z' := z + 719468).
  set (doe := z' - z' / 146097 * 146097).
  assert (B : 0 <= doe < 146097) by (subst doe; Z.div_mod_to_equations; lia).
  clearbody doe.
  set (yoe := (doe - doe / 1460 + doe / 36524 - doe / 146096) / 365).
  set (doy := doe - (365 * yoe + yoe / 4 - yoe / 100)).
  assert (D : 0 <= doy <= 365) by (subst doy yoe; Z.div_mod_to_equations; lia).
  clearbody doy.
  destruct ((5 * doy + 2) / 153 <? 10) eqn:M;
    [apply Z.ltb_lt in M | apply Z.ltb_ge in M];
    Z.div_mod_to_equations; lia.
Qed.

(** [days_from_civil] undoes [civil_from_days]. *)
Lemma days_from_civil_from_days (z : Z) :
  let '(y, m, d) := Dayjs.civil_from_days z in Dayjs.days_from_civil y m d = z.
Proof.
  unfold Dayjs.civil_from_days, Dayjs.days_from_civil. cbv zeta.
  set (z' := z + 719468).
  set (era := z' / 146097).
  set (doe := z' - era * 146097).
  assert (B : 0 <= doe < 146097) by (subst doe era; Z.div_mod_to_equations; lia).
  assert (Z' : z = era * 146097 + doe - 719468) by (subst doe z'; lia).
  clearbody doe era. clear z'. subst z.
  set (yoe := (doe - doe / 1460 + doe / 36524 - doe / 146096) / 365).
  set (doy := doe - (365 * yoe + yoe / 4 - yoe / 100)).
  assert (Y : 0 <= yoe <= 399) by (subst yoe; Z.div_mod_to_equations; lia).
  assert (D : 0 <= doy <= 365) by (subst doy yoe; Z.div_mod_to_equations; lia).
  assert (E : doe = yoe * 365 + yoe / 4 - yoe / 100 + doy) by (subst doy; lia).
  clearbody doy yoe.
  set (mp := (5 * doy + 2) / 153).
  assert (M : 0 <= mp <= 11) by (subst mp; Z.div_mod_to_equations; lia).
  clearbody mp.
  destruct (mp <? 10) eqn:M10; [apply Z.ltb_lt in M10 | apply Z.ltb_ge in M10].
  - destruct (mp + 3 <=? 2) eqn:M2; [apply Z.leb_le in M2; lia | apply Z.leb_gt in M2].
    replace (yoe + era * 400 + 0) with (yoe + era * 400) by lia.
    replace ((yoe + era * 400) / 400) with era by (Z.div_mod_to_equations; lia).
    replace ((mp + 3 + 9) mod 12) with mp by (Z.div_mod_to_equations; lia).
    replace (yoe + era * 400 - era * 400) with yoe by lia. lia.
  - destruct (mp - 9 <=? 2) eqn:M2; [apply Z.leb_le in M2 | apply Z.leb_gt in M2; lia].
    replace (yoe + era * 400 + 1 - 1) with (yoe + era * 400) by lia.
    replace ((yoe + era * 400) / 400) with era by (Z.div_mod_to_equations; lia).
    replace ((mp - 9 + 9) mod 12) with mp by (Z.div_mod_to_equations; lia).
    replace (yoe + era * 400 - era * 400) with yoe by lia. lia.
Qed.

(** The four characters [pad 4] writes for a year are its decimal digits. *)
Lemma pad4_decode (y : Z) :
  0 <= y <= 9999 ->
  Dayjs.fourDigits (Dayjs.pad 4 y) = true /\
  Dayjs.ymd (Dayjs.pad 4 y +++ "-01-01") = Some (y, 1, 1).
Proof.
  intros B.
  assert (C : forallb (fun a =>
                forallb (fun b =>
                  let y := 100 * Z.of_nat a + Z.of_nat b in
                  Dayjs.fourDigits (Dayjs.pad 4 y)
                  && match Dayjs.ymd (Dayjs.pad 4 y +++ "-01-01") with
                     | Some (v, m, d) => (v =? y) && (m =? 1) && (d =? 1)
                     | None => false
                     end)
                  (seq 0 100))
              (seq 0 100) = true) by (vm_compute; reflexivity).
  rewrite forallb_forall in C.
  specialize (C (Z.to_nat (y / 100))).
  rewrite forallb_forall in C.
  specialize (fun I => C I (Z.to_nat (y mod 100))).
  cbv zeta in C.
  rewrite !Z2Nat.id in C by (Z.div_mod_to_equations; lia).
  replace (100 * (y / 100) + y mod 100) with y in C by (Z.div_mod_to_equations; lia).
  assert (E : Dayjs.fourDigits (Dayjs.pad 4 y)
              && match Dayjs.ymd (Dayjs.pad 4 y +++ "-01-01") with
                 | Some (v, m, d) => (v =? y) && (m =? 1) && (d =? 1)
                 | None => false
                 end = true)
    by (apply C; apply in_seq; Z.div_mod_to_equations; lia).
  apply andb_true_iff in E as [S V]. split; [exact S|].
  destruct (Dayjs.ymd _) as [[[v m] d]|]; [|discriminate V].
  rewrite !andb_true_iff, !Z.eqb_eq in V. destruct V as [[-> ->] ->]. reflexivity.
Qed.

(** The two characters [pad 2] writes for a month or a day are its digits. *)
Lemma pad2_decode (n : Z) :
  0 <= n <= 99 ->
  Dayjs.twoDigits (Dayjs.pad 2 n) = true /\
  Dayjs.ymd ("2000-" +++ Dayjs.pad 2 n +++ "-01") = Some (2000, n, 1).
Proof.
  intros B.
  assert (C : forallb (fun a =>
                let n := Z.of_nat a in
                Dayjs.twoDigits (Dayjs.pad 2 n)
                && match Dayjs.ymd ("2000-" +++ Dayjs.pad 2 n +++ "-01") with
                   | Some (y, v, d) => (y =? 2000) && (v =? n) && (d =? 1)
                   | None => false
                   end)
              (seq 0 100) = true) by (vm_compute; reflexivity).
  rewrite forallb_forall in C.
  specialize (C (Z.to_nat n)). cbv zeta in C.
  rewrite !Z2Nat.id in C by lia.
  assert (E : Dayjs.twoDigits (Dayjs.pad 2 n)
              && match Dayjs.ymd ("2000-" +++ Dayjs.pad 2 n +++ "-01") with
                 | Some (y, v, d) => (y =? 2000) && (v =? n) && (d =? 1)
                 | None => false
                 end = true)
    by (apply C; apply in_seq; lia).
  apply andb_true_iff in E as [S V]. split; [exact S|].
  destruct (Dayjs.ymd _) as [[[y v] d]|]; [|discriminate V].
  rewrite !andb_true_iff, !Z.eqb_eq in V. destruct V as [[-> ->] ->]. reflexivity.
Qed.

(** [ymd] reads back the year, month and day [format_date] writes. *)
Lemma ymd_pad (y m d : Z) :
  0 <= y <= 9999 -> 0 <= m <= 99 -> 0 <= d <= 99 ->
  Dayjs.ymd (Dayjs.pad 4 y +++ "-" +++ Dayjs.pad 2 m +++ "-" +++ Dayjs.pad 2 d)
  = Some (y, m, d).
Proof.
  intros By Bm Bd.
  destruct (pad4_decode y By) as [Sy Vy].
  destruct (pad2_decode m Bm) as [Sm Vm].
  destruct (pad2_decode d Bd) as [Sd Vd].
  destruct (Dayjs.pad 4 y) as [|y1 [|y2 [|y3 [|y4 [|? ?]]]]]; try discriminate Sy.
  destruct (Dayjs.pad 2 m) as [|m1 [|m2 [|? ?]]]; try discriminate Sm.
  destruct (Dayjs.pad 2 d) as [|d1 [|d2 [|? ?]]]; try discriminate Sd.
  unfold Dayjs.fourDigits, Dayjs.twoDigits, Dayjs.isDigit in Sy, Sm, Sd.
  cbn [String.append Dayjs.ymd] in *.
  destruct (Dayjs.digit y1) as [a1|], (Dayjs.digit y2) as [a2|],
           (Dayjs.digit y3) as [a3|], (Dayjs.digit y4) as [a4|]; try discriminate Sy.
  destruct (Dayjs.digit m1) as [b1|], (Dayjs.digit m2) as [b2|]; try discriminate Sm.
  destruct (Dayjs.digit d1) as [c1|], (Dayjs.digit d2) as [c2|]; try discriminate Sd.
  cbn in Vy, Vm, Vd |- *.
  injection Vy as Vy. injection Vm as Vm. injection Vd as Vd.
  f_equal. f_equal; [f_equal|]; lia.
Qed.

(** dayjs reads back the date it wrote, when the year has four digits. *)
Lemma format_date_readable (off ms : Z) :
  0 <= Dayjs.yearOf off ms <= 9999 ->
  Dayjs.dayjs off (Dayjs.format_date off (Some ms)) <> None.
Proof.
  unfold Dayjs.yearOf, Dayjs.format_date, Dayjs.dayjs. intros Y.
  pose proof (civil_from_days_bounds (Dayjs.localDay off ms)) as [M D].
  destruct (Dayjs.civil_from_days (Dayjs.localDay off ms)) as [[y m] d].
  cbn [fst snd] in *.
  rewrite (ymd_pad y m d) by lia. discriminate.
Qed.

(** What dayjs reads back is the local midnight of the day it wrote, when
    the year is not one [new Date] takes for 19xx. *)
Lemma dayjs_format_date (off ms : Z) :
  100 <= Dayjs.yearOf off ms <= 9999 ->
  Dayjs.dayjs off (Dayjs.format_date off (Some ms)) = Dayjs.startOf off (Some ms).
Proof.
  unfold Dayjs.yearOf, Dayjs.format_date, Dayjs.dayjs, Dayjs.startOf. intros Y.
  pose proof (civil_from_days_bounds (Dayjs.localDay off ms)) as [M D].
  pose proof (days_from_civil_from_days (Dayjs.localDay off ms)) as R.
  destruct (Dayjs.civil_from_days (Dayjs.localDay off ms)) as [[y m] d].
  cbn [fst snd option_map] in *.
  rewrite (ymd_pad y m d) by lia.
  destruct (Z.ltb_spec y 100) as [L|L]; [lia|].
  replace ((m - 1) / 12) with 0 by (Z.div_mod_to_equations; lia).
  replace ((m - 1) mod 12 + 1) with m by (Z.div_mod_to_equations; lia).
  do 2 f_equal. rewrite <- R. unfold Dayjs.days_from_civil. cbv zeta.
  rewrite Z.add_0_r. lia.
Qed.

Lemma sortCompare_byDateDesc_pos (x y : NewsItem.t) :
  (Js.sortCompare Shared.byDateDesc x y <=? 0) = false ->
  exists vx vy, Shared.dateValue x = Some vx /\ Shared.dateValue y = Some vy /\ vx < vy.
Proof.
  unfold Js.sortCompare, Shared.byDateDesc, Js.sub.
  destruct (Shared.dateValue y) as [vy|], (Shared.dateValue x) as [vx|];
    rewrite Z.leb_gt; intros L; try lia.
  exists vx, vy. repeat split; lia.
Qed.

(** Insertion leaves the items of each date in the order they had. *)
Lemma insert_datedAt (v : Z) (x : NewsItem.t) (l : list NewsItem.t) :
  filter (Shared.datedAt v) (Js.insert Shared.byDateDesc x l)
  = filter (Shared.datedAt v) (x :: l).
Proof.
  induction l as [|y l IH]; [reflexivity|].
  cbn [Js.insert].
  destruct (Js.sortCompare Shared.byDateDesc x y <=? 0) eqn:E; [reflexivity|].
  apply sortCompare_byDateDesc_pos in E as (vx & vy & Ex & Ey & L).
  cbn [filter] in *. rewrite IH.
  destruct (Shared.datedAt v x) eqn:X, (Shared.datedAt v y) eqn:Y; try reflexivity.
  unfold Shared.datedAt in X, Y. rewrite Ex in X. rewrite Ey in Y.
  apply Z.eqb_eq in Y, X. lia.
Qed.

Lemma sort_datedAt (v : Z) (l : list NewsItem.t) :
  filter (Shared.datedAt v) (Js.sort Shared.byDateDesc l) = filter (Shared.datedAt v) l.
Proof.
  induction l as [|x l IH]; [reflexivity|].
  cbn [Js.sort fold_right]. fold (Js.sort Shared.byDateDesc l).
  rewrite insert_datedAt. cbn [filter]. now rewrite IH.
Qed.

End Dates.

Section Sorting.
Context {H : Host}.

Lemma notEarlier_trans (a b c : NewsItem.t) :
  Shared.notEarlier a b -> Shared.notEarlier b c -> Shared.notEarlier a c.
Proof.
  unfold Shared.notEarlier.
  destruct (Shared.dateValue a), (Shared.dateValue b), (Shared.dateValue c);
    try tauto; lia.
Qed.

Lemma insert_sorted (x : NewsItem.t) (l : list NewsItem.t) :
  Shared.readable x -> Forall Shared.readable l ->
  StronglySorted Shared.notEarlier l ->
  StronglySorted Shared.notEarlier (Js.insert Shared.byDateDesc x l).
Proof.
  intros Rx Rl S. induction S as [|y l S IH F]; cbn [Js.insert].
  - repeat constructor.
  - inversion Rl as [|? ? Ry Rl']; subst.
    destruct (Js.sortCompare Shared.byDateDesc x y <=? 0) eqn:E.
    + assert (XY : Shared.notEarlier x y).
      { unfold Js.sortCompare, Shared.byDateDesc, Js.sub in E.
        unfold Shared.readable in Rx, Ry. unfold Shared.notEarlier.
        destruct (Shared.dateValue x), (Shared.dateValue y); try congruence.
        apply Z.leb_le in E. lia. }
      constructor; [now constructor|].
      constructor; [assumption|].
      eapply Forall_impl; [|exact F].
      intros z. now apply notEarlier_trans.
    + constructor; [now apply IH|].
      apply sortCompare_byDateDesc_pos in E as (vx & vy & Ex & Ey & L).
      rewrite (insert_Permutation Shared.byDateDesc x l).
      constructor; [|assumption].
      unfold Shared.notEarlier. rewrite Ex, Ey. lia.
Qed.

Lemma sort_sorted (l : list NewsItem.t) :
  Forall Shared.readable l ->
  StronglySorted Shared.notEarlier (Js.sort Shared.byDateDesc l).
Proof.
  induction 1 as [|x l Rx Rl IH]; cbn [Js.sort fold_right]; [constructor|].
  fold (Js.sort Shared.byDateDesc l).
  apply insert_sorted; try assumption.
  now rewrite (sort_Permutation Shared.byDateDesc l).
Qed.

Lemma datedAt_own (x : NewsItem.t) (v : Z) :
  Shared.dateValue x = Some v -> Shared.datedAt v x = true.
Proof. intros E. unfold Shared.datedAt. rewrite E. apply Z.eqb_refl. Qed.

Lemma datedAt_other (x : NewsItem.t) (v v' : Z) :
  Shared.dateValue x = Some v -> v' <> v -> Shared.datedAt v' x = false.
Proof. intros E N. unfold Shared.datedAt. rewrite E. apply Z.eqb_neq. congruence. Qed.

(** A list sorted by date is determined by the order of the items of each
    date: the stable ordering [Js.sort] computes is the only one. *)
Lemma sorted_stable_unique (l1 l2 : list NewsItem.t) :
  Forall Shared.readable l1 -> Forall Shared.readable l2 ->
  StronglySorted Shared.notEarlier l1 -> StronglySorted Shared.notEarlier l2 ->
  (forall v, filter (Shared.datedAt v) l1 = filter (Shared.datedAt v) l2) ->
  l1 = l2.
Proof.
  revert l2. induction l1 as [|x l1 IH]; intros l2 R1 R2 S1 S2 F.
  - destruct l2 as [|y l2]; [reflexivity|].
    inversion R2 as [|? ? Ry _]; subst.
    destruct (Shared.dateValue y) as [vy|] eqn:Ey; [|now contradict Ry].
    specialize (F vy). cbn [filter] in F. rewrite (datedAt_own y vy Ey) in F.
    discriminate F.
  - inversion R1 as [|? ? Rx R1']; subst.
    destruct (Shared.dateValue x) as [vx|] eqn:Ex; [|now contradict Rx].
    destruct l2 as [|y l2].
    { specialize (F vx). cbn [filter] in F. rewrite (datedAt_own x vx Ex) in F.
      discriminate F. }
    inversion R2 as [|? ? Ry R2']; subst.
    destruct (Shared.dateValue y) as [vy|] eqn:Ey; [|now contradict Ry].
    inversion S1 as [|? ? S1' A1]; subst. inversion S2 as [|? ? S2' A2]; subst.
    assert (Lyx : vx <= vy).
    { assert (I : In x (y :: l2)).
      { apply (proj1 (filter_In (Shared.datedAt vx) x (y :: l2))).
        rewrite <- F. cbn [filter]. rewrite (datedAt_own x vx Ex). now left. }
      destruct I as [<-|I]; [assert (vx = vy) by congruence; lia|].
      rewrite Forall_forall in A2. specialize (A2 x I).
      unfold Shared.notEarlier in A2. now rewrite Ey, Ex in A2. }
    assert (Lxy : vy <= vx).
    { assert (I : In y (x :: l1)).
      { apply (proj1 (filter_In (Shared.datedAt vy) y (x :: l1))).
        rewrite F. cbn [filter]. rewrite (datedAt_own y vy Ey). now left. }
      destruct I as [<-|I]; [assert (vx = vy) by congruence; lia|].
      rewrite Forall_forall in A1. specialize (A1 y I).
      unfold Shared.notEarlier in A1. now rewrite Ex, Ey in A1. }
    assert (vy = vx) by lia. subst vy.
    pose proof (F vx) as Fx. cbn [filter] in Fx.
    rewrite (datedAt_own x vx Ex), (datedAt_own y vx Ey) in Fx.
    injection Fx as -> Fx. f_equal.
    apply IH; try assumption.
    intros v. destruct (Z.eq_dec v vx) as [->|N]; [exact Fx|].
    specialize (F v). cbn [filter] in F.
    now rewrite (datedAt_other y vx v Ey N) in F.
Qed.

Lemma sort_unique (l l' : list NewsItem.t) :
  Forall Shared.readable l -> Permutation l' l ->
  StronglySorted Shared.notEarlier l' ->
  (forall v, filter (Shared.datedAt v) l' = filter (Shared.datedAt v) l) ->
  l' = Js.sort Shared.byDateDesc l.
Proof.
  intros R P S F. apply sorted_stable_unique.
  - now rewrite P.
  - now rewrite (sort_Permutation Shared.byDateDesc l).
  - exact S.
  - now apply sort_sorted.
  - intros v. now rewrite sort_datedAt.
Qed.

(** Readability of every date of a list, by evaluation. *)
Lemma readable_all (l : list NewsItem.t) :
  forallb (fun item => Dayjs.isValid (Dayjs.dayjs utcOffset (NewsItem.date item))) l = true ->
  Forall Shared.readable l.
Proof.
  intros E. apply Forall_forall. intros item I.
  apply (proj1 (forallb_forall _ l) E) in I.
  unfold Shared.readable, Shared.dateValue, Dayjs.valueOf.
  now destruct (Dayjs.dayjs utcOffset (NewsItem.date item)).
Qed.

End Sorting.

(** ** The extractor *)
Section Extractor.
Context {H : Host}.

(** The items an element adds to [result]: one or none. *)
Lemma each_spec (c : SourceConfig.t) (result : list NewsItem.t) (element : Element) :
  Shared.each c result element = result ++ Shared.each c [] element.
Proof.
  unfold Shared.each.
  destruct (Shared.eachBody c element) as [[item|]|err];
    now rewrite ?app_nil_r.
Qed.

Lemma fold_each_acc (c : SourceConfig.t) (elements : list Element) (result : list NewsItem.t) :
  fold_left (Shared.each c) elements result
  = result ++ fold_left (Shared.each c) elements [].
Proof.
  revert result; induction elements as [|e l IH]; intros result; cbn [fold_left].
  - now rewrite app_nil_r.
  - rewrite IH, (IH (Shared.each c [] e)), each_spec. now rewrite app_assoc.
Qed.

Lemma fold_each_app (c : SourceConfig.t) (l1 l2 : list Element) :
  fold_left (Shared.each c) (l1 ++ l2) []
  = fold_left (Shared.each c) l1 [] ++ fold_left (Shared.each c) l2 [].
Proof. rewrite fold_left_app. apply fold_each_acc. Qed.

Lemma malformed_skipped (c : SourceConfig.t) (element : Element) :
  Shared.malformed c element -> Shared.each c [] element = [].
Proof.
  unfold Shared.each, Shared.eachBody.
  intros [M | [(sel & F & V) | [[M | M] | (err & M)]]].
  - unfold Shared.dateMissing in M. now rewrite M.
  - rewrite F. cbn [Js.bind]. rewrite V. cbn [negb].
    now destruct (List.length sel =? 0)%nat.
  - destruct (cheerio_find element (SourceConfig.dateSelector c)) as [d|]; [|reflexivity].
    cbn [Js.bind]. destruct (List.length d =? 0)%nat; [reflexivity|].
    destruct (negb _); [reflexivity|].
    rewrite M. cbn [Js.bind].
    now destruct (cheerio_find element (SourceConfig.hrefSelector c)).
  - destruct (cheerio_find element (SourceConfig.dateSelector c)) as [d|]; [|reflexivity].
    cbn [Js.bind]. destruct (List.length d =? 0)%nat; [reflexivity|].
    destruct (negb _); [reflexivity|].
    destruct (cheerio_find element (SourceConfig.titleSelector c)) as [t|]; [|reflexivity].
    cbn [Js.bind]. rewrite M. cbn [Js.bind List.length Nat.eqb].
    now rewrite orb_true_r.
  - unfold Shared.eachBody in M. now rewrite M.
Qed.

Lemma fold_each_all_malformed (c : SourceConfig.t) (elements : list Element) :
  Forall (Shared.malformed c) elements -> fold_left (Shared.each c) elements [] = [].
Proof.
  induction 1 as [|e l M F IH]; [reflexivity|].
  change (e :: l) with ([e] ++ l). rewrite fold_each_app, IH.
  cbn [fold_left]. now rewrite malformed_skipped.
Qed.

(** Every item the callback builds carries a date dayjs reads back. *)
Lemma eachBody_readable (c : SourceConfig.t) (element : Element) (item : NewsItem.t) :
  Shared.fourDigitYears ->
  Shared.eachBody c element = Js.Return (Some item) -> Shared.readable item.
Proof.
  intros Y. unfold Shared.eachBody.
  destruct (cheerio_find element (SourceConfig.dateSelector c)) as [dateElement|];
    [|discriminate].
  cbn [Js.bind]. destruct (List.length dateElement =? 0)%nat; [discriminate|].
  destruct (dayjs_parse _ dateFormats true) as [ms|] eqn:P; [|discriminate].
  cbn [Dayjs.isValid negb].
  destruct (cheerio_find element (SourceConfig.titleSelector c)) as [titleElement|];
    [|discriminate].
  cbn [Js.bind].
  destruct (cheerio_find element (SourceConfig.hrefSelector c)) as [hrefElement|];
    [|discriminate].
  cbn [Js.bind]. destruct (_ || _); [discriminate|].
  destruct (URL_href _ _) as [href|]; [|discriminate].
  cbn [Js.bind]. intros E.
  apply (f_equal (fun r => match r with
                           | Js.Return (Some built) => NewsItem.date built
                           | _ => ""
                           end)) in E.
  cbn [NewsItem.date] in E.
  unfold Shared.readable, Shared.dateValue, Dayjs.valueOf. rewrite <- E.
  apply format_date_readable. exact (Y _ _ _ _ P).
Qed.

Lemma each_readable (c : SourceConfig.t) (result : list NewsItem.t) (element : Element) :
  Shared.fourDigitYears ->
  Forall Shared.readable result -> Forall Shared.readable (Shared.each c result element).
Proof.
  intros Y R. unfold Shared.each.
  destruct (Shared.eachBody c element) as [[item|]|err] eqn:E; try assumption.
  apply Forall_app. split; [assumption|].
  constructor; [|constructor]. exact (eachBody_readable c element item Y E).
Qed.

Lemma fold_each_readable (c : SourceConfig.t) (elements : list Element)
  (result : list NewsItem.t) :
  Shared.fourDigitYears ->
  Forall Shared.readable result ->
  Forall Shared.readable (fold_left (Shared.each c) elements result).
Proof.
  intros Y. revert result. induction elements as [|e l IH]; intros result R; cbn [fold_left].
  - assumption.
  - apply IH. now apply each_readable.
Qed.

(** A response with status 200 whose item selector is well formed is
    parsed, and nothing an element does makes the extraction fail. *)
Lemma fetchContent_200 (c : SourceConfig.t) (statusText : string) (page : Html)
  (elements : list Element) :
  cheerio_select page (SourceConfig.itemSelector c) = Js.Return elements ->
  Server.fetchContent (Some c) (Axios.HttpResponse 200 statusText page)
  = Js.Return (fold_left (Shared.each c) elements []).
Proof.
  intros S. unfold Server.fetchContent. cbn. now rewrite S.
Qed.

End Extractor.

(** ** The aggregator of src/server.js *)
Section Aggregator.
Context {H : Host}.

Lemma validRegistry_app (l1 l2 : list SourceEntry) :
  Server.validRegistry (l1 ++ l2) <-> Server.validRegistry l1 /\ Server.validRegistry l2.
Proof.
  unfold Server.validRegistry. rewrite forallb_app. apply andb_true_iff.
Qed.

(** A source's failure is caught in the mapper: its promise is fulfilled. *)
Lemma mapper_fulfilled (w : Server.World) (i : nat) (c : SourceConfig.t)
  (errors : list SourceError.t) :
  fst (Server.mapper w i (Some c) errors) = Js.Return (Server.contribution w i (Some c)).
Proof.
  unfold Server.mapper, Server.contribution.
  now destruct (Server.fetchContent (Some c) (Server.http w i)).
Qed.

Lemma mapper_errors (w : Server.World) (i : nat) (source : SourceEntry)
  (errors : list SourceError.t) :
  snd (Server.mapper w i source errors) = errors ++ Server.failureOf w (i, source).
Proof.
  unfold Server.mapper, Server.failureOf. cbn [fst snd].
  destruct source as [c|].
  - destruct (Server.fetchContent (Some c) (Server.http w i)); cbn [snd];
      [now rewrite app_nil_r | reflexivity].
  - destruct (Server.fetchContent None (Server.http w i)); cbn [snd];
      now rewrite app_nil_r.
Qed.

Lemma promises_from_fulfilled (w : Server.World) (srcs : list SourceEntry) (i : nat) :
  Server.validRegistry srcs ->
  Js.mapi_from i (fun i source => fst (Server.mapper w i source [])) srcs
  = map Js.Return (Js.mapi_from i (Server.contribution w) srcs).
Proof.
  revert i; induction srcs as [|s srcs IH]; intros i V; [reflexivity|].
  unfold Server.validRegistry in V. cbn [forallb] in V.
  apply andb_true_iff in V as [Vs V].
  destruct s as [c|]; [|discriminate].
  cbn [Js.mapi_from map]. rewrite mapper_fulfilled. f_equal. now apply IH.
Qed.

(** With no [null] entry every promise is fulfilled, so [Promise.all] is. *)
Lemma promises_all (w : Server.World) (srcs : list SourceEntry) :
  Server.validRegistry srcs ->
  Js.Promise_all (Server.promises w srcs)
  = Js.Return (Js.mapi (Server.contribution w) srcs).
Proof.
  intros V. apply Promise_all_fulfilled. now apply promises_from_fulfilled.
Qed.

Lemma fold_mapper_errors (w : Server.World) (tasks : list (nat * SourceEntry))
  (errors : list SourceError.t) :
  fold_left (fun errors task => snd (Server.mapper w (fst task) (snd task) errors))
            tasks errors
  = errors ++ flat_map (Server.failureOf w) tasks.
Proof.
  revert errors; induction tasks as [|[i s] tasks IH]; intros errors; cbn [fold_left flat_map].
  - now rewrite app_nil_r.
  - rewrite IH, mapper_errors. cbn [fst snd]. now rewrite app_assoc.
Qed.

(** The [errors] array holds the failing sources' entries, each once, in the
    order the sources settled. *)
Lemma settledErrors_spec (w : Server.World) (srcs : list SourceEntry) :
  Server.settledErrors w srcs = flat_map (Server.failureOf w) (Server.settleOrder w srcs).
Proof. unfold Server.settledErrors. now rewrite fold_mapper_errors. Qed.

Lemma settledErrors_failures (w : Server.World) (srcs : list SourceEntry) :
  Permutation (Server.settledErrors w srcs) (Server.failures w srcs).
Proof.
  rewrite settledErrors_spec. unfold Server.failures, Server.settleOrder.
  apply Permutation_flat_map, sort_Permutation.
Qed.

Lemma settledErrors_length (w : Server.World) (srcs : list SourceEntry) :
  List.length (Server.settledErrors w srcs) = List.length (Server.failures w srcs).
Proof. apply Permutation_length, settledErrors_failures. Qed.

(** The result of a run over a registry of specs, written out. *)
Lemma fetchAllData_eq (CONFIG : Server.Config) (w : Server.World) (daysArg : option Z) :
  Server.validRegistry (Server.sources CONFIG) ->
  let filteredItems :=
    filter (Shared.inWindow (Server.now w) (Server.daysOrDefault CONFIG daysArg))
           (Js.sort Shared.byDateDesc (Server.extracted w (Server.sources CONFIG))) in
  let errors := Server.settledErrors w (Server.sources CONFIG) in
  Server.fetchAllData CONFIG w daysArg
  = Js.Return
      {| Server.updateTime := Dayjs.format_datetime utcOffset (Some (Server.now w));
         Server.total := List.length filteredItems;
         Server.allItems := filteredItems;
         Server.errors := if (0 <? List.length errors)%nat then Some errors else None;
         Server.partialSuccess :=
           (0 <? List.length errors)%nat && (0 <? List.length filteredItems)%nat |}.
Proof.
  intros V. unfold Server.fetchAllData, Server.aggregate.
  rewrite (promises_all w _ V). reflexivity.
Qed.

Lemma failures_app (w : Server.World) (l1 l2 : list SourceEntry) :
  Server.failures w (l1 ++ l2)
  = Server.failures w l1
    ++ flat_map (Server.failureOf w) (Js.mapi_from (List.length l1) pair l2).
Proof.
  unfold Server.failures, Js.mapi. now rewrite mapi_from_app, flat_map_app.
Qed.

Lemma extracted_app (w : Server.World) (l1 l2 : list SourceEntry) :
  Server.extracted w (l1 ++ l2)
  = Server.extracted w l1
    ++ List.concat (Js.mapi_from (List.length l1) (Server.contribution w) l2).
Proof.
  unfold Server.extracted, Js.mapi. now rewrite mapi_from_app, concat_app.
Qed.

(** A failing source adds nothing to the concatenation: the other sources'
    items are those of the run in which it was never asked. *)
Lemma extracted_without (w : Server.World) (before after : list SourceEntry)
  (c : SourceConfig.t) (error : Js.Error) :
  Server.fetchContent (Some c) (Server.http w (List.length before)) = Js.Throw error ->
  Server.extracted w (before ++ Some c :: after)
  = Server.extracted (Server.without (List.length before) w) (before ++ after).
Proof.
  intros F. rewrite !extracted_app. f_equal.
  - unfold Server.extracted, Js.mapi. f_equal.
    assert (G : forall l i, (i + List.length l <= List.length before)%nat ->
              Js.mapi_from i (Server.contribution w) l
              = Js.mapi_from i (Server.contribution
                                  (Server.without (List.length before) w)) l).
    { induction l as [|x l IH]; intros i Hi; cbn [Js.mapi_from]; [reflexivity|].
      cbn [List.length] in Hi. f_equal; [|apply IH; lia].
      unfold Server.contribution, Server.without; cbn [Server.http].
      destruct (Nat.ltb_spec i (List.length before)); [reflexivity|lia]. }
    apply G. lia.
  - cbn [Js.mapi_from List.concat].
    unfold Server.contribution at 1. rewrite F. cbn [app].
    rewrite mapi_from_shift. f_equal. apply mapi_from_ext.
    intros j x Hj. unfold Server.contribution, Server.without; cbn [Server.http].
    destruct (Nat.ltb_spec j (List.length before)); [lia|reflexivity].
Qed.

(** On a host whose parser yields four-digit years, dayjs reads back the
    date of every extracted item. *)
Lemma fetchContent_readable (source : SourceEntry) (o : Axios.Outcome)
  (items : list NewsItem.t) :
  Shared.fourDigitYears ->
  Server.fetchContent source o = Js.Return items -> Forall Shared.readable items.
Proof.
  intros Y. unfold Server.fetchContent. destruct source as [c|]; [|discriminate].
  destruct (Axios.get Server.validateStatus o) as [response|]; [|discriminate].
  cbn [Js.bind Js.tryCatch]. destruct (Axios.status response =? 200); [|discriminate].
  destruct (cheerio_select _ _) as [elements|]; [|discriminate].
  cbn [Js.bind]. intros E. injection E as <-.
  apply fold_each_readable; [exact Y|constructor].
Qed.

Lemma extracted_readable (w : Server.World) (srcs : list SourceEntry) :
  Shared.fourDigitYears -> Forall Shared.readable (Server.extracted w srcs).
Proof.
  intros Y. unfold Server.extracted, Js.mapi. generalize 0%nat.
  induction srcs as [|s srcs IH]; intros i; cbn [Js.mapi_from List.concat]; [constructor|].
  apply Forall_app. split; [|apply IH].
  unfold Server.contribution.
  destruct (Server.fetchContent s (Server.http w i)) as [items|] eqn:E; [|constructor].
  exact (fetchContent_readable s _ items Y E).
Qed.

Lemma contribution_extracted (w : Server.World) (srcs : list SourceEntry) (i : nat)
  (source : SourceEntry) (item : NewsItem.t) :
  nth_error srcs i = Some source ->
  In item (Server.contribution w i source) ->
  In item (Server.extracted w srcs).
Proof.
  intros N I. unfold Server.extracted. apply in_concat.
  exists (Server.contribution w i source). split; [|assumption].
  eapply nth_error_In. unfold Js.mapi.
  now rewrite (mapi_from_nth_error _ _ 0 i source N).
Qed.

End Aggregator.

(** ** The failure report *)
Section Report.
Context {H : Host}.

Lemma in_mapi_from_pair {A} (l : list A) (k i : nat) (x : A) :
  In (i, x) (Js.mapi_from k pair l) <-> (k <= i)%nat /\ nth_error l (i - k) = Some x.
Proof.
  revert k; induction l as [|y l IH]; intros k; cbn [Js.mapi_from In].
  - split; [tauto|]. intros [_ N]. now destruct (i - k)%nat.
  - rewrite IH. split.
    + intros [E | [L N]].
      * injection E as -> ->. rewrite Nat.sub_diag. split; [lia|reflexivity].
      * split; [lia|]. replace (i - k)%nat with (S (i - S k)) by lia. exact N.
    + intros [L N]. destruct (Nat.eq_dec i k) as [->|D].
      * rewrite Nat.sub_diag in N. injection N as ->. now left.
      * right. split; [lia|].
        replace (i - k)%nat with (S (i - S k)) in N by lia. exact N.
Qed.

Lemma flat_map_nil {A B} (f : A -> list B) (l : list A) :
  flat_map f l = [] <-> forall x, In x l -> f x = [].
Proof.
  induction l as [|y l IH]; cbn [flat_map In]; [tauto|].
  split.
  - intros E. apply app_eq_nil in E as [E1 E2].
    intros x [<-|I]; [assumption|]. now apply IH.
  - intros F. rewrite (F y (or_introl eq_refl)).
    apply IH. intros x I. apply F. now right.
Qed.

(** No entry is reported exactly when no source fails. *)
Lemma failures_nil (w : Server.World) (srcs : list SourceEntry) :
  Server.failures w srcs = [] <-> forall i, ~ Server.fails w srcs i.
Proof.
  unfold Server.failures, Js.mapi. rewrite flat_map_nil. split.
  - intros F i (c & error & N & E).
    specialize (F (i, Some c)).
    unfold Server.failureOf in F. cbn [fst snd] in F. rewrite E in F.
    discriminate F. apply in_mapi_from_pair. rewrite Nat.sub_0_r. split; [lia|exact N].
  - intros F [i [c|]] I; unfold Server.failureOf; cbn [fst snd]; [|reflexivity].
    destruct (Server.fetchContent (Some c) (Server.http w i)) as [items|error] eqn:E;
      [reflexivity|].
    exfalso. apply (F i). exists c, error. split; [|exact E].
    apply in_mapi_from_pair in I as [_ N]. now rewrite Nat.sub_0_r in N.
Qed.

Lemma toJSON_errors (data : Server.AggregateResult) :
  JSON.get "errors" (Server.toJSON data)
  = option_map (fun es => JSON.JArray (map SourceError.toJSON es)) (Server.errors data).
Proof. destruct data as [u t a [es|] p]; reflexivity. Qed.

Lemma toJSON_partialSuccess (data : Server.AggregateResult) :
  JSON.get "partialSuccess" (Server.toJSON data)
  = Some (JSON.JBool (Server.partialSuccess data)).
Proof. destruct data as [u t a [es|] p]; reflexivity. Qed.

End Report.

(** ** The handler of [GET /api/news] *)
Section Handler.
Context {H : Host}.

(** When the handler answers 400: the parameter is a non-empty string and
    the number that stands for it lies outside [1, 90]. *)
Lemma rejectsDays_spec (CONFIG : Backend.Config) (query : Backend.Query) :
  Backend.rejectsDays CONFIG query = true <->
  exists days,
    Backend.daysParam query = Some days /\ days <> "" /\
    (Backend.daysNumOf CONFIG query < 1 \/ 90 < Backend.daysNumOf CONFIG query).
Proof.
  unfold Backend.rejectsDays, Js.truthy, Js.isNaN, Js.lt, Js.gt.
  destruct (Backend.daysParam query) as [days|].
  - cbn [orb]. rewrite andb_true_iff, negb_true_iff, orb_true_iff, String.eqb_neq.
    rewrite !Z.ltb_lt. split.
    + intros [N R]. now exists days.
    + intros (d & E & N & R). injection E as <-. now split.
  - split; [discriminate|]. now intros (d & E & _).
Qed.

(** A parameter that reads as an integer of [1, 90] is taken as it is. *)
Lemma daysNumOf_in_range (CONFIG : Backend.Config) (query : Backend.Query) (n : Z) :
  Js.parseInt (Backend.daysParam query) = Some n -> 1 <= n <= 90 ->
  Backend.daysNumOf CONFIG query = n /\ Backend.rejectsDays CONFIG query = false.
Proof.
  intros P B.
  assert (D : Backend.daysNumOf CONFIG query = n).
  { unfold Backend.daysNumOf. rewrite P. unfold Js.orElse. destruct n; try reflexivity; lia. }
  split; [exact D|].
  destruct (Backend.rejectsDays CONFIG query) eqn:R; [|reflexivity].
  apply rejectsDays_spec in R as (d & _ & _ & R). lia.
Qed.

(** A parameter [parseInt] reads as [NaN] or [0] is replaced by the default
    before it is checked, so it is refused only if the default is. *)
Lemma daysNumOf_unparsable (CONFIG : Backend.Config) (query : Backend.Query) :
  Js.parseInt (Backend.daysParam query) = None \/
  Js.parseInt (Backend.daysParam query) = Some 0 ->
  1 <= Backend.days CONFIG <= 90 ->
  Backend.daysNumOf CONFIG query = Backend.days CONFIG /\
  Backend.rejectsDays CONFIG query = false.
Proof.
  intros P B.
  assert (D : Backend.daysNumOf CONFIG query = Backend.days CONFIG).
  { unfold Backend.daysNumOf. destruct P as [-> | ->]; cbn [Js.orElse]; reflexivity. }
  split; [exact D|].
  destruct (Backend.rejectsDays CONFIG query) eqn:R; [|reflexivity].
  apply rejectsDays_spec in R as (d & _ & _ & R). lia.
Qed.

(** An accepted request is served the cached or refreshed result, filtered
    by category when one other than ["all"] is given, with [total] set to
    the length of the list served. *)
Lemma getNews_served (CONFIG : Backend.Config) (w : Backend.World) (query : Backend.Query)
  (cache cache1 : Backend.Cache) (data0 : Backend.NewsData) :
  Backend.rejectsDays CONFIG query = false ->
  Backend.fetchAllData CONFIG w false (Some (Backend.daysNumOf CONFIG query)) cache
    = (Js.Return data0, cache1) ->
  let items :=
    match Backend.filtersCategory query with
    | Some c => filter (fun item => (NewsItem.source item =? c)%string)
                       (Backend.allItems data0)
    | None => Backend.allItems data0
    end in
  fst (Backend.getNews CONFIG w query cache)
  = {| statusCode := 200;
       body := Backend.toJSON {| Backend.updateTime := Backend.updateTime data0;
                                 Backend.total := List.length items;
                                 Backend.allItems := items |} |}.
Proof.
  intros R F. unfold Backend.getNews. rewrite R, F.
  now destruct (Backend.filtersCategory query).
Qed.

Lemma getNews_refused (CONFIG : Backend.Config) (w : Backend.World) (query : Backend.Query)
  (cache : Backend.Cache) :
  Backend.rejectsDays CONFIG query = true ->
  Backend.getNews CONFIG w query cache = (Backend.badRequest, cache).
Proof. intros R. unfold Backend.getNews. now rewrite R. Qed.

End Handler.

(** ** Runs on the demonstration host *)

(** Two of three sources answer: their items are merged newest first, the
    third source is reported, and the run counts as a partial success. *)
Example run_partial_failure :
  option_map (fun data => (Server.total data,
                           map NewsItem.title (Server.allItems data),
                           option_map (map SourceError.source) (Server.errors data),
                           Server.partialSuccess data))
    (match Server.fetchAllData Demo.config Demo.world None with
     | Js.Return data => Some data
     | Js.Throw _ => None
     end)
  = Some (3%nat, ["c three"; "sixth"; "c one"], Some ["B"], true).
Proof. reflexivity. Qed.

(** Every source fails: nothing is served, the entries stand in the order
    the sources settled, and the run is not a partial success. *)
Example run_total_failure :
  option_map (fun data => (Server.total data,
                           option_map (map SourceError.source) (Server.errors data),
                           Server.partialSuccess data))
    (match Server.fetchAllData Demo.config Demo.stormWorld None with
     | Js.Return data => Some data
     | Js.Throw _ => None
     end)
  = Some (0%nat, Some ["C"; "B"; "A"], false).
Proof. reflexivity. Qed.

(** An empty registry: no items and no [errors] property. *)
Example run_empty_registry :
  option_map (fun data => (Server.total data, Server.errors data,
                           JSON.get "errors" (Server.toJSON data)))
    (match Server.fetchAllData Demo.emptyConfig Demo.world None with
     | Js.Return data => Some data
     | Js.Throw _ => None
     end)
  = Some (0%nat, None, None).
Proof. reflexivity. Qed.

(** An item dated exactly [days] days before today is left out, one dated
    the day after is kept. *)
Example run_window_boundary :
  map (Shared.inWindow (H := Demo.host) Demo.noon 3)
      [{| NewsItem.source := "A"; NewsItem.title := ""; NewsItem.url := "";
          NewsItem.date := "2024-05-02" |};
       {| NewsItem.source := "A"; NewsItem.title := ""; NewsItem.url := "";
          NewsItem.date := "2024-05-03" |}]
  = [false; true].
Proof. reflexivity. Qed.

(** * The claims *)

(** C1.  When one source of a registry of specs fails to fetch, the run is
    not aborted: [fetchAllData] returns a result whose [errors] holds the
    entry [{source, error, timestamp}] of the failing source under its
    title; every item a succeeding source extracted that lies in the date
    window is in [allItems]; and [allItems] and [total] are those of the run
    over the registry without the failing source. *)
Theorem fetchAllData_isolates_failing_source :
  forall (H : Host) (CONFIG : Server.Config) (w : Server.World) (daysArg : option Z)
         (before after : list SourceEntry) (c : SourceConfig.t) (error : Js.Error),
    Server.validRegistry (Server.sources CONFIG) ->
    Server.sources CONFIG = before ++ Some c :: after ->
    Server.fetchContent (Some c) (Server.http w (List.length before)) = Js.Throw error ->
    exists data,
      Server.fetchAllData CONFIG w daysArg = Js.Return data /\
      (exists failures,
          Server.errors data = Some failures /\
          In {| SourceError.source := SourceConfig.title c;
                SourceError.error := Js.message error;
                SourceError.timestamp :=
                  Dayjs.toISOString (Server.settledAt w (List.length before)) |}
             failures) /\
      (forall i source items item,
          nth_error (Server.sources CONFIG) i = Some source ->
          Server.fetchContent source (Server.http w i) = Js.Return items ->
          In item items ->
          Shared.inWindow (Server.now w) (Server.daysOrDefault CONFIG daysArg) item = true ->
          In item (Server.allItems data)) /\
      (exists data',
          Server.fetchAllData {| Server.days := Server.days CONFIG;
                                 Server.sources := before ++ after |}
                              (Server.without (List.length before) w) daysArg
            = Js.Return data' /\
          Server.allItems data = Server.allItems data' /\
          Server.total data = Server.total data').
Proof.
  intros H CONFIG w daysArg before after c error V E F.
  eexists. split; [apply (fetchAllData_eq CONFIG w daysArg V)|].
  cbn [Server.errors Server.allItems Server.total].
  split; [|split].
  - assert (I : In (Server.sourceError w (List.length before) c error)
                   (Server.settledErrors w (Server.sources CONFIG))).
    { apply (Permutation_in _ (Permutation_sym (settledErrors_failures w _))).
      rewrite E, failures_app. apply in_or_app. right.
      cbn [Js.mapi_from flat_map]. apply in_or_app. left.
      unfold Server.failureOf. cbn [fst snd]. rewrite F. now left. }
    exists (Server.settledErrors w (Server.sources CONFIG)). split; [|exact I].
    destruct (Server.settledErrors w (Server.sources CONFIG)); [destruct I|reflexivity].
  - intros i source items item N R I W.
    apply filter_In. split; [|exact W].
    apply (Permutation_in _ (Permutation_sym (sort_Permutation _ _))).
    apply (contribution_extracted w _ i source item N).
    unfold Server.contribution. now rewrite R.
  - assert (V' : Server.validRegistry (before ++ after)).
    { rewrite E in V. apply validRegistry_app in V as [V1 V2].
      apply validRegistry_app. split; [assumption|].
      change (Some c :: after) with ([Some c] ++ after) in V2.
      now apply validRegistry_app in V2. }
    eexists. split.
    + apply (fetchAllData_eq {| Server.days := Server.days CONFIG;
                                Server.sources := before ++ after |}
                             (Server.without (List.length before) w) daysArg V').
    + cbn [Server.allItems Server.total Server.sources Server.without Server.now].
      rewrite E, (extracted_without w before after c error F).
      split; reflexivity.
Qed.

Lemma fetchAllData_isolates_failing_source_witness :
  exists data,
    Server.fetchAllData Demo.config Demo.world None = Js.Return data /\
    (exists failures,
        Server.errors data = Some failures /\
        In {| SourceError.source := "B";
              SourceError.error := "抓取失败 (timeout of 10000ms exceeded)";
              SourceError.timestamp := "2024-05-05T03:59:59.000Z" |} failures) /\
    (forall i source items item,
        nth_error Demo.registry i = Some source ->
        Server.fetchContent source (Server.http Demo.world i) = Js.Return items ->
        In item items ->
        Shared.inWindow (H := Demo.host) Demo.noon 3 item = true ->
        In item (Server.allItems data)) /\
    (exists data',
        Server.fetchAllData {| Server.days := 3;
                               Server.sources := [Some (Demo.spec "A"); Some (Demo.spec "C")] |}
                            (Server.without 1 Demo.world) None
          = Js.Return data' /\
        Server.allItems data = Server.allItems data' /\
        Server.total data = Server.total data').
Proof.
  apply (fetchAllData_isolates_failing_source
           Demo.host Demo.config Demo.world None
           [Some (Demo.spec "A")] [Some (Demo.spec "C")] (Demo.spec "B")
           (Js.mkError "抓取失败 (timeout of 10000ms exceeded)"));
    reflexivity.
Defined.

(** C2, as the spec states it, fails when no source fails: [partialSuccess]
    is then the boolean [false], and it is sent, with [errors] absent and
    [total] positive. *)
Lemma partialSuccess_sent_without_errors :
  exists data,
    Server.fetchAllData Demo.config Demo.calmWorld None = Js.Return data /\
    Server.errors data = None /\
    JSON.get "errors" (Server.toJSON data) = None /\
    Server.total data = 5%nat /\
    JSON.get "partialSuccess" (Server.toJSON data) = Some (JSON.JBool false).
Proof. eexists. split; [reflexivity|]. repeat split. Qed.

(** C2, amended.  In every result the aggregator builds over a registry of
    specs, [errors] is absent (not an empty list) when no source failed and
    present, holding one entry per failing source, when at least one
    failed; [partialSuccess] is always present and is a boolean: [true]
    exactly when [errors] is present and [total > 0], [false] otherwise,
    that is when [errors] is present with [total = 0] or when there are no
    errors. *)
Theorem fetchAllData_reports_failures :
  forall (H : Host) (CONFIG : Server.Config) (w : Server.World) (daysArg : option Z),
    Server.validRegistry (Server.sources CONFIG) ->
    exists data,
      Server.fetchAllData CONFIG w daysArg = Js.Return data /\
      ((forall i, ~ Server.fails w (Server.sources CONFIG) i) ->
         Server.errors data = None /\
         JSON.get "errors" (Server.toJSON data) = None) /\
      ((exists i, Server.fails w (Server.sources CONFIG) i) ->
         exists es,
           Server.errors data = Some es /\ es <> [] /\
           Permutation es (Server.failures w (Server.sources CONFIG)) /\
           JSON.get "errors" (Server.toJSON data)
             = Some (JSON.JArray (map SourceError.toJSON es))) /\
      (Server.partialSuccess data = true <->
         Server.errors data <> None /\ (0 < Server.total data)%nat) /\
      (Server.partialSuccess data = false <->
         Server.errors data = None \/ Server.total data = 0%nat) /\
      JSON.get "partialSuccess" (Server.toJSON data)
        = Some (JSON.JBool (Server.partialSuccess data)).
Proof.
  intros H CONFIG w daysArg V.
  eexists. split; [apply (fetchAllData_eq CONFIG w daysArg V)|].
  rewrite toJSON_errors, toJSON_partialSuccess.
  cbn [Server.errors Server.partialSuccess Server.total].
  pose proof (settledErrors_failures w (Server.sources CONFIG)) as P.
  pose proof (failures_nil w (Server.sources CONFIG)) as N.
  set (es := Server.settledErrors w (Server.sources CONFIG)) in *.
  set (n := List.length (filter _ _)).
  clearbody es n.
  split; [|split; [|split; [|split]]].
  - intros NF. apply N in NF. rewrite NF in P.
    apply Permutation_sym, Permutation_nil in P.
    rewrite P. split; reflexivity.
  - intros (i & Fi). destruct es as [|e es'].
    + apply Permutation_nil in P.
      exact (False_ind _ (proj1 N P i Fi)).
    + exists (e :: es'). repeat split; [discriminate|exact P].
  - destruct es as [|e es']; destruct (Nat.ltb_spec 0 n) as [L|L]; cbn;
      (split; [intros X | intros [X1 X2]]);
      try discriminate; try congruence; try lia; try (split; [discriminate|lia]).
  - destruct es as [|e es']; destruct (Nat.ltb_spec 0 n) as [L|L]; cbn;
      (split; [intros X | intros [X|X]]);
      try discriminate; try congruence; try lia; try (now left); try (right; lia).
  - reflexivity.
Qed.

Lemma fetchAllData_reports_failures_witness :
  exists data,
    Server.fetchAllData Demo.config Demo.world None = Js.Return data /\
    ((forall i, ~ Server.fails Demo.world Demo.registry i) ->
       Server.errors data = None /\
       JSON.get "errors" (Server.toJSON data) = None) /\
    ((exists i, Server.fails Demo.world Demo.registry i) ->
       exists es,
         Server.errors data = Some es /\ es <> [] /\
         Permutation es (Server.failures Demo.world Demo.registry) /\
         JSON.get "errors" (Server.toJSON data)
           = Some (JSON.JArray (map SourceError.toJSON es))) /\
    (Server.partialSuccess data = true <->
       Server.errors data <> None /\ (0 < Server.total data)%nat) /\
    (Server.partialSuccess data = false <->
       Server.errors data = None \/ Server.total data = 0%nat) /\
    JSON.get "partialSuccess" (Server.toJSON data)
      = Some (JSON.JBool (Server.partialSuccess data)).
Proof.
  apply (fetchAllData_reports_failures Demo.host Demo.config Demo.world None).
  reflexivity.
Defined.



(** C4.  The claim fails when a source holds a date that dayjs does not read
    back.  The text [-000001-06-01] is in none of the four formats, but
    without the plugin dayjs does not read the formats: it takes the text,
    and [format] writes its year as [00-1].  [dayjs] finds the stored
    [00-1-06-01] invalid, so the comparator answers [NaN] against the items
    on both sides and the sort leaves the three where they are; the filter
    then drops the item, and [allItems] holds the item of 2024-05-01 before
    the item of 2024-05-03. *)
Theorem fetchAllData_unsorted_by_unreadable_date :
  map NewsItem.date (Server.extracted Demo.oldWorld (Server.sources Demo.oldConfig))
    = ["2024-05-01"; "00-1-06-01"; "2024-05-03"] /\
  exists data,
    Server.fetchAllData Demo.oldConfig Demo.oldWorld None = Js.Return data /\
    map NewsItem.date (Server.allItems data) = ["2024-05-01"; "2024-05-03"] /\
    ~ StronglySorted (Shared.notEarlier (H := Demo.host)) (Server.allItems data).
Proof.
  split; [reflexivity|].
  eexists. split; [vm_compute; reflexivity|]. cbn [Server.allItems].
  split; [reflexivity|].
  intros S. apply StronglySorted_inv in S as [_ F].
  apply Forall_inv in F. vm_compute in F. apply F. reflexivity.
Qed.

(** What holds of the order: in every result built from items whose dates
    dayjs reads back, [allItems] is sorted by date, newest first, and the
    items of any one date stand in the order they have in the concatenation
    of the sources' items, source after source: no other key orders them. *)
Theorem fetchAllData_sorted_stable :
  forall (H : Host) (CONFIG : Server.Config) (w : Server.World) (daysArg : option Z),
    Server.validRegistry (Server.sources CONFIG) ->
    Forall Shared.readable (Server.extracted w (Server.sources CONFIG)) ->
    exists data,
      Server.fetchAllData CONFIG w daysArg = Js.Return data /\
      StronglySorted Shared.notEarlier (Server.allItems data) /\
      (forall v,
          filter (Shared.datedAt v) (Server.allItems data)
          = filter (Shared.datedAt v)
                   (filter (Shared.inWindow (Server.now w)
                                            (Server.daysOrDefault CONFIG daysArg))
                           (Server.extracted w (Server.sources CONFIG)))).
Proof.
  intros H CONFIG w daysArg V R.
  eexists. split; [apply (fetchAllData_eq CONFIG w daysArg V)|].
  cbn [Server.allItems]. split.
  - apply StronglySorted_filter, sort_sorted, R.
  - intros v. rewrite filter_filter_comm, sort_datedAt. apply filter_filter_comm.
Qed.

Lemma fetchAllData_sorted_stable_witness :
  exists data,
    Server.fetchAllData Demo.config Demo.calmWorld (Some 40) = Js.Return data /\
    StronglySorted (Shared.notEarlier (H := Demo.host)) (Server.allItems data) /\
    (forall v,
        filter (Shared.datedAt (H := Demo.host) v) (Server.allItems data)
        = filter (Shared.datedAt (H := Demo.host) v)
                 (filter (Shared.inWindow (H := Demo.host) Demo.noon 40)
                         (Server.extracted Demo.calmWorld Demo.registry))).
Proof.
  apply (fetchAllData_sorted_stable Demo.host Demo.config Demo.calmWorld (Some 40)).
  - reflexivity.
  - apply readable_all. vm_compute. reflexivity.
Defined.

(** C5.  The claim fails for a date text that matches none of the strict
    formats: [2024-5-3] is written in none of the four, and the element
    that holds it is not skipped but extracted, dated 2024-05-03.  The call
    [dayjs(dateText, formats, true)] hands the formats over, but neither
    server loads the plugin that reads them. *)
Theorem fetchContent_keeps_date_in_no_format :
  forallb (fun format => negb (Dayjs.written format "2024-5-3")) dateFormats = true /\
  Server.fetchContent (H := Demo.host) (Some (Demo.spec "A"))
                      (Axios.HttpResponse (H := Demo.host) 200 "OK" Demo.pageLoose)
  = Js.Return [{| NewsItem.source := "A";
                  NewsItem.title := "seventh";
                  NewsItem.url := "https://A.example/n/7";
                  NewsItem.date := "2024-05-03" |}].
Proof. split; reflexivity. Qed.

(** What holds of the skipping: on a document whose item selector matches,
    the extractor returns an item list and raises nothing for an element
    whose date sub-element is missing, whose date text dayjs finds invalid,
    whose title or link sub-element is missing, or whose processing throws:
    it is skipped alone, the items being those of the elements before it
    followed by those of the elements after it; and when every element is
    such the list returned is empty, which is still a normal return. *)
Theorem fetchContent_skips_malformed_items :
  forall (H : Host) (c : SourceConfig.t) (statusText : string) (page : Html)
         (before after : list Element) (element : Element),
    cheerio_select page (SourceConfig.itemSelector c)
      = Js.Return (before ++ element :: after) ->
    Shared.malformed c element ->
    Server.fetchContent (Some c) (Axios.HttpResponse 200 statusText page)
      = Js.Return (fold_left (Shared.each c) (before ++ after) []) /\
    (Forall (Shared.malformed c) (before ++ after) ->
     Server.fetchContent (Some c) (Axios.HttpResponse 200 statusText page) = Js.Return []).
Proof.
  intros H c statusText page before after element S M.
  rewrite (fetchContent_200 c statusText page _ S).
  assert (E : fold_left (Shared.each c) (before ++ element :: after) []
              = fold_left (Shared.each c) (before ++ after) []).
  { change (element :: after) with ([element] ++ after).
    rewrite !fold_each_app. cbn [fold_left].
    now rewrite (malformed_skipped c element M). }
  rewrite E. split; [reflexivity|].
  intros F. now rewrite (fold_each_all_malformed c _ F).
Qed.

Lemma fetchContent_skips_malformed_items_witness :
  Server.fetchContent (H := Demo.host) (Some (Demo.spec "A"))
                      (Axios.HttpResponse (H := Demo.host) 200 "OK" Demo.pageA)
    = Js.Return
        (fold_left (Shared.each (H := Demo.host) (Demo.spec "A"))
           ([Demo.entry " 2024-05-01 " "/n/1" "First" "first"; Demo.noDate; Demo.badDate;
             Demo.noLink]
            ++ [Demo.entry "2024-05-03" "https://other.example/n/6" "" " sixth "]) []) /\
  (Forall (Shared.malformed (H := Demo.host) (Demo.spec "A"))
          ([Demo.entry " 2024-05-01 " "/n/1" "First" "first"; Demo.noDate; Demo.badDate;
            Demo.noLink]
           ++ [Demo.entry "2024-05-03" "https://other.example/n/6" "" " sixth "]) ->
   Server.fetchContent (H := Demo.host) (Some (Demo.spec "A"))
                       (Axios.HttpResponse (H := Demo.host) 200 "OK" Demo.pageA)
     = Js.Return []).
Proof.
  apply (fetchContent_skips_malformed_items
           Demo.host (Demo.spec "A") "OK" Demo.pageA
           [Demo.entry " 2024-05-01 " "/n/1" "First" "first"; Demo.noDate; Demo.badDate;
            Demo.noLink]
           [Demo.entry "2024-05-03" "https://other.example/n/6" "" " sixth "]
           Demo.badLink).
  - reflexivity.
  - right. right. right. exists (Js.mkError "Invalid URL"). reflexivity.
Defined.

(** Each kind of malformed element occurs on the demonstration page, and the
    page yields its two well-formed items. *)
Example pageA_malformed_elements :
  Shared.dateMissing (H := Demo.host) (Demo.spec "A") Demo.noDate /\
  Shared.dateUnreadable (H := Demo.host) (Demo.spec "A") Demo.badDate /\
  Shared.titleOrLinkMissing (H := Demo.host) (Demo.spec "A") Demo.noLink /\
  Shared.raises (H := Demo.host) (Demo.spec "A") Demo.badLink /\
  option_map (map NewsItem.title)
    (match Server.fetchContent (H := Demo.host) (Some (Demo.spec "A"))
             (Axios.HttpResponse (H := Demo.host) 200 "OK" Demo.pageA) with
     | Js.Return items => Some items
     | Js.Throw _ => None
     end) = Some ["First"; "sixth"].
Proof.
  repeat split.
  - eexists. split; reflexivity.
  - now left.
  - exists (Js.mkError "Invalid URL"). reflexivity.
Qed.

(** C6.  A read that is not forced, finds an entry in the cache and comes
    less than the TTL after the entry's timestamp returns the cached result
    as it is and leaves the cache as it is, whatever [days] it is given and
    whatever the sources would answer. *)
Theorem backend_fetchAllData_serves_cached :
  forall (H : Host) (CONFIG : Backend.Config) (w : Backend.World) (daysArg : option Z)
         (cache : Backend.Cache) (cached : Backend.NewsData) (timestamp : Z),
    Backend.data cache = Some cached ->
    Backend.lastUpdate cache = Some timestamp ->
    Backend.Date_now w - timestamp < Backend.intervalMinutes CONFIG * 60 * 1000 ->
    Backend.fetchAllData CONFIG w false daysArg cache = (Js.Return cached, cache).
Proof.
  intros H CONFIG w daysArg cache cached timestamp D T L.
  unfold Backend.fetchAllData, Backend.cacheAge, Backend.cacheTimeout.
  rewrite D, T. cbn [negb].
  apply Z.ltb_lt in L. now rewrite L.
Qed.

(** The entry was built at noon with a window of 7 days; the read comes ten
    minutes later and asks for 30. *)
Lemma backend_fetchAllData_serves_cached_witness :
  Backend.fetchAllData (Demo.backendConfig Demo.registry)
                       (Demo.backendWorld (Demo.noon + 600000))
                       false (Some 30) Demo.warmCache
  = (Js.Return Demo.sevenDayData, Demo.warmCache).
Proof.
  apply (backend_fetchAllData_serves_cached
           Demo.host (Demo.backendConfig Demo.registry)
           (Demo.backendWorld (Demo.noon + 600000)) (Some 30)
           Demo.warmCache Demo.sevenDayData Demo.noon).
  - reflexivity.
  - reflexivity.
  - vm_compute. reflexivity.
Defined.

(** C7.  When a refresh is attempted (the read is forced, or the cache is
    empty, or its entry is as old as the TTL or older) and the aggregation
    raises a hard failure, [fetchAllData] returns the previous entry if there
    is one and rethrows the failure only if there is none; the cache is left
    as it was in both cases. *)
Theorem backend_fetchAllData_falls_back :
  forall (H : Host) (CONFIG : Backend.Config) (w : Backend.World) (forceRefresh : bool)
         (daysArg : option Z) (cache : Backend.Cache) (error : Js.Error),
    forceRefresh = true \/ Backend.data cache = None \/
      Backend.cacheTimeout CONFIG <= Backend.cacheAge w cache ->
    Backend.refresh CONFIG w (Backend.daysOrDefault CONFIG daysArg) = Js.Throw error ->
    Backend.fetchAllData CONFIG w forceRefresh daysArg cache
    = (match Backend.data cache with
       | Some previous => Js.Return previous
       | None => Js.Throw error
       end, cache).
Proof.
  intros H CONFIG w forceRefresh daysArg cache error A F.
  unfold Backend.fetchAllData. rewrite F.
  destruct forceRefresh; cbn [negb].
  - now destruct (Backend.data cache).
  - destruct (Backend.data cache) as [previous|] eqn:D; [|reflexivity].
    destruct A as [A | [A | A]]; try discriminate A.
    apply Z.ltb_ge in A. now rewrite A.
Qed.

(** A registry with a [null] entry makes the aggregation of the backend
    throw; the forced refresh then answers with the entry cached at noon. *)
Lemma backend_fetchAllData_falls_back_witness :
  Backend.fetchAllData (Demo.backendConfig [None]) (Demo.backendWorld (Demo.noon + 600000))
                       true None Demo.warmCache
  = (Js.Return Demo.sevenDayData, Demo.warmCache).
Proof.
  apply (backend_fetchAllData_falls_back
           Demo.host (Demo.backendConfig [None]) (Demo.backendWorld (Demo.noon + 600000))
           true None Demo.warmCache
           (Js.mkError "Cannot destructure property 'url' of 'sourceConfig' as it is null.")).
  - left. reflexivity.
  - reflexivity.
Defined.

(** With no previous entry the same failure reaches the caller. *)
Example backend_fetchAllData_rethrows :
  Backend.fetchAllData (Demo.backendConfig [None]) (Demo.backendWorld Demo.noon)
                       false None Backend.NEWS_CACHE
  = (Js.Throw (Js.mkError "Cannot destructure property 'url' of 'sourceConfig' as it is null."),
     Backend.NEWS_CACHE).
Proof. reflexivity. Qed.

(** C8, as the spec states it, fails on an accepted status other than 200:
    a response 204 passes [validateStatus] and the extractor raises. *)
Lemma fetchContent_raises_on_accepted_204 :
  Server.validateStatus 204 = true /\
  Server.fetchContent (H := Demo.host) (Some (Demo.spec "A"))
                      (Axios.HttpResponse (H := Demo.host) 204 "No Content" Demo.pageA)
    = Js.Throw (Js.mkError "抓取失败 (HTTP status: 204)").
Proof. split; reflexivity. Qed.

(** C8, amended.  A response is parsed for items exactly when its status is
    200 (and its item selector is well formed); every other outcome makes
    the extractor raise one error for the source: a network-level failure,
    a status of 400 or above, and an accepted status other than 200 alike. *)
Theorem fetchContent_parses_only_status_200 :
  forall (H : Host) (c : SourceConfig.t),
    (forall o : Axios.Outcome,
        (exists items, Server.fetchContent (Some c) o = Js.Return items) <->
        (exists statusText page elements,
            o = Axios.HttpResponse 200 statusText page /\
            cheerio_select page (SourceConfig.itemSelector c) = Js.Return elements)) /\
    (forall message,
        Server.fetchContent (Some c) (Axios.NetworkError message)
        = Js.Throw (Js.mkError ("抓取失败 (" +++ message +++ ")"))) /\
    (forall status statusText page,
        Server.fetchContent (Some c) (Axios.HttpResponse status statusText page)
        = if status =? 200 then
            match cheerio_select page (SourceConfig.itemSelector c) with
            | Js.Return elements => Js.Return (fold_left (Shared.each c) elements [])
            | Js.Throw error =>
                Js.Throw (Js.mkError ("抓取失败 (" +++ Server.errorMessage error +++ ")"))
            end
          else if status <? 400 then
            Js.Throw (Js.mkError ("抓取失败 (" +++ ("HTTP status: " +++ Js.toString status) +++ ")"))
          else
            Js.Throw (Js.mkError ("抓取失败 (" +++ ("HTTP status: " +++ Js.toString status
                                                   +++ " - " +++ statusText) +++ ")"))).
Proof.
  intros H c.
  assert (R : forall status statusText page,
             Server.fetchContent (Some c) (Axios.HttpResponse status statusText page)
             = if status =? 200 then
                 match cheerio_select page (SourceConfig.itemSelector c) with
                 | Js.Return elements => Js.Return (fold_left (Shared.each c) elements [])
                 | Js.Throw error =>
                     Js.Throw (Js.mkError ("抓取失败 (" +++ Server.errorMessage error +++ ")"))
                 end
               else if status <? 400 then
                 Js.Throw (Js.mkError ("抓取失败 (" +++ ("HTTP status: " +++ Js.toString status) +++ ")"))
               else
                 Js.Throw (Js.mkError ("抓取失败 (" +++ ("HTTP status: " +++ Js.toString status
                                                   +++ " - " +++ statusText) +++ ")"))).
  { intros status statusText page.
    unfold Server.fetchContent, Axios.get, Server.validateStatus.
    destruct (status =? 200) eqn:E200.
    - apply Z.eqb_eq in E200. subst status.
      cbn [Z.ltb Z.compare Pos.compare Pos.compare_cont Js.bind Js.tryCatch
           Axios.status Axios.data Z.eqb Pos.eqb].
      now destruct (cheerio_select page (SourceConfig.itemSelector c)).
    - destruct (status <? 400).
      + cbn [Js.bind Axios.status]. rewrite E200. reflexivity.
      + reflexivity. }
  split; [|split].
  - intros o. split.
    + intros (items & E). destruct o as [m|status statusText page].
      * discriminate E.
      * rewrite R in E. destruct (status =? 200) eqn:E200.
        -- apply Z.eqb_eq in E200. subst status.
           destruct (cheerio_select page (SourceConfig.itemSelector c)) as [els|err] eqn:S;
             [|discriminate E].
           now exists statusText, page, els.
        -- destruct (status <? 400); discriminate E.
    + intros (statusText & page & els & -> & S).
      rewrite R. cbn [Z.eqb Pos.eqb]. rewrite S. now eexists.
  - reflexivity.
  - exact R.
Qed.

(** C9.  The handler of [GET /api/news] does not answer 400 to [days=abc]
    nor to [days=0], neither of them an integer in [1, 90]: [parseInt]
    gives [NaN] or [0], [|| CONFIG.days] puts the default 3 in its place,
    and the checks that follow see 3; [days=91] is refused. *)
Theorem getNews_serves_invalid_days :
  statusCode (fst (Backend.getNews (Demo.backendConfig Demo.registry)
                                   (Demo.backendWorld Demo.noon)
                                   {| Backend.category := None;
                                      Backend.daysParam := Some "abc" |}
                                   Backend.NEWS_CACHE)) = 200 /\
  statusCode (fst (Backend.getNews (Demo.backendConfig Demo.registry)
                                   (Demo.backendWorld Demo.noon)
                                   {| Backend.category := None;
                                      Backend.daysParam := Some "0" |}
                                   Backend.NEWS_CACHE)) = 200 /\
  fst (Backend.getNews (Demo.backendConfig Demo.registry)
                       (Demo.backendWorld Demo.noon)
                       {| Backend.category := None; Backend.daysParam := Some "91" |}
                       Backend.NEWS_CACHE) = Backend.badRequest.
Proof. repeat split. Qed.

(** C10.  Over a registry of specs the aggregator of src/server.js always
    returns: the mapper turns the rejection of a source into an error entry
    and an empty item list, so every promise handed to [Promise.all] is
    fulfilled, the [try] block completes, and the rethrowing [catch] is
    never entered. *)
Theorem fetchAllData_total :
  forall (H : Host) (CONFIG : Server.Config) (w : Server.World) (daysArg : option Z),
    Server.validRegistry (Server.sources CONFIG) ->
    (forall i c errors error,
        Server.fetchContent (Some c) (Server.http w i) = Js.Throw error ->
        Server.mapper w i (Some c) errors
        = (Js.Return [],
           errors ++ [{| SourceError.source := SourceConfig.title c;
                         SourceError.error := Js.message error;
                         SourceError.timestamp := Dayjs.toISOString (Server.settledAt w i) |}])) /\
    (exists results,
        Js.Promise_all (Server.promises w (Server.sources CONFIG)) = Js.Return results) /\
    (exists data,
        Server.aggregate CONFIG w (Server.daysOrDefault CONFIG daysArg) = Js.Return data /\
        Server.fetchAllData CONFIG w daysArg = Js.Return data).
Proof.
  intros H CONFIG w daysArg V. split; [|split].
  - intros i c errors error F. unfold Server.mapper. now rewrite F.
  - eexists. apply (promises_all w _ V).
  - pose proof (fetchAllData_eq CONFIG w daysArg V) as E. cbv zeta in E.
    eexists. split; [|exact E].
    unfold Server.fetchAllData in E.
    destruct (Server.aggregate CONFIG w (Server.daysOrDefault CONFIG daysArg));
      [exact E | discriminate E].
Qed.

Lemma fetchAllData_total_witness :
  (forall i c errors error,
      Server.fetchContent (Some c) (Server.http Demo.world i) = Js.Throw error ->
      Server.mapper Demo.world i (Some c) errors
      = (Js.Return [],
         errors ++ [{| SourceError.source := SourceConfig.title c;
                       SourceError.error := Js.message error;
                       SourceError.timestamp :=
                         Dayjs.toISOString (Server.settledAt Demo.world i) |}])) /\
  (exists results,
      Js.Promise_all (Server.promises Demo.world Demo.registry) = Js.Return results) /\
  (exists data,
      Server.aggregate Demo.config Demo.world 3 = Js.Return data /\
      Server.fetchAllData Demo.config Demo.world None = Js.Return data).
Proof.
  apply (fetchAllData_total Demo.host Demo.config Demo.world None). reflexivity.
Defined.

(** A [null] entry is not a source spec: there the mapper's own [catch]
    throws on [source.title] and the run is rejected. *)
Example fetchAllData_null_entry_rejects :
  Server.fetchAllData Demo.nullConfig Demo.world None
  = Js.Throw (Js.mkError "Cannot read properties of null (reading 'title')").
Proof. reflexivity. Qed.

(** * Further properties of the code *)

(** ** src/server.js: extraction and aggregation *)
Section MoreAggregator.
Context {H : Host}.

Lemma eachBody_source (c : SourceConfig.t) (element : Element) (item : NewsItem.t) :
  Shared.eachBody c element = Js.Return (Some item) ->
  NewsItem.source item = SourceConfig.title c.
Proof.
  unfold Shared.eachBody.
  destruct (cheerio_find element (SourceConfig.dateSelector c)) as [dateElement|];
    [|discriminate].
  cbn [Js.bind]. destruct (List.length dateElement =? 0)%nat; [discriminate|].
  destruct (negb _); [discriminate|].
  destruct (cheerio_find element (SourceConfig.titleSelector c)) as [titleElement|];
    [|discriminate].
  cbn [Js.bind].
  destruct (cheerio_find element (SourceConfig.hrefSelector c)) as [hrefElement|];
    [|discriminate].
  cbn [Js.bind]. destruct (_ || _); [discriminate|].
  destruct (URL_href _ _) as [href|]; [|discriminate].
  cbn [Js.bind]. intros E.
  apply (f_equal (fun r => match r with
                           | Js.Return (Some built) => NewsItem.source built
                           | _ => ""
                           end)) in E.
  cbn [NewsItem.source] in E. now symmetry.
Qed.

Lemma fold_each_flat_map (c : SourceConfig.t) (elements : list Element) :
  fold_left (Shared.each c) elements [] = flat_map (Shared.each c []) elements.
Proof.
  induction elements as [|e l IH]; [reflexivity|].
  change (e :: l) with ([e] ++ l). rewrite fold_each_app, IH. reflexivity.
Qed.

Lemma fold_each_source (c : SourceConfig.t) (elements : list Element) :
  Forall (fun item => NewsItem.source item = SourceConfig.title c)
         (fold_left (Shared.each c) elements []).
Proof.
  rewrite fold_each_flat_map. apply Forall_flat_map, Forall_forall.
  intros e _. unfold Shared.each.
  destruct (Shared.eachBody c e) as [[item|]|err] eqn:E; try constructor.
  - exact (eachBody_source c e item E).
  - constructor.
Qed.

Lemma server_fetchContent_source (c : SourceConfig.t) (o : Axios.Outcome)
  (items : list NewsItem.t) :
  Server.fetchContent (Some c) o = Js.Return items ->
  Forall (fun item => NewsItem.source item = SourceConfig.title c) items.
Proof.
  unfold Server.fetchContent.
  destruct (Axios.get Server.validateStatus o) as [response|]; [|discriminate].
  cbn [Js.bind Js.tryCatch]. destruct (Axios.status response =? 200); [|discriminate].
  destruct (cheerio_select _ _) as [elements|]; [|discriminate].
  cbn [Js.bind]. intros E. injection E as <-. apply fold_each_source.
Qed.

Lemma in_extracted (w : Server.World) (srcs : list SourceEntry) (item : NewsItem.t) :
  In item (Server.extracted w srcs) ->
  exists i source, nth_error srcs i = Some source /\
                   In item (Server.contribution w i source).
Proof.
  unfold Server.extracted, Js.mapi. intros I.
  apply in_concat in I as (l & L & I).
  assert (G : forall k, In l (Js.mapi_from k (Server.contribution w) srcs) ->
              exists i source, nth_error srcs i = Some source /\
                               l = Server.contribution w (k + i) source).
  { clear. induction srcs as [|s srcs IH]; intros k L; [destruct L|].
    destruct L as [<-|L].
    - exists 0%nat, s. rewrite Nat.add_0_r. now split.
    - apply IH in L as (i & source & N & ->).
      exists (S i), source. rewrite Nat.add_succ_r. now split. }
  apply G in L as (i & source & N & ->). now exists i, source.
Qed.

End MoreAggregator.

(** X1.  Every item of an aggregate result carries, as its [source], the
    title of a spec of the registry: the category filter of the API and the
    error report use the same keys. *)
Theorem server_items_carry_registry_titles :
  forall (H : Host) (CONFIG : Server.Config) (w : Server.World) (daysArg : option Z),
    Server.validRegistry (Server.sources CONFIG) ->
    exists data,
      Server.fetchAllData CONFIG w daysArg = Js.Return data /\
      Forall (fun item => exists c, In (Some c) (Server.sources CONFIG) /\
                                    NewsItem.source item = SourceConfig.title c)
             (Server.allItems data).
Proof.
  intros H CONFIG w daysArg V.
  eexists. split; [apply (fetchAllData_eq CONFIG w daysArg V)|].
  cbn [Server.allItems]. apply Forall_forall. intros item I.
  apply filter_In in I as [I _].
  apply (Permutation_in _ (sort_Permutation _ _)) in I.
  apply in_extracted in I as (i & source & N & I).
  unfold Server.contribution in I.
  destruct source as [c|]; [|destruct I].
  destruct (Server.fetchContent (Some c) (Server.http w i)) as [items|] eqn:E;
    [|destruct I].
  exists c. split; [exact (nth_error_In _ _ N)|].
  pose proof (server_fetchContent_source c _ items E) as S.
  rewrite Forall_forall in S. now apply S.
Qed.

Lemma server_items_carry_registry_titles_witness :
  exists data,
    Server.fetchAllData Demo.config Demo.world (Some 40) = Js.Return data /\
    Forall (fun item => exists c, In (Some c) Demo.registry /\
                                  NewsItem.source item = SourceConfig.title c)
           (Server.allItems data).
Proof.
  apply (server_items_carry_registry_titles Demo.host Demo.config Demo.world (Some 40)).
  reflexivity.
Defined.

(** X2.  A well-formed element yields exactly one item, at its place in
    document order: when the element has a date sub-element whose trimmed
    text dayjs takes, a title and a link sub-element, and a link that
    resolves, [fetchContent] returns the items of the elements before it,
    then the item made of the source's title, the [title] attribute (or,
    when it is missing or empty, the trimmed text) of the title element, the
    resolved link and the date written as [YYYY-MM-DD], then the items of
    the elements after it. *)
Theorem server_fetchContent_extracts_wellformed_element :
  forall (H : Host) (c : SourceConfig.t) (statusText : string) (page : Html)
         (before after : list Element) (element : Element)
         (dateElement titleElement hrefElement : list Element) (ms : Z) (href : string),
    cheerio_select page (SourceConfig.itemSelector c)
      = Js.Return (before ++ element :: after) ->
    cheerio_find element (SourceConfig.dateSelector c) = Js.Return dateElement ->
    dateElement <> [] ->
    dayjs_parse (String_trim (cheerio_text dateElement)) dateFormats true = Some ms ->
    cheerio_find element (SourceConfig.titleSelector c) = Js.Return titleElement ->
    titleElement <> [] ->
    cheerio_find element (SourceConfig.hrefSelector c) = Js.Return hrefElement ->
    hrefElement <> [] ->
    URL_href (cheerio_attr hrefElement "href") (SourceConfig.url c) = Js.Return href ->
    Server.fetchContent (Some c) (Axios.HttpResponse 200 statusText page)
    = Js.Return
        (fold_left (Shared.each c) before []
         ++ {| NewsItem.source := SourceConfig.title c;
               NewsItem.title :=
                 match cheerio_attr titleElement "title" with
                 | Some s => if (s =? "")%string
                             then String_trim (cheerio_text titleElement) else s
                 | None => String_trim (cheerio_text titleElement)
                 end;
               NewsItem.url := href;
               NewsItem.date := Dayjs.format_date utcOffset (Some ms) |}
         :: fold_left (Shared.each c) after []).
Proof.
  intros H c statusText page before after element dateElement titleElement hrefElement
         ms href S D Dn P T Tn L Ln U.
  rewrite (fetchContent_200 c statusText page _ S).
  change (element :: after) with ([element] ++ after).
  rewrite !fold_each_app. do 2 f_equal.
  cbn [fold_left]. unfold Shared.each, Shared.eachBody.
  rewrite D. cbn [Js.bind].
  destruct dateElement as [|d0 dateElement]; [contradiction|]. cbn [List.length Nat.eqb].
  rewrite P. cbn [Dayjs.isValid negb]. rewrite T, L. cbn [Js.bind].
  destruct titleElement as [|t0 titleElement]; [contradiction|].
  destruct hrefElement as [|h0 hrefElement]; [contradiction|].
  cbn [List.length Nat.eqb orb]. rewrite U. cbn [Js.bind app].
  unfold Js.truthy.
  now destruct (cheerio_attr (t0 :: titleElement) "title") as [s|];
    [destruct (s =? "")%string|].
Qed.

Lemma server_fetchContent_extracts_wellformed_element_witness :
  Server.fetchContent (H := Demo.host) (Some (Demo.spec "C"))
                      (Axios.HttpResponse (H := Demo.host) 200 "OK" Demo.pageC)
  = Js.Return
      (fold_left (Shared.each (H := Demo.host) (Demo.spec "C"))
                 [Demo.entry "2024-05-03" "/c/1" "" "c one"] []
       ++ {| NewsItem.source := "C";
             NewsItem.title := "c old";
             NewsItem.url := "https://C.example/c/2";
             NewsItem.date := "2024-04-01" |}
       :: fold_left (Shared.each (H := Demo.host) (Demo.spec "C"))
                    [Demo.entry "2024-05-04" "/c/3" "" "c three"] []).
Proof.
  apply (server_fetchContent_extracts_wellformed_element
           Demo.host (Demo.spec "C") "OK" Demo.pageC
           [Demo.entry "2024-05-03" "/c/1" "" "c one"]
           [Demo.entry "2024-05-04" "/c/3" "" "c three"]
           (Demo.entry "2024-04-01" "/c/2" "" "c old")
           [Demo.Elem "span" [] [Demo.Text "2024-04-01"]]
           [Demo.Elem "a" [("href", "/c/2"); ("title", "")] [Demo.Text "c old"]]
           [Demo.Elem "a" [("href", "/c/2"); ("title", "")] [Demo.Text "c old"]]
           (Dayjs.localMidnight Demo.offset (Dayjs.days_from_civil 2024 4 1))
           "https://C.example/c/2").
  - reflexivity.
  - reflexivity.
  - discriminate.
  - reflexivity.
  - reflexivity.
  - discriminate.
  - reflexivity.
  - discriminate.
  - reflexivity.
Defined.

Section MoreAggregator2.
Context {H : Host}.

Lemma validRegistry_nth (srcs : list SourceEntry) (i : nat) (source : SourceEntry) :
  Server.validRegistry srcs -> nth_error srcs i = Some source ->
  exists c, source = Some c.
Proof.
  intros V N. unfold Server.validRegistry in V. rewrite forallb_forall in V.
  specialize (V source (nth_error_In _ _ N)).
  destruct source as [c|]; [now exists c|discriminate].
Qed.

(** When every source fails nothing is extracted. *)
Lemma extracted_all_fail (w : Server.World) (srcs : list SourceEntry) :
  (forall i c, nth_error srcs i = Some (Some c) ->
               exists error, Server.fetchContent (Some c) (Server.http w i) = Js.Throw error) ->
  Server.extracted w srcs = [].
Proof.
  intros F. destruct (Server.extracted w srcs) as [|item l] eqn:E; [reflexivity|].
  assert (I : In item (Server.extracted w srcs)) by (rewrite E; now left).
  apply in_extracted in I as (i & source & N & I).
  unfold Server.contribution in I. destruct source as [c|]; [|destruct I].
  destruct (F i c N) as (error & T). rewrite T in I. destruct I.
Qed.

Lemma flat_map_length_eq {A B} (f : A -> list B) (l : list A) :
  (forall x, In x l -> List.length (f x) = 1%nat) ->
  List.length (flat_map f l) = List.length l.
Proof.
  induction l as [|x l IH]; intros F; cbn [flat_map List.length]; [reflexivity|].
  rewrite length_app, (F x (or_introl eq_refl)), IH; [reflexivity|].
  intros y I. apply F. now right.
Qed.

(** When every source of a registry of specs fails, each has its entry. *)
Lemma failures_all_fail (w : Server.World) (srcs : list SourceEntry) :
  Server.validRegistry srcs ->
  (forall i c, nth_error srcs i = Some (Some c) ->
               exists error, Server.fetchContent (Some c) (Server.http w i) = Js.Throw error) ->
  List.length (Server.failures w srcs) = List.length srcs.
Proof.
  intros V F. unfold Server.failures, Js.mapi.
  rewrite flat_map_length_eq; [apply mapi_from_length|].
  intros [i source] I. apply in_mapi_from_pair in I as [_ N].
  rewrite Nat.sub_0_r in N.
  destruct (validRegistry_nth srcs i source V N) as (c & ->).
  destruct (F i c N) as (error & T).
  unfold Server.failureOf. cbn [fst snd]. now rewrite T.
Qed.

(** Each reported entry is the entry of a source that failed. *)
Lemma in_failures (w : Server.World) (srcs : list SourceEntry) (e : SourceError.t) :
  In e (Server.failures w srcs) ->
  exists i c error,
    nth_error srcs i = Some (Some c) /\
    Server.fetchContent (Some c) (Server.http w i) = Js.Throw error /\
    e = Server.sourceError w i c error.
Proof.
  unfold Server.failures, Js.mapi. intros I.
  apply in_flat_map in I as ([i source] & T & I).
  apply in_mapi_from_pair in T as [_ N]. rewrite Nat.sub_0_r in N.
  unfold Server.failureOf in I. cbn [fst snd] in I.
  destruct source as [c|]; [|destruct I].
  destruct (Server.fetchContent (Some c) (Server.http w i)) as [items|error] eqn:E;
    [destruct I|].
  destruct I as [<-|[]]. now exists i, c, error.
Qed.

Lemma inWindow_mono (now d1 d2 : Z) (item : NewsItem.t) :
  d1 <= d2 -> Shared.inWindow now d1 item = true -> Shared.inWindow now d2 item = true.
Proof.
  intros L W. apply inWindow_spec in W as (v & E & W). apply inWindow_spec.
  exists v. split; [exact E|]. unfold Dayjs.msPerDay in *. lia.
Qed.

Lemma filter_filter_implied {A} (p q : A -> bool) (l : list A) :
  (forall x, p x = true -> q x = true) -> filter p (filter q l) = filter p l.
Proof.
  intros I. induction l as [|x l IH]; cbn [filter]; [reflexivity|].
  destruct (q x) eqn:Q; cbn [filter].
  - now rewrite IH.
  - destruct (p x) eqn:P; [|exact IH]. rewrite (I x P) in Q. discriminate Q.
Qed.

(** A [null] entry makes the mapper of that entry reject, and with it
    [Promise.all]. *)
Lemma promises_null_entry (w : Server.World) (srcs : list SourceEntry) (i : nat) :
  forallb Server.isSpec srcs = false ->
  Js.Promise_all (Js.mapi_from i (fun i source => fst (Server.mapper w i source [])) srcs)
  = Js.Throw (Js.mkError "Cannot read properties of null (reading 'title')").
Proof.
  revert i. induction srcs as [|s srcs IH]; intros i V; [discriminate V|].
  cbn [forallb] in V. cbn [Js.mapi_from Js.Promise_all].
  destruct s as [c|].
  - cbn [Server.isSpec andb] in V. rewrite mapper_fulfilled, (IH (S i) V). reflexivity.
  - reflexivity.
Qed.

Lemma fetchAllData_null_entry (CONFIG : Server.Config) (w : Server.World)
  (daysArg : option Z) :
  forallb Server.isSpec (Server.sources CONFIG) = false ->
  Server.fetchAllData CONFIG w daysArg
  = Js.Throw (Js.mkError "Cannot read properties of null (reading 'title')").
Proof.
  intros V. unfold Server.fetchAllData, Server.aggregate, Server.promises, Js.mapi.
  now rewrite (promises_null_entry w _ 0 V).
Qed.

End MoreAggregator2.

(** X3.  A run in which every source of a non-empty registry fails still
    returns a result, and [GET /api/news/refresh] still answers 200: the
    result has no items, [total] 0, one error entry for each source and
    [partialSuccess] false. *)
Theorem server_total_failure_is_reported_not_thrown :
  forall (H : Host) (CONFIG : Server.Config) (w : Server.World) (daysArg : option Z),
    Server.validRegistry (Server.sources CONFIG) ->
    Server.sources CONFIG <> [] ->
    (forall i c,
        nth_error (Server.sources CONFIG) i = Some (Some c) ->
        exists error, Server.fetchContent (Some c) (Server.http w i) = Js.Throw error) ->
    exists data es,
      Server.fetchAllData CONFIG w daysArg = Js.Return data /\
      Server.allItems data = [] /\
      Server.total data = 0%nat /\
      Server.errors data = Some es /\
      List.length es = List.length (Server.sources CONFIG) /\
      Server.partialSuccess data = false /\
      statusCode (Server.getRefresh CONFIG w) = 200.
Proof.
  intros H CONFIG w daysArg V NE F.
  pose proof (fetchAllData_eq CONFIG w daysArg V) as E. cbv zeta in E.
  pose proof (fetchAllData_eq CONFIG w None V) as E0. cbv zeta in E0.
  rewrite (extracted_all_fail w _ F) in E.
  assert (L : List.length (Server.settledErrors w (Server.sources CONFIG))
              = List.length (Server.sources CONFIG)).
  { rewrite settledErrors_length. now apply failures_all_fail. }
  destruct (Server.settledErrors w (Server.sources CONFIG)) as [|e es] eqn:S.
  - destruct (Server.sources CONFIG); [now contradict NE|discriminate L].
  - eexists. exists (e :: es). split; [exact E|].
    cbn [Server.allItems Server.total Server.errors Server.partialSuccess].
    repeat split; try reflexivity; try exact L.
    unfold Server.getRefresh. now rewrite E0.
Qed.

Lemma server_total_failure_is_reported_not_thrown_witness :
  exists data es,
    Server.fetchAllData Demo.config Demo.stormWorld None = Js.Return data /\
    Server.allItems data = [] /\
    Server.total data = 0%nat /\
    Server.errors data = Some es /\
    List.length es = 3%nat /\
    Server.partialSuccess data = false /\
    statusCode (Server.getRefresh Demo.config Demo.stormWorld) = 200.
Proof.
  apply (server_total_failure_is_reported_not_thrown
           Demo.host Demo.config Demo.stormWorld None).
  - reflexivity.
  - discriminate.
  - intros i c _. eexists. reflexivity.
Defined.

(** X4.  The error report blames only sources that failed: every entry of
    [errors] is the entry of a source of the registry whose fetch was
    rejected, with that source's title, the message of the rejection and
    the instant it settled. *)
Theorem server_errors_name_only_failed_sources :
  forall (H : Host) (CONFIG : Server.Config) (w : Server.World) (daysArg : option Z),
    Server.validRegistry (Server.sources CONFIG) ->
    exists data,
      Server.fetchAllData CONFIG w daysArg = Js.Return data /\
      forall es e,
        Server.errors data = Some es -> In e es ->
        exists i c error,
          nth_error (Server.sources CONFIG) i = Some (Some c) /\
          Server.fetchContent (Some c) (Server.http w i) = Js.Throw error /\
          e = {| SourceError.source := SourceConfig.title c;
                 SourceError.error := Js.message error;
                 SourceError.timestamp := Dayjs.toISOString (Server.settledAt w i) |}.
Proof.
  intros H CONFIG w daysArg V.
  eexists. split; [apply (fetchAllData_eq CONFIG w daysArg V)|].
  cbn [Server.errors]. intros es e E I.
  destruct (0 <? _)%nat; [|discriminate E]. injection E as <-.
  apply (Permutation_in _ (settledErrors_failures w _)) in I.
  exact (in_failures w _ e I).
Qed.

Lemma server_errors_name_only_failed_sources_witness :
  exists data,
    Server.fetchAllData Demo.config Demo.world None = Js.Return data /\
    forall es e,
      Server.errors data = Some es -> In e es ->
      exists i c error,
        nth_error Demo.registry i = Some (Some c) /\
        Server.fetchContent (Some c) (Server.http Demo.world i) = Js.Throw error /\
        e = {| SourceError.source := SourceConfig.title c;
               SourceError.error := Js.message error;
               SourceError.timestamp :=
                 Dayjs.toISOString (Server.settledAt Demo.world i) |}.
Proof.
  apply (server_errors_name_only_failed_sources Demo.host Demo.config Demo.world None).
  reflexivity.
Defined.

(** X5.  Widening the window only adds items: for [d1 <= d2], in the same
    world, the result for [d1] holds exactly the items of the result for
    [d2] that lie in the narrower window, in the same order, so its [total]
    is no larger; the error report is the same. *)
Theorem server_window_monotone :
  forall (H : Host) (CONFIG : Server.Config) (w : Server.World) (d1 d2 : Z),
    Server.validRegistry (Server.sources CONFIG) ->
    d1 <= d2 ->
    exists data1 data2,
      Server.fetchAllData CONFIG w (Some d1) = Js.Return data1 /\
      Server.fetchAllData CONFIG w (Some d2) = Js.Return data2 /\
      Server.allItems data1
        = filter (Shared.inWindow (Server.now w) d1) (Server.allItems data2) /\
      (Server.total data1 <= Server.total data2)%nat /\
      Server.errors data1 = Server.errors data2.
Proof.
  intros H CONFIG w d1 d2 V L.
  do 2 eexists.
  split; [apply (fetchAllData_eq CONFIG w (Some d1) V)|].
  split; [apply (fetchAllData_eq CONFIG w (Some d2) V)|].
  cbn [Server.allItems Server.total Server.errors Server.daysOrDefault].
  assert (E : filter (Shared.inWindow (Server.now w) d1)
                (filter (Shared.inWindow (Server.now w) d2)
                   (Js.sort Shared.byDateDesc (Server.extracted w (Server.sources CONFIG))))
              = filter (Shared.inWindow (Server.now w) d1)
                  (Js.sort Shared.byDateDesc (Server.extracted w (Server.sources CONFIG)))).
  { apply filter_filter_implied. intros item. now apply inWindow_mono. }
  split; [now rewrite E|]. split; [|reflexivity].
  rewrite <- E. apply filter_length_le.
Qed.

Lemma server_window_monotone_witness :
  exists data1 data2,
    Server.fetchAllData Demo.config Demo.calmWorld (Some 3) = Js.Return data1 /\
    Server.fetchAllData Demo.config Demo.calmWorld (Some 40) = Js.Return data2 /\
    Server.allItems data1
      = filter (Shared.inWindow (H := Demo.host) Demo.noon 3) (Server.allItems data2) /\
    (Server.total data1 <= Server.total data2)%nat /\
    Server.errors data1 = Server.errors data2.
Proof.
  apply (server_window_monotone Demo.host Demo.config Demo.calmWorld 3 40).
  - reflexivity.
  - lia.
Defined.

(** X6.  [fetchAllData] of src/server.js returns a result exactly when no
    entry of the registry is [null].  With a [null] entry it is rejected
    with the [TypeError] the mapper's own [catch] raises on [source.title],
    whatever the other sources answer, and [GET /api/news/refresh] answers
    500; otherwise that route answers 200. *)
Theorem server_fetchAllData_returns_iff_no_null_entry :
  forall (H : Host) (CONFIG : Server.Config) (w : Server.World) (daysArg : option Z),
    ((exists data, Server.fetchAllData CONFIG w daysArg = Js.Return data) <->
     Server.validRegistry (Server.sources CONFIG)) /\
    (if forallb Server.isSpec (Server.sources CONFIG) then True
     else Server.fetchAllData CONFIG w daysArg
          = Js.Throw (Js.mkError "Cannot read properties of null (reading 'title')")) /\
    statusCode (Server.getRefresh CONFIG w)
    = (if forallb Server.isSpec (Server.sources CONFIG) then 200 else 500).
Proof.
  intros H CONFIG w daysArg. unfold Server.validRegistry.
  destruct (forallb Server.isSpec (Server.sources CONFIG)) eqn:V.
  - pose proof (fetchAllData_eq CONFIG w daysArg V) as E. cbv zeta in E.
    pose proof (fetchAllData_eq CONFIG w None V) as E0. cbv zeta in E0.
    split; [|split].
    + split; [reflexivity|]. intros _. eexists. exact E.
    + exact I.
    + unfold Server.getRefresh. now rewrite E0.
  - split; [|split].
    + split; [|discriminate]. intros (data & E).
      rewrite (fetchAllData_null_entry CONFIG w daysArg V) in E. discriminate E.
    + exact (fetchAllData_null_entry CONFIG w daysArg V).
    + unfold Server.getRefresh.
      now rewrite (fetchAllData_null_entry CONFIG w None V).
Qed.

(** ** Configuration, categories and request headers *)

Lemma prop_not_null (key : string) (value : JSON.t) :
  value <> JSON.JNull -> Shared.prop key value = Js.Return (JSON.get key value).
Proof. intros N. destruct value; try reflexivity. now contradict N. Qed.

Lemma server_validate_spec (config checked : JSON.t) :
  Server.validate config = Js.Return checked ->
  checked = config /\
  JSON.truthy (JSON.get "days" config) = true /\
  JSON.isArray (JSON.get "sources" config) = true.
Proof.
  unfold Server.validate. destruct config; try discriminate; cbn [Shared.prop Js.bind].
  all: destruct (JSON.truthy _) eqn:D; cbn [negb]; try discriminate.
  all: destruct (JSON.isArray _) eqn:S; cbn [negb]; try discriminate.
  all: intros E; injection E as <-; repeat split; assumption.
Qed.

Lemma backend_validate_spec (config checked : JSON.t) :
  Backend.validate config = Js.Return checked ->
  checked = config /\
  JSON.truthy (JSON.get "days" config) = true /\
  JSON.truthy (JSON.get "intervalMinutes" config) = true /\
  JSON.truthy (JSON.get "outputPath" config) = true /\
  JSON.isArray (JSON.get "sources" config) = true.
Proof.
  unfold Backend.validate. destruct config; try discriminate; cbn [Shared.prop Js.bind].
  all: destruct (JSON.truthy (JSON.get "days" _)) eqn:D; cbn [negb]; try discriminate.
  all: destruct (JSON.truthy (JSON.get "intervalMinutes" _)) eqn:I; cbn [negb];
    try discriminate.
  all: destruct (JSON.truthy (JSON.get "outputPath" _)) eqn:O; cbn [negb];
    try discriminate.
  all: destruct (JSON.isArray _) eqn:S; cbn [negb]; try discriminate.
  all: intros E; injection E as <-; repeat split; assumption.
Qed.

Lemma server_loadConfig_sources (file : Js.Completion JSON.t) :
  JSON.isArray (JSON.get "sources" (Server.loadConfig file)) = true.
Proof.
  unfold Server.loadConfig. destruct file as [parsed|error]; cbn [Js.bind]; [|reflexivity].
  destruct (Server.validate parsed) as [checked|error] eqn:V; [|reflexivity].
  now apply server_validate_spec in V as (-> & D & S).
Qed.

Lemma backend_loadConfig_sources (file : Js.Completion JSON.t) :
  JSON.isArray (JSON.get "sources" (Backend.loadConfig file)) = true.
Proof.
  unfold Backend.loadConfig. destruct file as [parsed|error]; cbn [Js.bind]; [|reflexivity].
  destruct (Backend.validate parsed) as [checked|error] eqn:V; [|reflexivity].
  now apply backend_validate_spec in V as (-> & D & I & O & S).
Qed.

(** X7.  [loadConfig] of src/server.js never fails and never returns a
    configuration without its required fields: whatever reading and parsing
    the file gives, the configuration returned is either the one the file
    holds or the default [{ days: 3, sources: [] }], and in both cases its
    [days] is truthy and its [sources] is an array. *)
Theorem server_loadConfig_validated :
  forall (file : Js.Completion JSON.t),
    let config := Server.loadConfig file in
    (file = Js.Return config \/ config = Server.defaultConfig) /\
    JSON.truthy (JSON.get "days" config) = true /\
    JSON.isArray (JSON.get "sources" config) = true.
Proof.
  intros file config. subst config. unfold Server.loadConfig.
  destruct file as [parsed|error]; cbn [Js.bind].
  - destruct (Server.validate parsed) as [checked|error] eqn:V.
    + apply server_validate_spec in V as (-> & D & S). split; [now left|now split].
    + split; [now right|split; reflexivity].
  - split; [now right|split; reflexivity].
Qed.

(** X8.  [loadConfig] of src/backend/server.js likewise returns the file's
    configuration or its default, and the configuration returned always has
    a truthy [days], [intervalMinutes] and [outputPath] and an array as
    [sources]. *)
Theorem backend_loadConfig_validated :
  forall (file : Js.Completion JSON.t),
    let config := Backend.loadConfig file in
    (file = Js.Return config \/ config = Backend.defaultConfig) /\
    JSON.truthy (JSON.get "days" config) = true /\
    JSON.truthy (JSON.get "intervalMinutes" config) = true /\
    JSON.truthy (JSON.get "outputPath" config) = true /\
    JSON.isArray (JSON.get "sources" config) = true.
Proof.
  intros file config. subst config. unfold Backend.loadConfig.
  destruct file as [parsed|error]; cbn [Js.bind].
  - destruct (Backend.validate parsed) as [checked|error] eqn:V.
    + apply backend_validate_spec in V as (-> & D & I & O & S).
      split; [now left|now repeat split].
    + split; [now right|repeat split; reflexivity].
  - split; [now right|repeat split; reflexivity].
Qed.

Lemma mapM_titleOf (l : list JSON.t) :
  ~ In JSON.JNull l ->
  Js.mapM Shared.titleOf l
  = Js.Return (map (fun source => match JSON.get "title" source with
                                  | Some v => v
                                  | None => JSON.JNull
                                  end) l).
Proof.
  induction l as [|x l IH]; intros N; [reflexivity|].
  cbn [Js.mapM map]. unfold Shared.titleOf at 1.
  rewrite prop_not_null by (intros ->; apply N; now left).
  cbn [Js.bind]. rewrite IH; [reflexivity|].
  intros I. apply N. now right.
Qed.

Lemma json_null_dec (x : JSON.t) : x = JSON.JNull \/ x <> JSON.JNull.
Proof. destruct x; (now left) || (right; discriminate). Qed.

Lemma mapM_titleOf_null (l : list JSON.t) :
  In JSON.JNull l ->
  Js.mapM Shared.titleOf l
  = Js.Throw (Js.mkError "Cannot read properties of null (reading 'title')").
Proof.
  induction l as [|x l IH]; intros I; [destruct I|].
  cbn [Js.mapM].
  destruct (json_null_dec x) as [->|N].
  - reflexivity.
  - unfold Shared.titleOf at 1. rewrite (prop_not_null _ _ N). cbn [Js.bind].
    destruct I as [->|I]; [now contradict N|]. now rewrite (IH I).
Qed.

Lemma categoriesReply_spec (config : JSON.t) (l : list JSON.t) :
  JSON.get "sources" config = Some (JSON.JArray l) ->
  Shared.categoriesReply config
  = if existsb (fun source => match source with
                              | JSON.JNull => true
                              | _ => false
                              end) l
    then Shared.serverError
           (Js.mkError "Cannot read properties of null (reading 'title')")
    else {| statusCode := 200;
            body := JSON.JArray (map (fun source => match JSON.get "title" source with
                                                    | Some v => v
                                                    | None => JSON.JNull
                                                    end) l) |}.
Proof.
  intros S. unfold Shared.categoriesReply.
  rewrite prop_not_null by (intros ->; discriminate S).
  cbn [Js.bind]. rewrite S.
  destruct (existsb _ l) eqn:N.
  - apply existsb_exists in N as (x & I & X).
    destruct x; try discriminate X. now rewrite (mapM_titleOf_null l I).
  - rewrite mapM_titleOf; [reflexivity|].
    intros I. assert (T : existsb (fun source => match source with
                                                 | JSON.JNull => true
                                                 | _ => false
                                                 end) l = true)
      by (apply existsb_exists; now exists JSON.JNull).
    rewrite T in N. discriminate N.
Qed.

(** X9.  [GET /api/news/categories], in both servers, reads the
    configuration anew and answers 200 with one entry for each element of
    its [sources], in order: the element's [title], or [null] where it has
    none.  It answers 500 only when an element is [null]; a file that
    cannot be read or parsed gives 200 with the empty list. *)
Theorem getCategories_lists_titles :
  forall (file : Js.Completion JSON.t),
    let reply (l : list JSON.t) :=
      if existsb (fun source => match source with
                                | JSON.JNull => true
                                | _ => false
                                end) l
      then Shared.serverError
             (Js.mkError "Cannot read properties of null (reading 'title')")
      else {| statusCode := 200;
              body := JSON.JArray (map (fun source => match JSON.get "title" source with
                                                      | Some v => v
                                                      | None => JSON.JNull
                                                      end) l) |} in
    (exists l, JSON.get "sources" (Server.loadConfig file) = Some (JSON.JArray l) /\
               Server.getCategories file = reply l) /\
    (exists l, JSON.get "sources" (Backend.loadConfig file) = Some (JSON.JArray l) /\
               Backend.getCategories file = reply l) /\
    match file with
    | Js.Return _ => True
    | Js.Throw _ =>
        Server.getCategories file = {| statusCode := 200; body := JSON.JArray [] |} /\
        Backend.getCategories file = {| statusCode := 200; body := JSON.JArray [] |}
    end.
Proof.
  intros file reply. subst reply. split; [|split].
  - pose proof (server_loadConfig_sources file) as A.
    destruct (JSON.get "sources" (Server.loadConfig file)) as [[| | | |l|]|] eqn:S;
      try discriminate A.
    exists l. split; [reflexivity|]. now apply categoriesReply_spec.
  - pose proof (backend_loadConfig_sources file) as A.
    destruct (JSON.get "sources" (Backend.loadConfig file)) as [[| | | |l|]|] eqn:S;
      try discriminate A.
    exists l. split; [reflexivity|]. now apply categoriesReply_spec.
  - destruct file; [exact I|]. split; reflexivity.
Qed.

(** Objects as lists of properties. *)
Lemma dictGet_dictSet (o : Js.Dict) (k v k' : string) :
  Js.dictGet k' (Js.dictSet o k v)
  = if (k =? k')%string then Some v else Js.dictGet k' o.
Proof.
  unfold Js.dictGet. induction o as [|[a b] o IH]; cbn [Js.dictSet List.find fst snd].
  - destruct (k =? k')%string; reflexivity.
  - destruct (a =? k)%string eqn:A; cbn [List.find fst snd option_map].
    + apply String.eqb_eq in A. subst a.
      destruct (k =? k')%string; reflexivity.
    + destruct (a =? k')%string eqn:A'; cbn [option_map snd].
      * apply String.eqb_eq in A'. subst a.
        rewrite String.eqb_sym, A. reflexivity.
      * exact IH.
Qed.

Lemma dictSet_keys (o : Js.Dict) (k v : string) :
  NoDup (map fst o) -> NoDup (map fst (Js.dictSet o k v)) /\
  (forall x, In x (map fst (Js.dictSet o k v)) <-> x = k \/ In x (map fst o)).
Proof.
  induction o as [|[a b] o IH]; intros N; cbn [Js.dictSet map fst].
  - split; [repeat constructor; intros []|]. intros x. cbn. intuition congruence.
  - inversion N as [|? ? NI N']; subst.
    cbn [fst]. destruct (a =? k)%string eqn:A.
    + apply String.eqb_eq in A. subst a. cbn [map fst].
      split; [exact N|]. intros x. cbn. intuition congruence.
    + destruct (IH N') as [IH1 IH2]. cbn [map fst]. split.
      * constructor; [|exact IH1]. rewrite IH2. intros [->|I]; [|contradiction].
        now rewrite String.eqb_refl in A.
      * intros x. cbn [In]. rewrite IH2. intuition congruence.
Qed.

Lemma dictGet_spread (a b : Js.Dict) (k : string) :
  NoDup (map fst b) ->
  Js.dictGet k (Js.spread a b)
  = match Js.dictGet k b with
    | Some v => Some v
    | None => Js.dictGet k a
    end.
Proof.
  unfold Js.spread. revert a. induction b as [|[x y] b IH]; intros a N; cbn [fold_left].
  - reflexivity.
  - inversion N as [|? ? NI N']; subst. rewrite (IH _ N'), dictGet_dictSet.
    cbn [fst snd]. unfold Js.dictGet at 2 3. cbn [List.find fst].
    destruct (x =? k)%string eqn:X.
    + apply String.eqb_eq in X. subst x. cbn [option_map snd].
      destruct (Js.dictGet k b) as [v|] eqn:G; [|reflexivity].
      exfalso. apply NI. unfold Js.dictGet in G.
      destruct (List.find _ b) as [[k' v']|] eqn:F; [|discriminate G].
      apply find_some in F as [F E]. cbn [fst] in E. apply String.eqb_eq in E. subst k'.
      change k with (fst (k, v')). now apply in_map.
    + reflexivity.
Qed.

Lemma spread_keys (a b : Js.Dict) :
  NoDup (map fst a) -> NoDup (map fst (Js.spread a b)).
Proof.
  unfold Js.spread. revert a. induction b as [|[x y] b IH]; intros a N; cbn [fold_left].
  - exact N.
  - apply IH. now apply dictSet_keys.
Qed.

(** X10.  The headers of a request are the default headers overridden by
    the source's own: a header the source sets has the source's value, any
    other has the default's, so [User-Agent] is always sent; no header
    appears twice; and a source without [HEADERS] sends the defaults. *)
Theorem server_requestHeaders_override_defaults :
  forall (HEADERS : Js.Dict) (name : string),
    NoDup (map fst HEADERS) ->
    Js.dictGet name (Server.requestHeaders (Some HEADERS))
    = match Js.dictGet name HEADERS with
      | Some v => Some v
      | None => Js.dictGet name Server.DEFAULT_HEADERS
      end /\
    Js.dictGet "User-Agent" (Server.requestHeaders (Some HEADERS)) <> None /\
    NoDup (map fst (Server.requestHeaders (Some HEADERS))) /\
    Server.requestHeaders None = Server.DEFAULT_HEADERS.
Proof.
  intros HEADERS name N. unfold Server.requestHeaders.
  split; [|split; [|split]].
  - now apply dictGet_spread.
  - rewrite (dictGet_spread _ _ _ N).
    destruct (Js.dictGet "User-Agent" HEADERS); discriminate.
  - apply spread_keys. repeat constructor. intros [].
  - reflexivity.
Qed.

Lemma server_requestHeaders_override_defaults_witness :
  Js.dictGet "User-Agent"
             (Server.requestHeaders (Some [("Cookie", "a=b"); ("User-Agent", "bot")]))
  = match Js.dictGet "User-Agent" [("Cookie", "a=b"); ("User-Agent", "bot")] with
    | Some v => Some v
    | None => Js.dictGet "User-Agent" Server.DEFAULT_HEADERS
    end /\
  Js.dictGet "User-Agent"
             (Server.requestHeaders (Some [("Cookie", "a=b"); ("User-Agent", "bot")]))
  <> None /\
  NoDup (map fst (Server.requestHeaders (Some [("Cookie", "a=b"); ("User-Agent", "bot")]))) /\
  Server.requestHeaders None = Server.DEFAULT_HEADERS.
Proof.
  apply (server_requestHeaders_override_defaults
           [("Cookie", "a=b"); ("User-Agent", "bot")] "User-Agent").
  repeat constructor; cbn; intuition discriminate.
Defined.

(** ** src/backend/server.js: extraction, refresh and cache *)
Section MoreBackend.
Context {H : Host}.

Lemma backend_fetchContent_spec (c : SourceConfig.t) (o : Axios.Outcome) :
  Backend.fetchContent (Some c) o = Js.Return (Shared.parsedItems c o).
Proof.
  unfold Backend.fetchContent, Shared.parsedItems, Axios.get, Axios.defaultValidateStatus.
  destruct o as [m|status statusText page]; [reflexivity|].
  destruct (status =? 200) eqn:E200.
  - apply Z.eqb_eq in E200. subst status.
    cbn [Z.leb Z.ltb Z.compare Pos.compare Pos.compare_cont andb Js.bind Js.tryCatch
         Axios.status Axios.data Z.eqb Pos.eqb].
    now destruct (cheerio_select page (SourceConfig.itemSelector c)).
  - destruct ((200 <=? status) && (status <? 300)); cbn [Js.bind Js.tryCatch Axios.status].
    + now rewrite E200.
    + reflexivity.
Qed.

Lemma server_contribution_spec (w : Server.World) (i : nat) (c : SourceConfig.t) :
  Server.contribution w i (Some c) = Shared.parsedItems c (Server.http w i).
Proof.
  unfold Server.contribution, Shared.parsedItems, Server.fetchContent, Axios.get,
    Server.validateStatus.
  destruct (Server.http w i) as [m|status statusText page]; [reflexivity|].
  destruct (status =? 200) eqn:E200.
  - apply Z.eqb_eq in E200. subst status.
    cbn [Z.ltb Z.compare Pos.compare Pos.compare_cont Js.bind Js.tryCatch
         Axios.status Axios.data Z.eqb Pos.eqb].
    now destruct (cheerio_select page (SourceConfig.itemSelector c)).
  - destruct (status <? 400); cbn [Js.bind Js.tryCatch Axios.status].
    + now rewrite E200.
    + reflexivity.
Qed.

Lemma backend_contribution_spec (w : Backend.World) (i : nat) (c : SourceConfig.t) :
  Backend.contribution w i (Some c) = Shared.parsedItems c (Backend.http w i).
Proof. unfold Backend.contribution. now rewrite backend_fetchContent_spec. Qed.

Lemma backend_promises_fulfilled (w : Backend.World) (srcs : list SourceEntry) (i : nat) :
  Server.validRegistry srcs ->
  Js.mapi_from i (fun i source => Backend.fetchContent source (Backend.http w i)) srcs
  = map Js.Return (Js.mapi_from i (Backend.contribution w) srcs).
Proof.
  revert i; induction srcs as [|s srcs IH]; intros i V; [reflexivity|].
  unfold Server.validRegistry in V. cbn [forallb] in V.
  apply andb_true_iff in V as [Vs V].
  destruct s as [c|]; [|discriminate].
  cbn [Js.mapi_from map]. rewrite (IH (S i) V). f_equal.
  unfold Backend.contribution. now rewrite backend_fetchContent_spec.
Qed.

(** Over a registry of specs the aggregation of the backend returns. *)
Lemma backend_refresh_eq (CONFIG : Backend.Config) (w : Backend.World) (days : Z) :
  Server.validRegistry (Backend.sources CONFIG) ->
  let filteredItems :=
    filter (Shared.inWindow (Backend.now w) days)
           (Js.sort Shared.byDateDesc (Backend.extracted w (Backend.sources CONFIG))) in
  Backend.refresh CONFIG w days
  = Js.Return {| Backend.updateTime :=
                   Dayjs.format_datetime utcOffset (Some (Backend.now w));
                 Backend.total := List.length filteredItems;
                 Backend.allItems := filteredItems |}.
Proof.
  intros V. unfold Backend.refresh, Js.mapi.
  rewrite (Promise_all_fulfilled _ _ (backend_promises_fulfilled w _ 0 V)).
  reflexivity.
Qed.

(** Whatever the aggregation returns counts its own items. *)
Lemma backend_refresh_counts (CONFIG : Backend.Config) (w : Backend.World) (days : Z)
  (fresh : Backend.NewsData) :
  Backend.refresh CONFIG w days = Js.Return fresh ->
  Backend.total fresh = List.length (Backend.allItems fresh).
Proof.
  unfold Backend.refresh. destruct (Js.Promise_all _) as [results|]; [|discriminate].
  cbn [Js.bind]. intros E.
  apply (f_equal (fun r => match r with
                           | Js.Return d =>
                               (Backend.total d =? List.length (Backend.allItems d))%nat
                           | Js.Throw _ => true
                           end)) in E.
  cbn [Backend.total Backend.allItems] in E. rewrite Nat.eqb_refl in E.
  symmetry in E. now apply Nat.eqb_eq in E.
Qed.

(** A refresh that is attempted and returns replaces the cache. *)
Lemma backend_refresh_path (CONFIG : Backend.Config) (w : Backend.World)
  (forceRefresh : bool) (daysArg : option Z) (cache : Backend.Cache)
  (fresh : Backend.NewsData) :
  forceRefresh = true \/ Backend.data cache = None \/
    Backend.cacheTimeout CONFIG <= Backend.cacheAge w cache ->
  Backend.refresh CONFIG w (Backend.daysOrDefault CONFIG daysArg) = Js.Return fresh ->
  Backend.fetchAllData CONFIG w forceRefresh daysArg cache
  = (Js.Return fresh,
     {| Backend.data := Some fresh; Backend.lastUpdate := Some (Backend.Date_now w) |}).
Proof.
  intros A F. unfold Backend.fetchAllData. rewrite F.
  destruct forceRefresh; cbn [negb]; [reflexivity|].
  destruct (Backend.data cache) as [previous|] eqn:D; [|reflexivity].
  destruct A as [A | [A | A]]; try discriminate A.
  apply Z.ltb_ge in A. now rewrite A.
Qed.

(** A read within the TTL of the entry is served from the cache. *)
Lemma backend_cache_hit (CONFIG : Backend.Config) (w : Backend.World) (daysArg : option Z)
  (cached : Backend.NewsData) (timestamp : Z) :
  Backend.Date_now w - timestamp < Backend.intervalMinutes CONFIG * 60 * 1000 ->
  let cache := {| Backend.data := Some cached; Backend.lastUpdate := Some timestamp |} in
  Backend.fetchAllData CONFIG w false daysArg cache = (Js.Return cached, cache).
Proof.
  intros L cache. subst cache.
  unfold Backend.fetchAllData, Backend.cacheAge, Backend.cacheTimeout.
  cbn [Backend.data Backend.lastUpdate negb].
  apply Z.ltb_lt in L. now rewrite L.
Qed.

Lemma in_backend_extracted (w : Backend.World) (srcs : list SourceEntry)
  (item : NewsItem.t) :
  In item (Backend.extracted w srcs) ->
  exists i source, nth_error srcs i = Some source /\
                   In item (Backend.contribution w i source).
Proof.
  unfold Backend.extracted, Js.mapi. intros I.
  apply in_concat in I as (l & L & I).
  assert (G : forall k, In l (Js.mapi_from k (Backend.contribution w) srcs) ->
              exists i source, nth_error srcs i = Some source /\
                               l = Backend.contribution w (k + i) source).
  { clear. induction srcs as [|s srcs IH]; intros k L; [destruct L|].
    destruct L as [<-|L].
    - exists 0%nat, s. rewrite Nat.add_0_r. now split.
    - apply IH in L as (i & source & N & ->).
      exists (S i), source. rewrite Nat.add_succ_r. now split. }
  apply G in L as (i & source & N & ->). now exists i, source.
Qed.

(** With no response of status 200 nothing is extracted. *)
Lemma backend_extracted_outage (w : Backend.World) (srcs : list SourceEntry) :
  (forall i statusText page, Backend.http w i <> Axios.HttpResponse 200 statusText page) ->
  Backend.extracted w srcs = [].
Proof.
  intros O. destruct (Backend.extracted w srcs) as [|item l] eqn:E; [reflexivity|].
  exfalso.
  assert (I : In item (Backend.extracted w srcs)) by (rewrite E; now left).
  apply in_backend_extracted in I as (i & source & N & I).
  destruct source as [c|]; [|destruct I].
  rewrite backend_contribution_spec in I. unfold Shared.parsedItems in I.
  specialize (O i).
  destruct (Backend.http w i) as [m|status statusText page]; [destruct I|].
  destruct (status =? 200) eqn:E200; [|destruct I].
  apply Z.eqb_eq in E200. subst status. exact (O statusText page eq_refl).
Qed.

(** The two servers extract the same items from the same answers. *)
Lemma extracted_agree (ws : Server.World) (wb : Backend.World) (srcs : list SourceEntry) :
  Server.validRegistry srcs ->
  (forall i, Server.http ws i = Backend.http wb i) ->
  Server.extracted ws srcs = Backend.extracted wb srcs.
Proof.
  intros V A. unfold Server.extracted, Backend.extracted, Js.mapi. f_equal.
  generalize 0%nat. induction srcs as [|s srcs IH]; intros i; [reflexivity|].
  unfold Server.validRegistry in V. cbn [forallb] in V.
  apply andb_true_iff in V as [Vs V].
  destruct s as [c|]; [|discriminate].
  cbn [Js.mapi_from]. rewrite (IH V (S i)). f_equal.
  now rewrite server_contribution_spec, backend_contribution_spec, A.
Qed.

End MoreBackend.

(** X11.  [fetchContent] of src/backend/server.js never rejects for a source
    spec: every failure is swallowed.  It returns the items parsed from a
    response of status 200 and the empty list in every other case (no
    response, any other status, a selector cheerio refuses), so its caller
    cannot tell a failed source from an empty one. *)
Theorem backend_fetchContent_never_rejects :
  forall (H : Host) (c : SourceConfig.t) (o : Axios.Outcome),
    exists items,
      Backend.fetchContent (Some c) o = Js.Return items /\
      match o with
      | Axios.NetworkError _ => items = []
      | Axios.HttpResponse status _ page =>
          if status =? 200 then
            match cheerio_select page (SourceConfig.itemSelector c) with
            | Js.Return elements => items = fold_left (Shared.each c) elements []
            | Js.Throw _ => items = []
            end
          else items = []
      end.
Proof.
  intros H c o. exists (Shared.parsedItems c o).
  split; [apply backend_fetchContent_spec|].
  unfold Shared.parsedItems. destruct o as [m|status statusText page]; [reflexivity|].
  destruct (status =? 200); [|reflexivity].
  now destruct (cheerio_select page (SourceConfig.itemSelector c)).
Qed.

(** X12.  Over a registry of specs a refresh of the backend that is
    attempted (forced, or with an empty or expired cache) always succeeds
    and replaces the cache with its result and the instant of the call: the
    fallback to the previous entry is never taken for failing sources.  In
    particular, when no source answers with status 200 the entry stored has
    no items, whatever the cache held. *)
Theorem backend_refresh_replaces_cache :
  forall (H : Host) (CONFIG : Backend.Config) (w : Backend.World) (forceRefresh : bool)
         (daysArg : option Z) (cache : Backend.Cache),
    Server.validRegistry (Backend.sources CONFIG) ->
    forceRefresh = true \/ Backend.data cache = None \/
      Backend.cacheTimeout CONFIG <= Backend.cacheAge w cache ->
    exists fresh,
      Backend.fetchAllData CONFIG w forceRefresh daysArg cache
      = (Js.Return fresh,
         {| Backend.data := Some fresh;
            Backend.lastUpdate := Some (Backend.Date_now w) |}) /\
      Backend.allItems fresh
      = filter (Shared.inWindow (Backend.now w) (Backend.daysOrDefault CONFIG daysArg))
               (Js.sort Shared.byDateDesc
                        (Backend.extracted w (Backend.sources CONFIG))) /\
      ((forall i statusText page,
           Backend.http w i <> Axios.HttpResponse 200 statusText page) ->
       Backend.allItems fresh = [] /\ Backend.total fresh = 0%nat).
Proof.
  intros H CONFIG w forceRefresh daysArg cache V A.
  pose proof (backend_refresh_eq CONFIG w (Backend.daysOrDefault CONFIG daysArg) V) as E.
  cbv zeta in E.
  eexists. split; [exact (backend_refresh_path CONFIG w forceRefresh daysArg cache _ A E)|].
  cbn [Backend.allItems Backend.total]. split; [reflexivity|].
  intros O. rewrite (backend_extracted_outage w _ O). split; reflexivity.
Qed.

(** The sources have gone silent: the forced refresh empties a cache that
    held five items. *)
Lemma backend_refresh_replaces_cache_witness :
  exists fresh,
    Backend.fetchAllData (Demo.backendConfig Demo.registry)
                         (Demo.backendOutage (Demo.noon + 600000))
                         true None Demo.warmCache
    = (Js.Return fresh,
       {| Backend.data := Some fresh;
          Backend.lastUpdate := Some (Demo.noon + 600000) |}) /\
    Backend.allItems fresh
    = filter (Shared.inWindow (H := Demo.host) (Demo.noon + 600000) 3)
             (Js.sort (Shared.byDateDesc (H := Demo.host))
                      (Backend.extracted (Demo.backendOutage (Demo.noon + 600000))
                                         Demo.registry)) /\
    ((forall i statusText page,
         Backend.http (Demo.backendOutage (Demo.noon + 600000)) i
         <> Axios.HttpResponse 200 statusText page) ->
     Backend.allItems fresh = [] /\ Backend.total fresh = 0%nat).
Proof.
  apply (backend_refresh_replaces_cache
           Demo.host (Demo.backendConfig Demo.registry)
           (Demo.backendOutage (Demo.noon + 600000)) true None Demo.warmCache).
  - reflexivity.
  - left. reflexivity.
Defined.

(** X13.  What a refresh stores, a later read returns: after a forced
    refresh over a registry of specs, a read that is not forced and comes
    less than the TTL after it returns the same result and leaves the same
    cache, whatever [days] it asks for and whatever the sources would now
    answer. *)
Theorem backend_refresh_then_read :
  forall (H : Host) (CONFIG : Backend.Config) (w1 w2 : Backend.World)
         (days1 days2 : option Z) (cache : Backend.Cache),
    Server.validRegistry (Backend.sources CONFIG) ->
    Backend.Date_now w2 - Backend.Date_now w1 < Backend.intervalMinutes CONFIG * 60 * 1000 ->
    Backend.fetchAllData CONFIG w2 false days2
      (snd (Backend.fetchAllData CONFIG w1 true days1 cache))
    = Backend.fetchAllData CONFIG w1 true days1 cache.
Proof.
  intros H CONFIG w1 w2 days1 days2 cache V L.
  pose proof (backend_refresh_eq CONFIG w1 (Backend.daysOrDefault CONFIG days1) V) as E.
  cbv zeta in E.
  rewrite (backend_refresh_path CONFIG w1 true days1 cache _ (or_introl eq_refl) E).
  cbn [snd]. now apply backend_cache_hit.
Qed.

Lemma backend_refresh_then_read_witness :
  Backend.fetchAllData (Demo.backendConfig Demo.registry)
    (Demo.backendOutage (Demo.noon + 600000)) false (Some 30)
    (snd (Backend.fetchAllData (Demo.backendConfig Demo.registry)
            (Demo.backendWorld Demo.noon) true (Some 7) Backend.NEWS_CACHE))
  = Backend.fetchAllData (Demo.backendConfig Demo.registry)
      (Demo.backendWorld Demo.noon) true (Some 7) Backend.NEWS_CACHE.
Proof.
  apply (backend_refresh_then_read
           Demo.host (Demo.backendConfig Demo.registry)
           (Demo.backendWorld Demo.noon) (Demo.backendOutage (Demo.noon + 600000))
           (Some 7) (Some 30) Backend.NEWS_CACHE).
  - reflexivity.
  - vm_compute. reflexivity.
Defined.

Section CacheInvariant.
Context {H : Host}.

Lemma backend_fetchAllData_consistent (CONFIG : Backend.Config) (w : Backend.World)
  (forceRefresh : bool) (daysArg : option Z) (cache : Backend.Cache) :
  Backend.consistent cache ->
  Backend.consistent (snd (Backend.fetchAllData CONFIG w forceRefresh daysArg cache)) /\
  (forall r, fst (Backend.fetchAllData CONFIG w forceRefresh daysArg cache) = Js.Return r ->
             Backend.total r = List.length (Backend.allItems r)).
Proof.
  intros C. unfold Backend.fetchAllData.
  assert (R : forall fresh,
             Backend.refresh CONFIG w (Backend.daysOrDefault CONFIG daysArg)
             = Js.Return fresh ->
             Backend.total fresh = List.length (Backend.allItems fresh))
    by (intros fresh; apply backend_refresh_counts).
  destruct (Backend.refresh CONFIG w (Backend.daysOrDefault CONFIG daysArg))
    as [fresh|error] eqn:F.
  - specialize (R fresh eq_refl).
    destruct (negb forceRefresh); [destruct (Backend.data cache) as [cached|] eqn:D|].
    + destruct (Backend.cacheAge w cache <? Backend.cacheTimeout CONFIG); cbn [fst snd].
      * split; [exact C|]. intros r E. injection E as <-. now apply C.
      * split; [|intros r E; injection E as <-; exact R].
        intros d E. cbn [Backend.data] in E. injection E as <-. exact R.
    + cbn [fst snd]. split; [|intros r E; injection E as <-; exact R].
      intros d E. cbn [Backend.data] in E. injection E as <-. exact R.
    + cbn [fst snd]. split; [|intros r E; injection E as <-; exact R].
      intros d E. cbn [Backend.data] in E. injection E as <-. exact R.
  - destruct (negb forceRefresh); destruct (Backend.data cache) as [cached|] eqn:D;
      try destruct (Backend.cacheAge w cache <? Backend.cacheTimeout CONFIG);
      cbn [fst snd]; (split; [exact C|]); intros r E; try discriminate E;
      injection E as <-; now apply C.
Qed.

End CacheInvariant.

Section MoreHandler.
Context {H : Host}.

Lemma backend_fetchAllData_returns (CONFIG : Backend.Config) (w : Backend.World)
  (forceRefresh : bool) (daysArg : option Z) (cache : Backend.Cache) :
  Server.validRegistry (Backend.sources CONFIG) ->
  exists r, fst (Backend.fetchAllData CONFIG w forceRefresh daysArg cache) = Js.Return r.
Proof.
  intros V. unfold Backend.fetchAllData.
  pose proof (backend_refresh_eq CONFIG w (Backend.daysOrDefault CONFIG daysArg) V) as E.
  cbv zeta in E. rewrite E.
  destruct (negb forceRefresh); destruct (Backend.data cache) as [cached|];
    try destruct (Backend.cacheAge w cache <? Backend.cacheTimeout CONFIG);
    cbn [fst]; eexists; reflexivity.
Qed.

Lemma parseInt_truthy (param : option string) (n : Z) :
  Js.parseInt param = Some n -> exists days, param = Some days /\ Js.truthy days = true.
Proof.
  destruct param as [days|]; [|discriminate].
  intros P. exists days. split; [reflexivity|].
  destruct days; [discriminate P|reflexivity].
Qed.

Lemma getNews_consistent (CONFIG : Backend.Config) (w : Backend.World)
  (query : Backend.Query) (cache : Backend.Cache) :
  Backend.consistent cache ->
  Backend.consistent (snd (Backend.getNews CONFIG w query cache)).
Proof.
  intros C. unfold Backend.getNews.
  destruct (Backend.rejectsDays CONFIG query); [exact C|].
  pose proof (backend_fetchAllData_consistent CONFIG w false
                (Some (Backend.daysNumOf CONFIG query)) cache C) as [C1 _].
  destruct (Backend.fetchAllData CONFIG w false
              (Some (Backend.daysNumOf CONFIG query)) cache) as [[data0|error] cache1];
    cbn [snd] in C1; [|exact C1].
  destruct (Backend.filtersCategory query); cbn [snd]; [exact C1|].
  intros d E. cbn [Backend.data] in E.
  apply (f_equal (fun o => match o with
                           | Some d => (Backend.total d =? List.length (Backend.allItems d))%nat
                           | None => true
                           end)) in E.
  cbn [Backend.total Backend.allItems] in E. rewrite Nat.eqb_refl in E.
  symmetry in E. now apply Nat.eqb_eq in E.
Qed.

End MoreHandler.

(** X14.  The cache of the backend keeps the invariant that its entry, if
    any, counts its own items ([total] is the length of [allItems]):
    [fetchAllData], the handler of [GET /api/news] (which rewrites [total]
    in the cached object when no category filter applies) and the handler of
    [GET /api/news/refresh] all preserve it, and every result
    [fetchAllData] returns satisfies it. *)
Theorem backend_cache_stays_consistent :
  forall (H : Host) (CONFIG : Backend.Config) (w : Backend.World) (forceRefresh : bool)
         (daysArg : option Z) (query : Backend.Query) (cache : Backend.Cache),
    Backend.consistent cache ->
    Backend.consistent (snd (Backend.fetchAllData CONFIG w forceRefresh daysArg cache)) /\
    (forall r,
        fst (Backend.fetchAllData CONFIG w forceRefresh daysArg cache) = Js.Return r ->
        Backend.total r = List.length (Backend.allItems r)) /\
    Backend.consistent (snd (Backend.getNews CONFIG w query cache)) /\
    Backend.consistent (snd (Backend.getRefresh CONFIG w cache)).
Proof.
  intros H CONFIG w forceRefresh daysArg query cache C.
  destruct (backend_fetchAllData_consistent CONFIG w forceRefresh daysArg cache C)
    as [C1 C2].
  split; [exact C1|]. split; [exact C2|]. split; [now apply getNews_consistent|].
  unfold Backend.getRefresh.
  pose proof (backend_fetchAllData_consistent CONFIG w true None cache C) as [C3 _].
  now destruct (Backend.fetchAllData CONFIG w true None cache) as [[data0|error] cache1].
Qed.

Lemma backend_cache_stays_consistent_witness :
  Backend.consistent
    (snd (Backend.fetchAllData (Demo.backendConfig Demo.registry)
            (Demo.backendWorld Demo.noon) false (Some 7) Backend.NEWS_CACHE)) /\
  (forall r,
      fst (Backend.fetchAllData (Demo.backendConfig Demo.registry)
             (Demo.backendWorld Demo.noon) false (Some 7) Backend.NEWS_CACHE)
      = Js.Return r ->
      Backend.total r = List.length (Backend.allItems r)) /\
  Backend.consistent
    (snd (Backend.getNews (Demo.backendConfig Demo.registry)
            (Demo.backendWorld Demo.noon)
            {| Backend.category := Some "C"; Backend.daysParam := Some "7" |}
            Backend.NEWS_CACHE)) /\
  Backend.consistent
    (snd (Backend.getRefresh (Demo.backendConfig Demo.registry)
            (Demo.backendWorld Demo.noon) Backend.NEWS_CACHE)).
Proof.
  apply (backend_cache_stays_consistent
           Demo.host (Demo.backendConfig Demo.registry) (Demo.backendWorld Demo.noon)
           false (Some 7)
           {| Backend.category := Some "C"; Backend.daysParam := Some "7" |}
           Backend.NEWS_CACHE).
  intros d E. discriminate E.
Defined.

(** X15.  A category filter narrows the reply and not the cache: for a
    category other than ["all"], an accepted request is answered 200 with
    the items of that [source] among those [fetchAllData] returned, in the
    same order, [total] being their number, and the cache is left exactly
    as [fetchAllData] left it, holding the unfiltered result. *)
Theorem getNews_category_filters_reply_only :
  forall (H : Host) (CONFIG : Backend.Config) (w : Backend.World) (query : Backend.Query)
         (cache cache1 : Backend.Cache) (data0 : Backend.NewsData) (c : string),
    Backend.category query = Some c -> c <> "" -> c <> "all" ->
    Backend.rejectsDays CONFIG query = false ->
    Backend.fetchAllData CONFIG w false (Some (Backend.daysNumOf CONFIG query)) cache
      = (Js.Return data0, cache1) ->
    let items := filter (fun item => (NewsItem.source item =? c)%string)
                        (Backend.allItems data0) in
    Backend.getNews CONFIG w query cache
    = ({| statusCode := 200;
          body := Backend.toJSON {| Backend.updateTime := Backend.updateTime data0;
                                    Backend.total := List.length items;
                                    Backend.allItems := items |} |},
       cache1) /\
    Forall (fun item => NewsItem.source item = c) items.
Proof.
  intros H CONFIG w query cache cache1 data0 c Q N1 N2 R F items. subst items.
  unfold Backend.getNews. rewrite R, F.
  unfold Backend.filtersCategory, Js.truthy. rewrite Q.
  apply String.eqb_neq in N1, N2. rewrite N1, N2. cbn [negb andb].
  split; [reflexivity|].
  apply Forall_forall. intros item I. apply filter_In in I as [_ E].
  now apply String.eqb_eq in E.
Qed.

Lemma getNews_category_filters_reply_only_witness :
  let items := filter (fun item => (NewsItem.source item =? "C")%string)
                      (Backend.allItems Demo.sevenDayData) in
  Backend.getNews (Demo.backendConfig Demo.registry) (Demo.backendWorld Demo.noon)
                  {| Backend.category := Some "C"; Backend.daysParam := Some "7" |}
                  Backend.NEWS_CACHE
  = ({| statusCode := 200;
        body := Backend.toJSON
                  {| Backend.updateTime := Backend.updateTime Demo.sevenDayData;
                     Backend.total := List.length items;
                     Backend.allItems := items |} |},
     Demo.warmCache) /\
  Forall (fun item => NewsItem.source item = "C") items.
Proof.
  apply (getNews_category_filters_reply_only
           Demo.host (Demo.backendConfig Demo.registry) (Demo.backendWorld Demo.noon)
           {| Backend.category := Some "C"; Backend.daysParam := Some "7" |}
           Backend.NEWS_CACHE Demo.warmCache Demo.sevenDayData "C").
  - reflexivity.
  - discriminate.
  - discriminate.
  - reflexivity.
  - reflexivity.
Defined.

(** X16.  A [days] parameter that reads as an integer below 0 or above 90
    is refused: the handler answers 400 with its error body, fetches
    nothing and leaves the cache as it was. *)
Theorem getNews_refuses_days_out_of_range :
  forall (H : Host) (CONFIG : Backend.Config) (w : Backend.World) (query : Backend.Query)
         (cache : Backend.Cache) (n : Z),
    Js.parseInt (Backend.daysParam query) = Some n ->
    n < 0 \/ 90 < n ->
    Backend.getNews CONFIG w query cache = (Backend.badRequest, cache).
Proof.
  intros H CONFIG w query cache n P B.
  apply getNews_refused. apply rejectsDays_spec.
  destruct (parseInt_truthy _ n P) as (days & E & T).
  exists days. split; [exact E|]. split.
  - intros ->. discriminate T.
  - assert (D : Backend.daysNumOf CONFIG query = n).
    { unfold Backend.daysNumOf. rewrite P. destruct n; try reflexivity. lia. }
    rewrite D. lia.
Qed.

Lemma getNews_refuses_days_out_of_range_witness :
  Backend.getNews (Demo.backendConfig Demo.registry) (Demo.backendWorld Demo.noon)
                  {| Backend.category := None; Backend.daysParam := Some "-5" |}
                  Demo.warmCache
  = (Backend.badRequest, Demo.warmCache).
Proof.
  apply (getNews_refuses_days_out_of_range
           Demo.host (Demo.backendConfig Demo.registry) (Demo.backendWorld Demo.noon)
           {| Backend.category := None; Backend.daysParam := Some "-5" |}
           Demo.warmCache (-5)).
  - reflexivity.
  - lia.
Defined.

(** The blanks [parseInt] skips include those of several bytes: a [days]
    of U+00A0 followed by [91] reads as 91 and is refused. *)
Example getNews_refuses_days_after_no_break_space :
  Js.parseInt (Some (String "194" (String "160" "91"))) = Some 91 /\
  Js.parseInt (Some (String "239" (String "187" (String "191" " -7x")))) = Some (-7) /\
  Backend.getNews (Demo.backendConfig Demo.registry) (Demo.backendWorld Demo.noon)
                  {| Backend.category := None;
                     Backend.daysParam := Some (String "194" (String "160" "91")) |}
                  Demo.warmCache
  = (Backend.badRequest, Demo.warmCache).
Proof. repeat split. Qed.

(** X17.  A [days] parameter that reads as an integer of [1, 90] is
    honoured: the handler does not refuse it and serves what
    [fetchAllData(false, n)] returns for that very [n], filtered by
    category if one is given, with [total] recomputed. *)
Theorem getNews_honours_days_in_range :
  forall (H : Host) (CONFIG : Backend.Config) (w : Backend.World) (query : Backend.Query)
         (cache cache1 : Backend.Cache) (data0 : Backend.NewsData) (n : Z),
    Js.parseInt (Backend.daysParam query) = Some n ->
    1 <= n <= 90 ->
    Backend.fetchAllData CONFIG w false (Some n) cache = (Js.Return data0, cache1) ->
    let items :=
      match Backend.filtersCategory query with
      | Some c => filter (fun item => (NewsItem.source item =? c)%string)
                         (Backend.allItems data0)
      | None => Backend.allItems data0
      end in
    fst (Backend.getNews CONFIG w query cache)
    = {| statusCode := 200;
         body := Backend.toJSON {| Backend.updateTime := Backend.updateTime data0;
                                   Backend.total := List.length items;
                                   Backend.allItems := items |} |}.
Proof.
  intros H CONFIG w query cache cache1 data0 n P B F.
  destruct (daysNumOf_in_range CONFIG query n P B) as [D R].
  apply (getNews_served CONFIG w query cache cache1 data0 R). now rewrite D.
Qed.

Lemma getNews_honours_days_in_range_witness :
  let items := Backend.allItems Demo.sevenDayData in
  fst (Backend.getNews (Demo.backendConfig Demo.registry) (Demo.backendWorld Demo.noon)
                       {| Backend.category := None; Backend.daysParam := Some "7" |}
                       Backend.NEWS_CACHE)
  = {| statusCode := 200;
       body := Backend.toJSON
                 {| Backend.updateTime := Backend.updateTime Demo.sevenDayData;
                    Backend.total := List.length items;
                    Backend.allItems := items |} |}.
Proof.
  apply (getNews_honours_days_in_range
           Demo.host (Demo.backendConfig Demo.registry) (Demo.backendWorld Demo.noon)
           {| Backend.category := None; Backend.daysParam := Some "7" |}
           Backend.NEWS_CACHE Demo.warmCache Demo.sevenDayData 7).
  - reflexivity.
  - lia.
  - reflexivity.
Defined.

(** X18.  Over a registry of specs the backend never answers 500 on its
    news routes: [GET /api/news] answers 200 or 400, and
    [GET /api/news/refresh] answers 200, whatever the sources do. *)
Theorem backend_news_routes_never_500 :
  forall (H : Host) (CONFIG : Backend.Config) (w : Backend.World) (query : Backend.Query)
         (cache : Backend.Cache),
    Server.validRegistry (Backend.sources CONFIG) ->
    (statusCode (fst (Backend.getNews CONFIG w query cache)) = 200 \/
     statusCode (fst (Backend.getNews CONFIG w query cache)) = 400) /\
    statusCode (fst (Backend.getRefresh CONFIG w cache)) = 200.
Proof.
  intros H CONFIG w query cache V. split.
  - unfold Backend.getNews.
    destruct (Backend.rejectsDays CONFIG query); [now right|].
    destruct (backend_fetchAllData_returns CONFIG w false
                (Some (Backend.daysNumOf CONFIG query)) cache V) as (r & E).
    destruct (Backend.fetchAllData CONFIG w false
                (Some (Backend.daysNumOf CONFIG query)) cache) as [[data0|error] cache1];
      [|discriminate E].
    left. now destruct (Backend.filtersCategory query).
  - unfold Backend.getRefresh.
    destruct (backend_fetchAllData_returns CONFIG w true None cache V) as (r & E).
    now destruct (Backend.fetchAllData CONFIG w true None cache)
      as [[data0|error] cache1].
Qed.

Lemma backend_news_routes_never_500_witness :
  (statusCode (fst (Backend.getNews (Demo.backendConfig Demo.registry)
                      (Demo.backendOutage Demo.noon)
                      {| Backend.category := None; Backend.daysParam := None |}
                      Backend.NEWS_CACHE)) = 200 \/
   statusCode (fst (Backend.getNews (Demo.backendConfig Demo.registry)
                      (Demo.backendOutage Demo.noon)
                      {| Backend.category := None; Backend.daysParam := None |}
                      Backend.NEWS_CACHE)) = 400) /\
  statusCode (fst (Backend.getRefresh (Demo.backendConfig Demo.registry)
                     (Demo.backendOutage Demo.noon) Backend.NEWS_CACHE)) = 200.
Proof.
  apply (backend_news_routes_never_500
           Demo.host (Demo.backendConfig Demo.registry) (Demo.backendOutage Demo.noon)
           {| Backend.category := None; Backend.daysParam := None |} Backend.NEWS_CACHE).
  reflexivity.
Defined.

(** X19.  The two servers agree on the news: over the same registry of
    specs, with the same answers from the sources and the same clock, a
    forced refresh of the backend returns the [allItems], [total] and
    [updateTime] that [fetchAllData] of [src/server.js] returns. *)
Theorem backend_and_server_return_same_items :
  forall (H : Host) (server : Server.Config) (backend : Backend.Config)
         (ws : Server.World) (wb : Backend.World) (days : Z) (cache : Backend.Cache),
    Server.sources server = Backend.sources backend ->
    Server.validRegistry (Server.sources server) ->
    (forall i, Server.http ws i = Backend.http wb i) ->
    Server.now ws = Backend.now wb ->
    exists data fresh,
      Server.fetchAllData server ws (Some days) = Js.Return data /\
      fst (Backend.fetchAllData backend wb true (Some days) cache) = Js.Return fresh /\
      Backend.allItems fresh = Server.allItems data /\
      Backend.total fresh = Server.total data /\
      Backend.updateTime fresh = Server.updateTime data.
Proof.
  intros H server backend ws wb days cache S V A N.
  pose proof (fetchAllData_eq server ws (Some days) V) as Es. cbv zeta in Es.
  assert (Vb : Server.validRegistry (Backend.sources backend)) by now rewrite <- S.
  pose proof (backend_refresh_eq backend wb days Vb) as Eb. cbv zeta in Eb.
  eexists. eexists. split; [exact Es|]. split.
  - rewrite (backend_refresh_path backend wb true (Some days) cache _
               (or_introl eq_refl) Eb).
    reflexivity.
  - cbn [Backend.allItems Backend.total Backend.updateTime
         Server.allItems Server.total Server.updateTime Server.daysOrDefault].
    rewrite <- S, <- N, <- (extracted_agree ws wb _ V A). now repeat split.
Qed.

Lemma backend_and_server_return_same_items_witness :
  exists data fresh,
    Server.fetchAllData Demo.config Demo.calmWorld (Some 7) = Js.Return data /\
    fst (Backend.fetchAllData (Demo.backendConfig Demo.registry)
           (Demo.backendWorld Demo.noon) true (Some 7) Backend.NEWS_CACHE)
    = Js.Return fresh /\
    Backend.allItems fresh = Server.allItems data /\
    Backend.total fresh = Server.total data /\
    Backend.updateTime fresh = Server.updateTime data.
Proof.
  apply (backend_and_server_return_same_items
           Demo.host Demo.config (Demo.backendConfig Demo.registry)
           Demo.calmWorld (Demo.backendWorld Demo.noon) 7 Backend.NEWS_CACHE).
  - reflexivity.
  - reflexivity.
  - intros [|i]; reflexivity.
  - reflexivity.
Defined.

(** ** The client *)

Section Escaping.

Lemma append_assoc3 (a b c : string) : (a +++ b) +++ c = a +++ (b +++ c).
Proof. induction a as [|x a IH]; cbn; [reflexivity|now rewrite IH]. Qed.

Lemma replaceAll_app (c : ascii) (replacement a b : string) :
  Js.replaceAll c replacement (a +++ b)
  = Js.replaceAll c replacement a +++ Js.replaceAll c replacement b.
Proof.
  induction a as [|x a IH]; cbn [String.append Js.replaceAll]; [reflexivity|].
  rewrite IH. destruct (x =? c)%char; [|reflexivity].
  now rewrite append_assoc3.
Qed.

Lemma escapeHtml_app (a b : string) :
  Client.escapeHtml (a +++ b) = Client.escapeHtml a +++ Client.escapeHtml b.
Proof. unfold Client.escapeHtml. now rewrite !replaceAll_app. Qed.

Lemma escapeHtml_one (x : ascii) :
  Client.escapeHtml (String x EmptyString) = Client.entity x.
Proof.
  unfold Client.escapeHtml, Client.entity. cbn [Js.replaceAll].
  destruct (Ascii.eqb_spec x "&") as [->|N1]; [reflexivity|].
  cbn [Js.replaceAll].
  destruct (Ascii.eqb_spec x "<") as [->|N2]; [reflexivity|].
  cbn [Js.replaceAll].
  destruct (Ascii.eqb_spec x ">") as [->|N3]; [reflexivity|].
  cbn [Js.replaceAll].
  destruct (Ascii.eqb_spec x "034") as [->|N4]; [reflexivity|].
  cbn [Js.replaceAll].
  destruct (Ascii.eqb_spec x "'") as [->|N5]; reflexivity.
Qed.

Lemma escapeHtml_cons (x : ascii) (r : string) :
  Client.escapeHtml (String x r) = Client.entity x +++ Client.escapeHtml r.
Proof.
  change (String x r) with (String x EmptyString +++ r).
  now rewrite escapeHtml_app, escapeHtml_one.
Qed.

Lemma list_ascii_of_string_app (a b : string) :
  list_ascii_of_string (a +++ b) = list_ascii_of_string a ++ list_ascii_of_string b.
Proof. induction a as [|x a IH]; cbn; [reflexivity|now rewrite IH]. Qed.

End Escaping.

(** X20.  [escapeHtml] is one substitution of each character by its
    entity: the five passes do not re-escape what an earlier pass wrote
    (the ampersand goes first), so the output of a text is the
    concatenation of the entities of its characters, and the output of a
    concatenation is the concatenation of the outputs. *)
Theorem escapeHtml_is_one_pass :
  forall (a b : string),
    Client.escapeHtml a
    = fold_right (fun c out => Client.entity c +++ out) "" (list_ascii_of_string a) /\
    Client.escapeHtml (a +++ b) = Client.escapeHtml a +++ Client.escapeHtml b.
Proof.
  intros a b. split; [|apply escapeHtml_app].
  induction a as [|x a IH]; [reflexivity|].
  rewrite escapeHtml_cons, IH. reflexivity.
Qed.

(** X21.  The output of [escapeHtml] holds none of the characters [<],
    [>], the double quote and the single quote, whatever the input. *)
Theorem escapeHtml_leaves_no_markup :
  forall (unsafe : string),
    Forall (fun c : ascii => c <> "<"%char /\ c <> ">"%char /\
                             c <> "034"%char /\ c <> "'"%char)
           (list_ascii_of_string (Client.escapeHtml unsafe)).
Proof.
  induction unsafe as [|x r IH]; [constructor|].
  rewrite escapeHtml_cons, list_ascii_of_string_app.
  apply Forall_app. split; [|exact IH].
  unfold Client.entity.
  destruct (Ascii.eqb_spec x "&") as [->|X1];
    [|destruct (Ascii.eqb_spec x "<") as [->|X2];
      [|destruct (Ascii.eqb_spec x ">") as [->|X3];
        [|destruct (Ascii.eqb_spec x "034") as [->|X4];
          [|destruct (Ascii.eqb_spec x "'") as [->|X5]]]]];
  cbn [list_ascii_of_string];
  repeat (constructor; [repeat split; try discriminate; assumption|]);
  constructor.
Qed.

Section Paging.

Lemma firstn_min_length {A} (n : nat) (l : list A) :
  firstn (Nat.min n (List.length l)) l = firstn n l.
Proof.
  destruct (Nat.le_ge_cases n (List.length l)) as [L|L].
  - now rewrite Nat.min_l.
  - rewrite Nat.min_r by exact L. now rewrite firstn_all, firstn_all2.
Qed.

Lemma firstn_add {A} (a b : nat) (l : list A) :
  firstn (a + b) l = firstn a l ++ firstn b (skipn a l).
Proof.
  revert l. induction a as [|a IH]; intros l; [reflexivity|].
  destruct l as [|x l]; cbn [Nat.add firstn skipn app].
  - now destruct b.
  - now rewrite IH.
Qed.

(** The page numbered [k + 1] holds the ten items after the first [10 k]. *)
Lemma pageOf_nat (k : nat) (news : list NewsItem.t) :
  Client.pageOf (Z.of_nat k + 1) news = firstn 10 (skipn (10 * k) news).
Proof.
  unfold Client.pageOf, Js.slice, Client.itemsPerPage. cbv zeta.
  replace ((Z.of_nat k + 1 - 1) * 10) with (Z.of_nat (10 * k)) by lia.
  destruct (Z.ltb_spec (Z.of_nat (10 * k)) 0) as [L|_]; [lia|].
  destruct (Z.ltb_spec (Z.of_nat (10 * k) + 10) 0) as [L|_]; [lia|].
  destruct (Nat.le_gt_cases (List.length news) (10 * k)) as [L|L].
  - rewrite !Z.min_r by lia. rewrite Z.sub_diag, (skipn_all2 news L).
    reflexivity.
  - rewrite (Z.min_l (Z.of_nat (10 * k))) by lia. rewrite Nat2Z.id.
    rewrite <- (firstn_min_length 10), length_skipn. f_equal. lia.
Qed.

Lemma pagesFor_bounds (n : nat) :
  (n <= 10 * Z.to_nat (Client.pagesFor n) < n + 10)%nat /\ 0 <= Client.pagesFor n.
Proof.
  unfold Client.pagesFor, Client.itemsPerPage.
  assert (0 <= (Z.of_nat n + 10 - 1) / 10) by (apply Z.div_pos; lia).
  split; [|assumption].
  assert (Z.of_nat n <= 10 * ((Z.of_nat n + 10 - 1) / 10) < Z.of_nat n + 10)
    by (Z.div_mod_to_equations; lia).
  lia.
Qed.

Lemma pages_concat (m : nat) (news : list NewsItem.t) :
  List.concat (map (fun k => Client.pageOf (Z.of_nat k + 1) news) (seq 0 m))
  = firstn (10 * m) news.
Proof.
  induction m as [|m IH]; [reflexivity|].
  rewrite seq_S, map_app, concat_app, IH. cbn [map List.concat Nat.add].
  rewrite app_nil_r, pageOf_nat.
  replace (10 * S m)%nat with (10 * m + 10)%nat by lia.
  now rewrite firstn_add.
Qed.

Lemma pageOf_length (page : Z) (news : list NewsItem.t) :
  1 <= page ->
  Z.of_nat (List.length (Client.pageOf page news))
  = Z.max 0 (Z.min 10 (Z.of_nat (List.length news) - 10 * (page - 1))).
Proof.
  intros P. replace page with (Z.of_nat (Z.to_nat (page - 1)) + 1) at 1 by lia.
  rewrite pageOf_nat, length_firstn, length_skipn. lia.
Qed.

Lemma pageOf_nonempty (page : Z) (news : list NewsItem.t) :
  1 <= page <= Client.pagesFor (List.length news) ->
  Client.pageOf page news <> [].
Proof.
  intros P E. apply (f_equal (fun l => Z.of_nat (List.length l))) in E.
  rewrite pageOf_length in E by lia. cbn [List.length Z.of_nat] in E.
  unfold Client.pagesFor, Client.itemsPerPage in P.
  revert P E. generalize (Z.of_nat (List.length news)). intros n P E.
  assert (10 * ((n + 10 - 1) / 10) < n + 10) by (Z.div_mod_to_equations; lia).
  lia.
Qed.

End Paging.

Section Pager.

Lemma pagesFor_pos (n : nat) : (0 < n)%nat -> 1 <= Client.pagesFor n.
Proof.
  intros L. unfold Client.pagesFor, Client.itemsPerPage.
  Z.div_mod_to_equations. lia.
Qed.

Lemma showFiltered_paged (filteredNews : list NewsItem.t) (p : Client.Pager) :
  1 <= Client.currentPage p -> Client.paged (Client.showFiltered filteredNews p).
Proof.
  intros P. unfold Client.showFiltered.
  destruct (Nat.eqb_spec (List.length filteredNews) 0) as [E|N].
  - unfold Client.paged; cbn. repeat split; lia.
  - assert (1 <= Client.pagesFor (List.length filteredNews)) by (apply pagesFor_pos; lia).
    unfold Client.paged, Client.renderCurrentPage, Client.updatePagination.
    cbn [Client.currentPage Client.totalPages Client.allNews
         Client.prevDisabled Client.nextDisabled].
    destruct (Z.ltb_spec (Client.pagesFor (List.length filteredNews))
                         (Client.currentPage p));
      repeat split; try lia; try (now right).
Qed.

Lemma paged_grounded (p : Client.Pager) : Client.paged p -> Client.grounded p.
Proof.
  intros (B & Pd & _). split; [lia|].
  rewrite Pd. intros D. apply Z.eqb_neq in D. lia.
Qed.

Lemma step_grounded (p : Client.Pager) (e : Client.Event) :
  Client.grounded p -> Client.grounded (Client.step p e).
Proof.
  intros G. pose proof G as [B D].
  destruct e as [| |[filteredNews|]]; cbn [Client.step Client.filterAndDisplayNews].
  - destruct (Client.prevDisabled p) eqn:Pd; [exact G|].
    specialize (D eq_refl).
    unfold Client.grounded, Client.changePage, Client.renderCurrentPage,
      Client.updatePagination.
    cbn [Client.currentPage Client.prevDisabled].
    split; [lia|]. intros N. apply Z.eqb_neq in N. lia.
  - destruct (Client.nextDisabled p); [exact G|].
    unfold Client.grounded, Client.changePage, Client.renderCurrentPage,
      Client.updatePagination.
    cbn [Client.currentPage Client.prevDisabled].
    split; [lia|]. intros N. lia.
  - apply paged_grounded, showFiltered_paged, B.
  - exact G.
Qed.

Lemma step_paged (p : Client.Pager) (e : Client.Event) :
  Client.paged p -> Client.paged (Client.step p e).
Proof.
  intros P. pose proof P as (B & Pd & Nd & T).
  destruct e as [| |[filteredNews|]]; cbn [Client.step Client.filterAndDisplayNews].
  - rewrite Pd. destruct (Z.eqb_spec (Client.currentPage p) 1) as [E|N];
      [exact P|].
    unfold Client.paged, Client.changePage, Client.renderCurrentPage,
      Client.updatePagination.
    cbn [Client.currentPage Client.totalPages Client.allNews
         Client.prevDisabled Client.nextDisabled].
    repeat split; try lia; try (destruct T as [T|T]; [lia|now right]).
  - rewrite Nd.
    destruct (Z.eqb_spec (Client.currentPage p) (Client.totalPages p)) as [E|N];
      [exact P|].
    unfold Client.paged, Client.changePage, Client.renderCurrentPage,
      Client.updatePagination.
    cbn [Client.currentPage Client.totalPages Client.allNews
         Client.prevDisabled Client.nextDisabled].
    repeat split; try lia; try (destruct T as [T|T]; [lia|now right]).
  - apply showFiltered_paged. lia.
  - exact P.
Qed.

Lemma steps_grounded (events : list Client.Event) (p : Client.Pager) :
  Client.grounded p -> Client.grounded (fold_left Client.step events p).
Proof.
  revert p. induction events as [|e events IH]; intros p G; [exact G|].
  cbn [fold_left]. apply IH, step_grounded, G.
Qed.

Lemma steps_paged (events : list Client.Event) (p : Client.Pager) :
  Client.paged p -> Client.paged (fold_left Client.step events p).
Proof.
  revert p. induction events as [|e events IH]; intros p P; [exact P|].
  cbn [fold_left]. apply IH, step_paged, P.
Qed.

(** With the previous button disabled in the markup the pager is grounded
    from the start, and paged once a list has been displayed. *)
Lemma run_grounded (nextPageBtn : bool) (events : list Client.Event) :
  Client.grounded (Client.run true nextPageBtn events).
Proof.
  apply steps_grounded. split; [cbn; lia|]. cbn. discriminate.
Qed.

Lemma run_paged (nextPageBtn : bool) (before after : list Client.Event)
  (news : list NewsItem.t) :
  Client.paged (Client.run true nextPageBtn (before ++ Client.Display (Some news) :: after)).
Proof.
  unfold Client.run. rewrite fold_left_app. cbn [fold_left].
  apply steps_paged. cbn [Client.step Client.filterAndDisplayNews].
  apply showFiltered_paged. exact (proj1 (run_grounded nextPageBtn before)).
Qed.

Lemma paged_page_nonempty (p : Client.Pager) :
  Client.paged p ->
  Client.totalPages p = Client.pagesFor (List.length (Client.allNews p)) ->
  Client.pageItems p <> [] /\ (List.length (Client.pageItems p) <= 10)%nat.
Proof.
  intros (B & _) T. unfold Client.pageItems. split.
  - apply pageOf_nonempty. lia.
  - pose proof (pageOf_length (Client.currentPage p) (Client.allNews p) (proj1 B)). lia.
Qed.

(** Page 0 of a list is empty: [slice(-10, 0)]. *)
Lemma pageOf_zero (news : list NewsItem.t) : Client.pageOf 0 news = [].
Proof.
  unfold Client.pageOf, Js.slice, Client.itemsPerPage. cbv zeta.
  change ((0 - 1) * 10) with (-10). change (-10 + 10) with 0.
  change (-10 <? 0) with true. change (0 <? 0) with false. cbv iota.
  replace (Z.to_nat _) with 0%nat by lia. reflexivity.
Qed.

End Pager.

(** X22.  The pages cover the list: the pages numbered 1 to
    [Math.ceil(length / 10)], as [renderCurrentPage] slices them, put one
    after the other give the list back, every item on one page and in its
    place. *)
Theorem client_pages_partition_list :
  forall (news : list NewsItem.t),
    List.concat
      (map (fun k => Client.pageOf (Z.of_nat k + 1) news)
           (seq 0 (Z.to_nat (Client.pagesFor (List.length news)))))
    = news.
Proof.
  intros news. rewrite pages_concat. apply firstn_all2.
  pose proof (pagesFor_bounds (List.length news)). lia.
Qed.

(** X23.  The page numbered [page], from 1 up, holds
    [min(10, length - 10 (page - 1))] items, or none when that is
    negative: it is not empty up to page [Math.ceil(length / 10)] and
    empty beyond. *)
Theorem client_page_sizes :
  forall (news : list NewsItem.t) (page : Z),
    1 <= page ->
    Z.of_nat (List.length (Client.pageOf page news))
    = Z.max 0 (Z.min 10 (Z.of_nat (List.length news) - 10 * (page - 1))) /\
    (Client.pageOf page news <> [] <-> page <= Client.pagesFor (List.length news)).
Proof.
  intros news page P. split; [now apply pageOf_length|]. split.
  - intros N. destruct (Z.le_gt_cases page (Client.pagesFor (List.length news)))
      as [L|L]; [exact L|].
    exfalso. apply N. apply length_zero_iff_nil.
    pose proof (pageOf_length page news P) as E.
    pose proof (pagesFor_bounds (List.length news)). lia.
  - intros L. apply pageOf_nonempty. lia.
Qed.

Lemma client_page_sizes_witness :
  Z.of_nat (List.length (Client.pageOf 3 (Server.extracted Demo.calmWorld Demo.registry)))
  = Z.max 0 (Z.min 10 (Z.of_nat (List.length
                                   (Server.extracted Demo.calmWorld Demo.registry))
                       - 10 * (3 - 1))) /\
  (Client.pageOf 3 (Server.extracted Demo.calmWorld Demo.registry) <> [] <->
   3 <= Client.pagesFor (List.length (Server.extracted Demo.calmWorld Demo.registry))).
Proof.
  apply (client_page_sizes (Server.extracted Demo.calmWorld Demo.registry) 3). lia.
Defined.




Section Retrying.
Variable net : nat -> Client.Attempt.
Variable retries : nat.

Lemma attempt_ok (a : Client.Attempt) (r : Client.Response) :
  Client.attempt a = Js.Return r -> Client.ok r = true.
Proof.
  destruct a as [error|r']; cbn [Client.attempt]; [discriminate|].
  destruct (Client.ok r') eqn:O; cbn [negb]; [|discriminate].
  intros E. injection E as <-. exact O.
Qed.

Lemma waitTime_bounds (i : nat) : 1000 <= Client.waitTime i <= 5000.
Proof.
  unfold Client.waitTime.
  pose proof (Z.pow_pos_nonneg 2 (Z.of_nat i) ltac:(lia) ltac:(lia)). lia.
Qed.

Lemma turns_success (k : nat) :
  forall (i left : nat) (lastError : option Js.Error) (waits : list Z)
         (r : Client.Response),
    (i + left = retries)%nat -> (k < left)%nat ->
    (forall j, (i <= j < i + k)%nat -> exists error,
          Client.attempt (net j) = Js.Throw error) ->
    Client.attempt (net (i + k)) = Js.Return r ->
    Client.turns net retries i left lastError waits
    = (Client.Got r, waits ++ map Client.waitTime (seq i k)).
Proof.
  induction k as [|k IH]; intros i left lastError waits r E L F R;
    (destruct left as [|left]; [lia|]); cbn [Client.turns].
  - rewrite Nat.add_0_r in R. rewrite R. cbn [seq map]. now rewrite app_nil_r.
  - destruct (F i ltac:(lia)) as (error & T). rewrite T.
    destruct (Nat.ltb_spec (S i) retries) as [_|G]; [|lia].
    rewrite (IH (S i) left (Some error) (waits ++ [Client.waitTime i]) r);
      try lia.
    + cbn [seq map]. now rewrite <- app_assoc.
    + intros j J. apply F. lia.
    + now replace (S i + k)%nat with (i + S k)%nat by lia.
Qed.

Lemma turns_all_fail (left : nat) :
  forall (i : nat) (lastError : option Js.Error) (waits : list Z) (error : Js.Error),
    (i + left = retries)%nat -> (0 < left)%nat ->
    (forall j, (i <= j < retries)%nat -> exists e, Client.attempt (net j) = Js.Throw e) ->
    Client.attempt (net (retries - 1)) = Js.Throw error ->
    Client.turns net retries i left lastError waits
    = (Client.Threw (Some error), waits ++ map Client.waitTime (seq i (left - 1))).
Proof.
  induction left as [|left IH]; intros i lastError waits error E L F T; [lia|].
  cbn [Client.turns]. destruct left as [|left].
  - replace (retries - 1)%nat with i in T by lia. rewrite T.
    destruct (Nat.ltb_spec (S i) retries) as [G|_]; [lia|].
    cbn [Client.turns Nat.sub seq map]. now rewrite app_nil_r.
  - destruct (F i ltac:(lia)) as (e & Ti). rewrite Ti.
    destruct (Nat.ltb_spec (S i) retries) as [_|G]; [|lia].
    rewrite (IH (S i) (Some e) (waits ++ [Client.waitTime i]) error); try lia.
    + cbn [Nat.sub seq map]. rewrite Nat.sub_0_r. now rewrite <- app_assoc.
    + intros j J. apply F. lia.
    + exact T.
Qed.

End Retrying.

(** X26.  [fetchWithTimeout] returns the first response that is [ok]: when
    the request of turn [k], below [retries], is the first to get one, the
    call returns it after the waits of the turns before,
    [min(1000 * 2^i, 5000)] ms after turn [i], whatever later requests
    would meet. *)
Theorem fetchWithTimeout_returns_first_success :
  forall (net : nat -> Client.Attempt) (retries k : nat) (r : Client.Response),
    (k < retries)%nat ->
    (forall j, (j < k)%nat -> exists error, Client.attempt (net j) = Js.Throw error) ->
    Client.attempt (net k) = Js.Return r ->
    Client.fetchWithTimeout net retries
    = (Client.Got r, map Client.waitTime (seq 0 k)) /\
    Client.ok r = true.
Proof.
  intros net retries k r L F R. split; [|exact (attempt_ok _ _ R)].
  unfold Client.fetchWithTimeout.
  rewrite (turns_success net retries k 0 retries None [] r); try lia; try reflexivity.
  - intros j J. apply F. lia.
  - exact R.
Qed.

Lemma fetchWithTimeout_returns_first_success_witness :
  let net := fun i : nat =>
    match i with
    | O => Client.Failed (Js.mkError "The user aborted a request.")
    | S O => Client.Responded {| Client.status := 503; Client.body := "busy" |}
    | _ => Client.Responded {| Client.status := 200; Client.body := "{}" |}
    end in
  Client.fetchWithTimeout net 3
  = (Client.Got {| Client.status := 200; Client.body := "{}" |},
     map Client.waitTime (seq 0 2)) /\
  Client.ok {| Client.status := 200; Client.body := "{}" |} = true.
Proof.
  intros net.
  apply (fetchWithTimeout_returns_first_success
           net 3 2 {| Client.status := 200; Client.body := "{}" |}).
  - lia.
  - intros [|[|j]] J.
    + eexists. reflexivity.
    + eexists. reflexivity.
    + lia.
  - reflexivity.
Defined.

(** X27.  When none of the [retries] requests gets a response that is
    [ok], [fetchWithTimeout] throws the error of the last turn; it has
    waited after every turn but the last, [min(1000 * 2^i, 5000)] ms after
    turn [i], each wait lying between one and five seconds. *)
Theorem fetchWithTimeout_throws_last_error :
  forall (net : nat -> Client.Attempt) (retries : nat) (error : Js.Error),
    (0 < retries)%nat ->
    (forall j, (j < retries)%nat -> exists e, Client.attempt (net j) = Js.Throw e) ->
    Client.attempt (net (retries - 1)%nat) = Js.Throw error ->
    Client.fetchWithTimeout net retries
    = (Client.Threw (Some error), map Client.waitTime (seq 0 (retries - 1))) /\
    Forall (fun t => 1000 <= t <= 5000) (snd (Client.fetchWithTimeout net retries)).
Proof.
  intros net retries error L F T.
  assert (E : Client.fetchWithTimeout net retries
              = (Client.Threw (Some error),
                 map Client.waitTime (seq 0 (retries - 1)))).
  { unfold Client.fetchWithTimeout.
    rewrite (turns_all_fail net retries retries 0 None [] error); try lia;
      try reflexivity.
    - intros j J. apply F. lia.
    - exact T. }
  split; [exact E|]. rewrite E. cbn [snd].
  apply Forall_forall. intros t I. apply in_map_iff in I as (i & <- & _).
  apply waitTime_bounds.
Qed.

Lemma fetchWithTimeout_throws_last_error_witness :
  let net := fun i : nat =>
    match i with
    | O => Client.Failed (Js.mkError "The user aborted a request.")
    | _ => Client.Responded {| Client.status := 503; Client.body := "busy" |}
    end in
  Client.fetchWithTimeout net 3
  = (Client.Threw (Some (Js.mkError "HTTP error! status: 503")),
     map Client.waitTime (seq 0 (3 - 1))) /\
  Forall (fun t => 1000 <= t <= 5000) (snd (Client.fetchWithTimeout net 3)).
Proof.
  intros net.
  apply (fetchWithTimeout_throws_last_error net 3 (Js.mkError "HTTP error! status: 503")).
  - lia.
  - intros [|j] J; eexists; reflexivity.
  - reflexivity.
Defined.

Section Colours.

Lemma dictGet_none (k : string) (d : Js.Dict) :
  Js.dictGet k d = None -> ~ In k (map fst d).
Proof.
  unfold Js.dictGet. induction d as [|p d IH]; cbn [find map In]; [tauto|].
  destruct (String.eqb_spec (fst p) k) as [E|N]; [discriminate|].
  intros F [E|I]; [contradiction|]. now apply IH.
Qed.

Lemma dictGet_app_keep (k c : string) (d d' : Js.Dict) :
  Js.dictGet k d = Some c -> Js.dictGet k (d ++ d') = Some c.
Proof.
  unfold Js.dictGet. induction d as [|p d IH]; cbn [find app]; [discriminate|].
  destruct (fst p =? k)%string; [tauto|exact IH].
Qed.

Lemma dictGet_app_new (k c : string) (d : Js.Dict) :
  Js.dictGet k d = None -> Js.dictGet k (d ++ [(k, c)]) = Some c.
Proof.
  unfold Js.dictGet. induction d as [|p d IH]; cbn [find app fst].
  - now rewrite String.eqb_refl.
  - destruct (fst p =? k)%string; [discriminate|exact IH].
Qed.

(** After a call the map holds the colour returned. *)
Lemma getCategoryColor_recorded (random : nat) (category : string) (d : Js.Dict) :
  Js.dictGet category (snd (Client.getCategoryColor random category d))
  = Some (fst (Client.getCategoryColor random category d)).
Proof.
  unfold Client.getCategoryColor.
  destruct (Js.dictGet category d) as [color|] eqn:G; cbn [fst snd]; [exact G|].
  now apply dictGet_app_new.
Qed.

(** A call leaves the colours already given as they are. *)
Lemma getCategoryColor_keeps (random : nat) (category k c : string) (d : Js.Dict) :
  Js.dictGet k d = Some c ->
  Js.dictGet k (snd (Client.getCategoryColor random category d)) = Some c.
Proof.
  intros G. unfold Client.getCategoryColor.
  destruct (Js.dictGet category d) as [color|]; cbn [snd]; [exact G|].
  now apply dictGet_app_keep.
Qed.

Lemma calls_keep (calls : list (nat * string)) (k c : string) (d : Js.Dict) :
  Js.dictGet k d = Some c ->
  Js.dictGet k (Client.colorsAfter calls d) = Some c.
Proof.
  revert d. induction calls as [|call calls IH]; intros d G; [exact G|].
  cbn [Client.colorsAfter fold_left]. apply IH. now apply getCategoryColor_keeps.
Qed.

End Colours.

Section Colours2.

Lemma existsb_eqb_in (c : string) (l : list string) :
  existsb (String.eqb c) l = true <-> In c l.
Proof.
  rewrite existsb_exists. split.
  - intros (x & I & E). apply String.eqb_eq in E. now subst.
  - intros I. exists c. split; [exact I|apply String.eqb_refl].
Qed.

(** With fewer than twelve colours given in palette order, the first
    unused colour is the next of the palette. *)
Lemma next_unused (values : list string) (n : nat) :
  (n < 12)%nat -> values = firstn n Client.colorPalette ->
  exists color rest,
    filter (fun color => negb (existsb (String.eqb color) values)) Client.colorPalette
    = color :: rest /\
    firstn (S n) Client.colorPalette = values ++ [color].
Proof.
  intros L ->.
  do 12 (destruct n as [|n]; [eexists; eexists; split; reflexivity|]).
  lia.
Qed.

Lemma getCategoryColor_inPaletteOrder (random : nat) (category : string) (d : Js.Dict) :
  Client.inPaletteOrder d ->
  Client.inPaletteOrder (snd (Client.getCategoryColor random category d)).
Proof.
  intros [K V]. unfold Client.getCategoryColor.
  destruct (Js.dictGet category d) as [color|] eqn:G; cbn [snd]; [now split|].
  split.
  - rewrite map_app. cbn [map fst].
    apply NoDup_app; repeat split; try assumption.
    + constructor; [intros []|constructor].
    + intros k I [<-|[]]. exact (dictGet_none _ _ G I).
  - rewrite length_app, map_app. cbn [List.length map snd]. intros L.
    destruct (next_unused (map snd d) (List.length d) ltac:(lia) (V ltac:(lia)))
      as (color & rest & F & N).
    rewrite F. replace (List.length d + 1)%nat with (S (List.length d)) by lia.
    now rewrite N.
Qed.

Lemma colorsAfter_inPaletteOrder (calls : list (nat * string)) (d : Js.Dict) :
  Client.inPaletteOrder d -> Client.inPaletteOrder (Client.colorsAfter calls d).
Proof.
  revert d. induction calls as [|call calls IH]; intros d I; [exact I|].
  cbn [Client.colorsAfter fold_left]. apply IH. now apply getCategoryColor_inPaletteOrder.
Qed.

Lemma palette_NoDup : NoDup Client.colorPalette.
Proof.
  unfold Client.colorPalette.
  repeat (constructor; [cbn [In]; intros I; repeat (destruct I as [I|I]; [discriminate I|]);
                        exact I|]).
  constructor.
Qed.

Lemma firstn_NoDup {A} (n : nat) (l : list A) : NoDup l -> NoDup (firstn n l).
Proof.
  intros N. rewrite <- (firstn_skipn n l) in N. exact (NoDup_app_remove_r _ _ N).
Qed.

End Colours2.

(** X28.  A category keeps its colour: once [getCategoryColor] has been
    called for a category, whatever calls follow, for this or for other
    categories, a later call for it returns the colour of the first. *)
Theorem getCategoryColor_is_stable :
  forall (random random' : nat) (category : string) (categoryColors : Js.Dict)
         (calls : list (nat * string)),
    fst (Client.getCategoryColor random' category
           (Client.colorsAfter calls
              (snd (Client.getCategoryColor random category categoryColors))))
    = fst (Client.getCategoryColor random category categoryColors).
Proof.
  intros random random' category categoryColors calls.
  pose proof (calls_keep calls _ _ _
                (getCategoryColor_recorded random category categoryColors)) as G.
  unfold Client.getCategoryColor at 1. now rewrite G.
Qed.

(** X29.  Starting from the empty map, as long as no more than twelve
    categories have been seen, they have the first colours of the palette
    in the order they came: no two categories share a colour and no
    random colour has been drawn. *)
Theorem getCategoryColor_gives_distinct_colors :
  forall (calls : list (nat * string)),
    let categoryColors := Client.colorsAfter calls [] in
    (List.length categoryColors <= 12)%nat ->
    map snd categoryColors = firstn (List.length categoryColors) Client.colorPalette /\
    NoDup (map snd categoryColors) /\
    NoDup (map fst categoryColors).
Proof.
  intros calls categoryColors L.
  assert (I : Client.inPaletteOrder categoryColors).
  { apply colorsAfter_inPaletteOrder. split; [constructor|reflexivity]. }
  destruct I as [K V]. split; [exact (V L)|]. split; [|exact K].
  rewrite (V L). apply firstn_NoDup, palette_NoDup.
Qed.

Lemma getCategoryColor_gives_distinct_colors_witness :
  let categoryColors :=
    Client.colorsAfter [(0%nat, "A"); (5%nat, "C"); (7%nat, "A"); (1%nat, "B")] [] in
  map snd categoryColors = firstn (List.length categoryColors) Client.colorPalette /\
  NoDup (map snd categoryColors) /\
  NoDup (map fst categoryColors).
Proof.
  apply (getCategoryColor_gives_distinct_colors
           [(0%nat, "A"); (5%nat, "C"); (7%nat, "A"); (1%nat, "B")]).
  vm_compute. repeat constructor.
Defined.

(** X30.  A stored [lastUpdate] that is not empty and that [parseInt]
    does not read as a number never expires: [isDataExpired] answers false
    at every instant, where it answers true for a missing or empty one. *)
Theorem isDataExpired_unreadable_never_expires :
  forall (now : Z) (text : string),
    text <> "" ->
    Js.parseInt (Some text) = None ->
    Client.isDataExpired now (Some text) = false /\
    Client.isDataExpired now None = true /\
    Client.isDataExpired now (Some "") = true.
Proof.
  intros now text N P. unfold Client.isDataExpired, Js.truthy.
  apply String.eqb_neq in N. rewrite N, P. cbn. now repeat split.
Qed.

Lemma isDataExpired_unreadable_never_expires_witness :
  Client.isDataExpired Demo.noon (Some "yesterday") = false /\
  Client.isDataExpired Demo.noon None = true /\
  Client.isDataExpired Demo.noon (Some "") = true.
Proof.
  apply (isDataExpired_unreadable_never_expires Demo.noon "yesterday").
  - discriminate.
  - reflexivity.
Defined.

(** A stored value that starts with U+00A0 is read past the blank, and
    expires like any other. *)
Example isDataExpired_reads_after_no_break_space :
  Client.isDataExpired Demo.noon (Some (String "194" (String "160" "1"))) = true.
Proof. reflexivity. Qed.
